(** * Financial-Transaction-Extractor: extraction, normalization and
      deduplication pipeline

    A shallow embedding of [gmail_to_sheets.py] (whose functions
    [extract_email_body] and [parse_email_with_gemini] are repeated verbatim
    in [api/process.py]) and of the entry points of [telegram_notifier.py]
    that the orchestrator calls.

    - Python values are the JSON values [json.loads] can return; a float is
      an IEEE 754 binary64 value ([spec_float]), on which [abs] and unary
      minus are exact.
    - A Python [dict] with string keys is a [gmap string jvalue].
    - An exception is a [Raised] outcome; [try/except Exception] is a match
      on the outcome.
    - Functions of the Python runtime and of its standard library that the
      repository calls but does not define ([str.lower], [float] on a string,
      [base64.urlsafe_b64decode], [HTMLParser.feed], [json.loads], ...) are
      the fields of the class [PyRuntime]; the remote services (Gmail,
      Sheets, Gemini) and the clock are the fields of a [world]. *)

From Stdlib Require Import ZArith String Ascii List Lia.
From Stdlib Require Import Floats.SpecFloat.
From stdpp Require Import base option list gmap strings pretty.

Set Warnings "-register-all".
Local Open Scope string_scope.

(** ** Exceptions and outcomes *)

(** The exception classes that reach a handler of the modelled code.
    [binascii.Error], [UnicodeDecodeError] and [json.JSONDecodeError] are
    subclasses of [ValueError]; [BackendError] stands for whatever a call to
    a remote service raises. *)
Inductive exn : Type :=
  | KeyError
  | IndexError
  | TypeError
  | ValueError
  | AttributeError
  | OverflowError
  | BackendError.

Inductive outcome (A : Type) : Type :=
  | Ok (a : A)
  | Raised (e : exn).
Arguments Ok {A} a.
Arguments Raised {A} e.

#[global] Instance outcome_ret : MRet outcome := fun _ a => Ok a.
#[global] Instance outcome_bind : MBind outcome := fun _ _ f m =>
  match m with
  | Ok a => f a
  | Raised e => Raised e
  end.

(** [try: ... except Exception: return fallback]. *)
Definition try_except {A : Type} (m : outcome A) (fallback : A) : A :=
  match m with
  | Ok a => a
  | Raised _ => fallback
  end.

(** ** Python values *)

Inductive jvalue : Type :=
  | JNull
  | JBool (b : bool)
  | JInt (z : Z)
  | JFloat (f : spec_float)
  | JStr (s : string)
  | JArr (l : list jvalue)
  | JObj (m : gmap string jvalue).

Abbreviation pydict := (gmap string jvalue).

(** binary64: 53 bits of precision, exponent of the infinities 1024. *)
Definition prec : Z := 53.
Definition emax : Z := 1024.

Definition float_of_Z (z : Z) : spec_float := binary_normalize prec emax z 0 false.

(** ** The Python runtime *)

Class PyRuntime : Type := {
  (** [s.lower()] *)
  str_lower : string -> string;
  (** [s.strip()] *)
  str_strip : string -> string;
  (** [str(x)] for a float [x] *)
  float_repr : spec_float -> string;
  (** [str(x)] for a list or a dict [x] *)
  container_repr : jvalue -> string;
  (** [float(s)] for a string [s]; [None] when it raises [ValueError] *)
  float_of_str : string -> option spec_float;
  (** [base64.urlsafe_b64decode(data).decode('utf-8')]; both steps raise
      subclasses of [ValueError] *)
  b64_utf8_decode : string -> outcome string;
  (** the arguments of the successive [handle_data] calls that
      [HTMLParser.feed(html)] makes on a fresh parser *)
  html_feed : string -> list string;
  (** [json.loads(s)] *)
  json_loads : string -> outcome jvalue
}.

(** [x[i]] on a list. *)
Definition subscript {A : Type} (l : list A) (i : nat) : outcome A :=
  match l !! i with
  | Some a => Ok a
  | None => Raised IndexError
  end.

(** [d[k]] on a dict-like optional field. *)
Definition item {A : Type} (field : option A) : outcome A :=
  match field with
  | Some a => Ok a
  | None => Raised KeyError
  end.

(** Truth value of a string: [if s:]. *)
Definition str_truthy (s : string) : bool :=
  match s with
  | EmptyString => false
  | String _ _ => true
  end.

(** Truth value of [None]-or-string: [if body:]. *)
Definition opt_str_truthy (o : option string) : bool :=
  match o with
  | Some s => str_truthy s
  | None => false
  end.

(** [sub in s] for strings. *)
Fixpoint py_in (sub s : string) : bool :=
  String.prefix sub s ||
  match s with
  | EmptyString => false
  | String _ s' => py_in sub s'
  end.

(** [s.split(sep)] for a non-empty [sep]: [cur] is the piece being read
    (reversed), [skip] the number of characters of a matched separator still
    to be passed over. *)
Fixpoint split_go (sep : string) (skip : nat) (cur : list ascii) (s : string)
  : list string :=
  match s with
  | EmptyString => [string_of_list_ascii (rev cur)]
  | String c s' =>
      match skip with
      | S k => split_go sep k cur s'
      | O =>
          if String.prefix sep s
          then string_of_list_ascii (rev cur) :: split_go sep (String.length sep - 1) [] s'
          else split_go sep 0 (c :: cur) s'
      end
  end.

Definition py_split (sep s : string) : list string := split_go sep 0 [] s.

(** [' '.join(l)] *)
Definition py_join (sep : string) (l : list string) : string := String.concat sep l.

Section Pipeline.
Context `{PyRuntime}.

(** [str(x)] *)
Definition py_str (x : jvalue) : string :=
  match x with
  | JNull => "None"
  | JBool true => "True"
  | JBool false => "False"
  | JInt z => pretty z
  | JFloat f => float_repr f
  | JStr s => s
  | JArr _ | JObj _ => container_repr x
  end.

(** [float(x)]: [TypeError] on [None] and containers, [ValueError] on a
    string that is no number, [OverflowError] on an integer beyond the
    range of binary64. *)
Definition py_float (x : jvalue) : outcome spec_float :=
  match x with
  | JNull => Raised TypeError
  | JBool b => Ok (float_of_Z (if b then 1 else 0))
  | JInt z =>
      match float_of_Z z with
      | S754_infinity _ => Raised OverflowError
      | f => Ok f
      end
  | JFloat f => Ok f
  | JStr s =>
      match float_of_str s with
      | Some f => Ok f
      | None => Raised ValueError
      end
  | JArr _ | JObj _ => Raised TypeError
  end.

(** ** Content extractor *)

(** *** [class HTMLTextExtractor(HTMLParser)] *)

Record HTMLTextExtractor : Type := { text : list string }.

(** [__init__] *)
Definition HTMLTextExtractor_init : HTMLTextExtractor := {| text := [] |}.

(** [handle_data]: [self.text.append(data)] *)
Definition handle_data (self : HTMLTextExtractor) (chunk : string) : HTMLTextExtractor :=
  {| text := text self ++ [chunk] |}.

(** [feed], inherited: the parser calls [handle_data] on each run of
    character data, in document order. *)
Definition feed (self : HTMLTextExtractor) (html : string) : HTMLTextExtractor :=
  foldl handle_data self (html_feed html).

(** [get_text]: [' '.join(self.text)] *)
Definition get_text (self : HTMLTextExtractor) : string := py_join " " (text self).

(** *** The payload tree of a message *)

(** The [body] dict of a part; [data] is its base64url text, when present. *)
Record msg_body : Type := { data : option string }.

(** A part of the Gmail payload: each key may be absent. *)
Inductive payload : Type :=
  Payload {
    mimeType : option string;
    body : option msg_body;
    parts : option (list payload)
  }.

(** [part.get('mimeType') == mt] *)
Definition mime_is (part : payload) (mt : string) : bool :=
  match mimeType part with
  | Some m => String.eqb m mt
  | None => false
  end.

(** [base64.urlsafe_b64decode(data).decode('utf-8')] fed to a fresh
    [HTMLTextExtractor], then [get_text()]. *)
Definition html_to_text (data : string) : outcome string :=
  html_content ← b64_utf8_decode data;
  let parser := HTMLTextExtractor_init in
  let parser := feed parser html_content in
  Ok (get_text parser).

(** [extract_email_body(message_payload)]; the inner [scan] is the [for]
    loop over [message_payload['parts']]. *)
Fixpoint extract_email_body (message_payload : payload) : outcome (option string) :=
  match message_payload with
  | Payload _ _ (Some ps) =>
      (fix scan (ps : list payload) : outcome (option string) :=
         match ps with
         | [] => Ok None
         | part :: rest =>
             if mime_is part "text/plain" then
               b ← item (body part);
               let data := default "" (data b) in
               if str_truthy data
               then txt ← b64_utf8_decode data; Ok (Some txt)
               else scan rest
             else if mime_is part "text/html" then
               b ← item (body part);
               let data := default "" (data b) in
               if str_truthy data
               then txt ← html_to_text data; Ok (Some txt)
               else scan rest
             else
               match part with
               | Payload _ _ (Some _) =>
                   body ← extract_email_body part;
                   if opt_str_truthy body then Ok body else scan rest
               | Payload _ _ None => scan rest
               end
         end) ps
  | Payload mt b None =>
      let data := default "" (b ≫= data) in
      if str_truthy data then
        if mime_is message_payload "text/html"
        then txt ← html_to_text data; Ok (Some txt)
        else txt ← b64_utf8_decode data; Ok (Some txt)
      else Ok None
  end.

(** ** Transaction classifier adapter and normalizer *)

(** The request sent to the model: the f-string of the source is fixed text
    around these two values. *)
Record prompt : Type := { email_text : string; current_date : string }.

(** Lines 292-295: the reply may be wrapped in a markdown code fence. *)
Definition strip_fence (response_text : string) : outcome string :=
  if py_in "```json" response_text then
    after ← subscript (py_split "```json" response_text) 1;
    inner ← subscript (py_split "```" after) 0;
    Ok (str_strip inner)
  else if py_in "```" response_text then
    after ← subscript (py_split "```" response_text) 1;
    inner ← subscript (py_split "```" after) 0;
    Ok (str_strip inner)
  else Ok response_text.

(** [parsed_data.get('transaction_type') == 'expense'] *)
Definition is_expense (transaction_type : option jvalue) : bool :=
  match transaction_type with
  | Some (JStr s) => String.eqb s "expense"
  | _ => false
  end.

(** Lines 304-310: the sign of the amount follows the transaction type. *)
Definition signed_amount (raw : spec_float) (expense : bool) : spec_float :=
  let amount := SFabs raw in
  if expense then SFopp amount else SFabs amount.

(** Lines 301-314, the sign normalization of the parsed reply.
    [parsed_data.get] raises [AttributeError] when the reply is valid JSON
    but no object. *)
Definition normalize_amount (parsed_data : jvalue) : outcome pydict :=
  match parsed_data with
  | JObj d =>
      match d !! "amount" with
      | None | Some JNull => Ok d
      | Some raw =>
          f ← py_float raw;
          let amount := signed_amount f (is_expense (d !! "transaction_type")) in
          Ok (<["amount" := JFloat amount]> d)
      end
  | _ => Raised AttributeError
  end.

(** The [try] block of [parse_email_with_gemini]. *)
Definition parse_reply (generate_content : prompt -> outcome string)
    (today : string) (text : string) : outcome pydict :=
  response_text ← generate_content {| email_text := text; current_date := today |};
  response_text ← strip_fence response_text;
  parsed_data ← json_loads response_text;
  normalize_amount parsed_data.

(** [parse_email_with_gemini(gemini_model_instance, email_text)]: the
    extracted fields, or [None] when parsing failed. *)
Definition parse_email_with_gemini (generate_content : prompt -> outcome string)
    (today : string) (text : string) : option pydict :=
  if negb (str_truthy text) then None
  else
    match parse_reply generate_content today text with
    | Ok parsed_data => Some parsed_data
    | Raised _ => None
    end.

(** ** Store access *)

(** [headers] of [get_existing_data]: the six-column schema. *)
Definition headers : list string :=
  ["date"; "amount"; "category"; "description"; "user_id"; "timestamp"].

(** [row + [''] * (len(headers) - len(row))]: a repetition by a negative
    count is the empty list. *)
Definition pad_row (row : list string) : list string :=
  row ++ replicate (List.length headers - List.length row) "".

(** [{headers[i]: padded_row[i] for i in range(len(headers))}] *)
Definition entry_of_row (padded_row : list string) : outcome pydict :=
  foldl (fun acc i =>
           entry ← acc;
           h ← subscript headers i;
           cell ← subscript padded_row i;
           Ok (<[h := JStr cell]> entry))
        (Ok ∅) (seq 0 (List.length headers)).

(** The loop [for row in values[1:]]. *)
Fixpoint existing_entries (rows : list (list string)) : outcome (list pydict) :=
  match rows with
  | [] => Ok []
  | row :: rest =>
      let padded_row := pad_row row in
      entry ← entry_of_row padded_row;
      existing_data ← existing_entries rest;
      Ok (entry :: existing_data)
  end.

(** The [try] block of [get_existing_data]; [response] is the outcome of
    [values().get(...).execute()] followed by [.get('values', [])]. *)
Definition read_existing (response : outcome (list (list string))) : outcome (list pydict) :=
  values ← response;
  if (List.length values <=? 1)%nat then Ok []
  else existing_entries (drop 1 values).

(** [get_existing_data(sheets_service, spreadsheet_id, sheet_range)] *)
Definition get_existing_data (response : outcome (list (list string))) : list pydict :=
  try_except (read_existing response) [].

(** ** Deduplication engine *)

(** [key_fields] of [is_duplicate] *)
Definition key_fields : list string := ["date"; "amount"; "category"; "description"].

(** [str(d.get(field, "")).lower()] *)
Definition key_of (d : pydict) (field : string) : string :=
  str_lower (py_str (default (JStr "") (d !! field))).

(** The inner loop: [match] stays [True] unless some field differs. *)
Fixpoint fields_match (new_entry existing : pydict) (fields : list string) : bool :=
  match fields with
  | [] => true
  | field :: rest =>
      let new_val := key_of new_entry field in
      let existing_val := key_of existing field in
      if negb (String.eqb new_val existing_val) then false
      else fields_match new_entry existing rest
  end.

(** [is_duplicate(new_entry, existing_entries)] *)
Fixpoint is_duplicate (new_entry : pydict) (existing_entries : list pydict) : bool :=
  match existing_entries with
  | [] => false
  | existing :: rest =>
      if fields_match new_entry existing key_fields then true
      else is_duplicate new_entry rest
  end.

(** ** Notifier ([telegram_notifier.py]) *)

(** What a notification carries; the wording of the message is fixed text
    around these values. *)
Inductive notice : Type :=
  | BatchNotice (transaction_count : nat) (account_id : string)
  | TransactionNotice (transaction_data : pydict) (account_id : string).

(** The module-level configuration read from the environment, and the
    outcome of [send_message_to_chat] for a chat and a message. *)
Record telegram : Type := {
  TELEGRAM_ENABLED : bool;
  TELEGRAM_BOT_TOKEN : string;
  TELEGRAM_CHAT_IDS : list string;
  send_message_to_chat : string -> notice -> bool
}.

(** The loop [for chat_id in TELEGRAM_CHAT_IDS] of both senders: the
    messages posted, and [success_count]. *)
Fixpoint post_to_chats (tg : telegram) (chat_ids : list string) (message : notice)
  : list (string * notice) * nat :=
  match chat_ids with
  | [] => ([], 0)
  | chat_id :: rest =>
      let '(posted, success_count) := post_to_chats tg rest message in
      ((chat_id, message) :: posted,
       if send_message_to_chat tg chat_id message then S success_count else success_count)
  end.

(** [not TELEGRAM_BOT_TOKEN or not TELEGRAM_CHAT_IDS] *)
Definition unconfigured (tg : telegram) : bool :=
  negb (str_truthy (TELEGRAM_BOT_TOKEN tg)) ||
  match TELEGRAM_CHAT_IDS tg with [] => true | _ :: _ => false end.

(** [send_batch_notification(transaction_count, account_id)]: the messages
    posted and the returned flag. *)
Definition send_batch_notification (tg : telegram) (transaction_count : nat)
    (account_id : string) : list (string * notice) * bool :=
  if negb (TELEGRAM_ENABLED tg) || unconfigured tg then ([], false)
  else
    let '(posted, success_count) :=
      post_to_chats tg (TELEGRAM_CHAT_IDS tg) (BatchNotice transaction_count account_id) in
    (posted, (0 <? success_count)%nat).

(** [send_telegram_notification(transaction_data, account_id)].  Of the
    statements of its [try] block before the posts, [float(amount)] is the
    one that can raise past the inner handlers: [ValueError] and
    [TypeError] are caught where they arise, an [OverflowError] reaches the
    outer handler, and then nothing is posted and [False] is returned. *)
Definition send_telegram_notification (tg : telegram) (transaction_data : pydict)
    (account_id : string) : list (string * notice) * bool :=
  if negb (TELEGRAM_ENABLED tg) then ([], false)
  else if unconfigured tg then ([], false)
  else
    let amount := default (JInt 0) (transaction_data !! "amount") in
    match py_float amount with
    | Ok _ | Raised ValueError | Raised TypeError =>
        let '(posted, success_count) :=
          post_to_chats tg (TELEGRAM_CHAT_IDS tg)
            (TransactionNotice transaction_data account_id) in
        (posted, (0 <? success_count)%nat)
    | Raised _ => ([], false)
    end.

(** ** Batch orchestrator *)

(** A fetched message: [email['id']] and [email['payload']]. *)
Record email : Type := { email_id : string; email_payload : payload }.

(** What one run meets outside the program. *)
Record world : Type := {
  (** whether [telegram_notifier] could be imported *)
  TELEGRAM_AVAILABLE : bool;
  (** [os.environ.get('PROCESSOR_USER_ID')] *)
  PROCESSOR_USER_ID : option string;
  (** [authenticate_google_services], [build] and [initialize_gemini_client] *)
  session : outcome unit;
  (** the list [get_emails] returns (empty when the search found nothing
      or failed) *)
  inbox : list email;
  (** [values().get(...).execute().get('values', [])] on the store *)
  sheet_values : outcome (list (list string));
  (** [generate_content(prompt).text] *)
  generate_content : prompt -> outcome string;
  (** [values().append(...).execute()] followed by the read of
      [updates.updatedRows] *)
  sheet_append : list (list jvalue) -> outcome nat;
  (** [datetime.now()] as ["%Y-%m-%d"] and as ["%Y-%m-%d %H:%M:%S"].  The
      source reads the clock anew for every message; one reading stands
      here for them all, and no statement about a run says which timestamp
      a row carries or that two rows carry the same one. *)
  today : string;
  now : string
}.

(** The requests by which a run acts on the services, as the orchestrator
    issues them: [mark_email_processed(gmail_service, message_id,
    mark_as_read=True)], the append of [append_to_sheet], and the two
    senders of the notifier.  [mark_email_processed] and the senders catch
    their own errors, so none of them raises into the caller. *)
Inductive call : Type :=
  | MarkProcessed (message_id : string)
  | SheetsAppend (rows : list (list jvalue))
  | NotifyBatch (transaction_count : nat) (account_id : string)
  | NotifyTransaction (transaction : pydict) (account_id : string).

(** Lines printed by [process_gmail_account] and [append_to_sheet]. *)
Inductive line : Type :=
  | ProcessingAccount (account_id : string)
  | NoEmailsFound (account_id : string)
  | SkippingDuplicate (description date : option jvalue)
  | NoRowsToAppend
  | AppendedRows (updated : nat)
  | ErrorAppending (e : exn)
  | ProcessedNew (transactions_count : nat)
  | SkippedDuplicates (duplicate_count : nat)
  | NoNewData
  | FoundDuplicates (duplicate_count : nat)
  | ErrorProcessingAccount (account_id : string) (e : exn).

(** The local variables of [process_gmail_account] together with what the
    run has done so far. *)
Record run_state : Type := {
  all_data_rows : list (list jvalue);
  duplicate_count : nat;
  processed_transactions : list pydict;
  calls : list call;
  printed : list line
}.

Definition do_call (c : call) (st : run_state) : run_state :=
  {| all_data_rows := all_data_rows st;
     duplicate_count := duplicate_count st;
     processed_transactions := processed_transactions st;
     calls := calls st ++ [c];
     printed := printed st |}.

Definition print (l : line) (st : run_state) : run_state :=
  {| all_data_rows := all_data_rows st;
     duplicate_count := duplicate_count st;
     processed_transactions := processed_transactions st;
     calls := calls st;
     printed := printed st ++ [l] |}.

(** [duplicate_count += 1] *)
Definition count_duplicate (st : run_state) : run_state :=
  {| all_data_rows := all_data_rows st;
     duplicate_count := duplicate_count st + 1;
     processed_transactions := processed_transactions st;
     calls := calls st;
     printed := printed st |}.

(** [all_data_rows.append(data_row)] and
    [processed_transactions.append(entry)] *)
Definition stage (data_row : list jvalue) (entry : pydict) (st : run_state) : run_state :=
  {| all_data_rows := all_data_rows st ++ [data_row];
     duplicate_count := duplicate_count st;
     processed_transactions := processed_transactions st ++ [entry];
     calls := calls st;
     printed := printed st |}.

(** [header_row] *)
Definition header_row : list jvalue :=
  [JStr "Date"; JStr "Amount"; JStr "Category"; JStr "Description";
   JStr "User ID"; JStr "Timestamp"].

(** [os.environ.get('PROCESSOR_USER_ID', f'email-processor-{account_id}')] *)
Definition email_processor_user_id (w : world) (account_id : string) : string :=
  default ("email-processor-" ++ account_id) (PROCESSOR_USER_ID w).

(** Lines 480-485: the entry built for duplicate checking. *)
Definition make_entry (today : string) (parsed_data : pydict) : pydict :=
  {[ "date" := default (JStr today) (parsed_data !! "date");
     "amount" := default (JInt 0) (parsed_data !! "amount");
     "category" := default (JStr "Lainnya") (parsed_data !! "category");
     "description" := default (JStr "") (parsed_data !! "description") ]}.

(** Lines 497-504: [data_row] *)
Definition make_data_row (entry : pydict) (user_id timestamp : string)
  : outcome (list jvalue) :=
  date ← item (entry !! "date");
  amount ← item (entry !! "amount");
  category ← item (entry !! "category");
  description ← item (entry !! "description");
  Ok [date; amount; category; description; JStr user_id; JStr timestamp].

(** [if parsed_data:] on a dict *)
Definition dict_truthy (d : pydict) : bool := negb (size d =? 0)%nat.

(** The body of the loop [for email in emails] (lines 468-510). *)
Definition process_email (w : world) (account_id : string)
    (existing_data : list pydict) (st : run_state) (email : email)
  : outcome run_state :=
  let message_id := email_id email in
  let payload := email_payload email in
  email_body ← extract_email_body payload;
  if opt_str_truthy email_body then
    match parse_email_with_gemini (generate_content w) (today w) (default "" email_body) with
    | Some parsed_data =>
        if dict_truthy parsed_data then
          let entry := make_entry (today w) parsed_data in
          if is_duplicate entry existing_data then
            let st := print (SkippingDuplicate (entry !! "description") (entry !! "date")) st in
            let st := count_duplicate st in
            Ok (do_call (MarkProcessed message_id) st)
          else
            data_row ← make_data_row entry (email_processor_user_id w account_id) (now w);
            let st := stage data_row entry st in
            Ok (do_call (MarkProcessed message_id) st)
        else Ok st
    | None => Ok st
    end
  else Ok st.

(** The loop itself: an exception leaves it with what was done before. *)
Fixpoint process_emails (w : world) (account_id : string)
    (existing_data : list pydict) (emails : list email) (st : run_state)
  : run_state * option exn :=
  match emails with
  | [] => (st, None)
  | email :: rest =>
      match process_email w account_id existing_data st email with
      | Ok st' => process_emails w account_id existing_data rest st'
      | Raised e => (st, Some e)
      end
  end.

(** [append_to_sheet(sheets_service, spreadsheet_id, sheet_range, data_rows,
    skip_header)]: it returns [None] on every path and catches what the
    backend raises. *)
Definition append_to_sheet (w : world) (data_rows : list (list jvalue))
    (skip_header : bool) (st : run_state) : run_state :=
  let rows_to_append :=
    if skip_header && (1 <? List.length data_rows)%nat then drop 1 data_rows else data_rows in
  match rows_to_append with
  | [] => print NoRowsToAppend st
  | _ :: _ =>
      let st := do_call (SheetsAppend rows_to_append) st in
      match sheet_append w rows_to_append with
      | Ok updated => print (AppendedRows updated) st
      | Raised e => print (ErrorAppending e) st
      end
  end.

(** Lines 529-530: one notification per processed transaction. *)
Definition notify_each (account_id : string) (transactions : list pydict)
    (st : run_state) : run_state :=
  foldl (fun st transaction => do_call (NotifyTransaction transaction account_id) st)
        st transactions.

(** Lines 512-537: what follows the loop. *)
Definition finish (w : world) (account_id : string) (existing_data : list pydict)
    (st : run_state) : run_state :=
  if (1 <? List.length (all_data_rows st))%nat then
    let should_skip_header := (0 <? List.length existing_data)%nat in
    let st := append_to_sheet w (all_data_rows st) should_skip_header st in
    let transactions_count := (List.length (all_data_rows st) - 1)%nat in
    let st := print (ProcessedNew transactions_count) st in
    let st :=
      if TELEGRAM_AVAILABLE w && (0 <? transactions_count)%nat then
        if (5 <? transactions_count)%nat
        then do_call (NotifyBatch transactions_count account_id) st
        else notify_each account_id (processed_transactions st) st
      else st in
    if (0 <? duplicate_count st)%nat
    then print (SkippedDuplicates (duplicate_count st)) st
    else st
  else
    let st := print NoNewData st in
    if (0 <? duplicate_count st)%nat
    then print (FoundDuplicates (duplicate_count st)) st
    else st.

(** What the caller of [process_gmail_account] gets back, and the state the
    run ended in. *)
Record run : Type := { returned : jvalue; final : run_state }.

Definition initial_state (account_id : string) : run_state :=
  {| all_data_rows := [];
     duplicate_count := 0;
     processed_transactions := [];
     calls := [];
     printed := [ProcessingAccount account_id] |}.

(** The state in which the loop starts (lines 455-461): the header row is
    the only row. *)
Definition loop_start (account_id : string) : run_state :=
  {| all_data_rows := [header_row];
     duplicate_count := 0;
     processed_transactions := [];
     calls := [];
     printed := [ProcessingAccount account_id] |}.

(** [process_gmail_account(account_id)]: every path ends in an implicit or
    bare [return], so the caller receives [None]. *)
Definition process_gmail_account (w : world) (account_id : string) : run :=
  let st := initial_state account_id in
  match session w with
  | Raised e =>
      {| returned := JNull; final := print (ErrorProcessingAccount account_id e) st |}
  | Ok _ =>
      let emails := inbox w in
      match emails with
      | [] => {| returned := JNull; final := print (NoEmailsFound account_id) st |}
      | _ :: _ =>
          let existing_data := get_existing_data (sheet_values w) in
          let st := loop_start account_id in
          match process_emails w account_id existing_data emails st with
          | (st, Some e) =>
              {| returned := JNull; final := print (ErrorProcessingAccount account_id e) st |}
          | (st, None) =>
              {| returned := JNull; final := finish w account_id existing_data st |}
          end
      end
  end.

End Pipeline.

(** ** The calls to the mail service and the HTTP entry point

    [get_emails] and [mark_email_processed] of [gmail_to_sheets.py], the
    transaction label of [send_telegram_notification], and [process_emails]
    of [api/process.py]. *)

Section Services.
Context `{PyRuntime}.

(** *** [get_emails(gmail_service, search_query)] *)

(** The two calls of the Gmail API that [get_emails] makes: the ids of
    [messages().list(...).execute().get('messages', [])], and
    [messages().get(id=...).execute()]. *)
Record mailbox : Type := {
  list_messages : outcome (list string);
  get_message : string -> outcome email
}.

(** The loop [for message in messages]. *)
Fixpoint fetch_messages (get : string -> outcome email) (messages : list string)
  : outcome (list email) :=
  match messages with
  | [] => Ok []
  | message :: rest =>
      msg ← get message;
      emails ← fetch_messages get rest;
      Ok (msg :: emails)
  end.

(** The [try] block, and the function: any exception gives the empty
    list. *)
Definition get_emails (mb : mailbox) : list email :=
  try_except
    (messages ← list_messages mb;
     match messages with
     | [] => Ok []
     | _ :: _ => fetch_messages (get_message mb) messages
     end)
    [].

(** *** [mark_email_processed(gmail_service, message_id, label_name,
    mark_as_read)] *)

(** A label as [labels().list()] returns it. *)
Record gmail_label : Type := { label_name_of : string; label_id_of : string }.

(** The body of [messages().modify]. *)
Record modify_request : Type := {
  addLabelIds : list string;
  removeLabelIds : option (list string)
}.

(** The answers of the Gmail API to the three calls. *)
Record gmail : Type := {
  labels_list : outcome (list gmail_label);
  labels_create : string -> outcome string;
  messages_modify : string -> modify_request -> outcome unit
}.

Inductive gmail_call : Type :=
  | ListLabels
  | CreateLabel (name : string)
  | ModifyMessage (message_id : string) (request : modify_request).

(** The loop [for label in labels] with its [break]: the id of the first
    label that bears the name. *)
Fixpoint find_label (labels : list gmail_label) (label_name : string) : option string :=
  match labels with
  | [] => None
  | label :: rest =>
      if String.eqb (label_name_of label) label_name then Some (label_id_of label)
      else find_label rest label_name
  end.

(** The function: the calls it makes, in order, and whether it printed its
    success line (it prints the error otherwise; it never raises). *)
Definition mark_email_processed (g : gmail) (message_id label_name : string)
    (mark_as_read : bool) : list gmail_call * bool :=
  match labels_list g with
  | Raised _ => ([ListLabels], false)
  | Ok labels =>
      let label_id := find_label labels label_name in
      let created :=
        if opt_str_truthy label_id then ([], Ok (default "" label_id))
        else ([CreateLabel label_name], labels_create g label_name) in
      match snd created with
      | Raised _ => (ListLabels :: fst created, false)
      | Ok label_id =>
          let request :=
            {| addLabelIds := [label_id];
               removeLabelIds := if mark_as_read then Some ["UNREAD"] else None |} in
          (ListLabels :: fst created ++ [ModifyMessage message_id request],
           match messages_modify g message_id request with
           | Ok _ => true
           | Raised _ => false
           end)
      end
  end.

(** *** The label of a transaction in [send_telegram_notification]
    (lines 107-113) *)

Inductive transaction_label : Type :=
  | Pemasukan
  | Pengeluaran
  | Transaksi.

(** [amount_float >= 0] *)
Definition float_nonnegative (f : spec_float) : bool := SFleb (S754_zero false) f.

(** The label for [transaction_data.get('amount', 0)].  [ValueError] and
    [TypeError] are caught here; any other exception reaches the handler
    of the function, which sends nothing. *)
Definition label_of_amount (transaction_data : pydict) : outcome transaction_label :=
  let amount := default (JInt 0) (transaction_data !! "amount") in
  match py_float amount with
  | Ok amount_float =>
      Ok (if float_nonnegative amount_float then Pemasukan else Pengeluaran)
  | Raised ValueError | Raised TypeError => Ok Transaksi
  | Raised e => Raised e
  end.

End Services.

(** ** [process_emails()] of [api/process.py]

    The [extract_email_body] and [parse_email_with_gemini] of that file
    (lines 117-205) repeat those of [gmail_to_sheets.py] statement for
    statement, apart from the prints and one sentence of the fixed text of
    the prompt; the definitions above stand for both. *)

Module Api.
Section Handler.
Context `{PyRuntime}.

(** What one request of the HTTP entry point meets outside the program. *)
Record api_world : Type := {
  (** whether [get_credentials_from_env()] found credentials *)
  api_credentials : bool;
  (** the two [build] calls *)
  api_services : outcome unit;
  (** [GEMINI_API_KEY] *)
  api_key : string;
  (** [initialize_gemini_client] *)
  api_gemini : outcome unit;
  (** the list [get_emails] returns *)
  api_inbox : list email;
  (** [generate_content(prompt).text] *)
  api_generate_content : prompt -> outcome string;
  (** [values().append(..., body={'values': [data_row]}).execute()] *)
  api_append : list jvalue -> outcome unit;
  (** whether [telegram_notifier] could be imported *)
  api_telegram_available : bool;
  (** [os.environ.get('PROCESSOR_USER_ID')] *)
  api_user_id : option string;
  (** [datetime.now()] in its two formats *)
  api_today : string;
  api_now : string
}.

(** The requests of the entry point: the append of one row, the
    [messages().modify] that removes [UNREAD] from a message (an error of
    that call is caught with the append's and changes nothing of the
    state), and the calls to the two senders with the account ['vercel']. *)
Inductive api_call : Type :=
  | AppendRow (data_row : list jvalue)
  | MarkRead (message_id : string)
  | BatchNotification (processed_count : nat)
  | TransactionNotification (transaction : pydict).

(** The value of the ['error'] key, or the other two shapes of the body. *)
Inductive api_body : Type :=
  | CredentialsNotFound
  | GeminiKeyNotConfigured
  | Unhandled (e : exn)
  | NoEmails
  | Processed (processed : nat).

Record api_response : Type := { statusCode : nat; body_of : api_body }.

(** The local variables of [process_emails] and its requests so far. *)
Record api_state : Type := {
  processed_count : nat;
  api_transactions : list pydict;
  api_calls : list api_call
}.

(** Lines 255-262: [data_row]. *)
Definition api_data_row (w : api_world) (parsed_data : pydict) : list jvalue :=
  [default (JStr (api_today w)) (parsed_data !! "date");
   default (JInt 0) (parsed_data !! "amount");
   default (JStr "Lainnya") (parsed_data !! "category");
   default (JStr "") (parsed_data !! "description");
   JStr (default "email-processor" (api_user_id w));
   JStr (api_now w)].

(** Lines 265-286: the append, the count and the mark, inside one [try]. *)
Definition api_commit (w : api_world) (message_id : string) (parsed_data : pydict)
    (st : api_state) : api_state :=
  let data_row := api_data_row w parsed_data in
  let st :=
    {| processed_count := processed_count st;
       api_transactions := api_transactions st;
       api_calls := api_calls st ++ [AppendRow data_row] |} in
  match api_append w data_row with
  | Raised _ => st
  | Ok _ =>
      {| processed_count := processed_count st + 1;
         api_transactions := api_transactions st ++ [parsed_data];
         api_calls := api_calls st ++ [MarkRead message_id] |}
  end.

(** The body of the loop (lines 245-286). *)
Definition process_email (w : api_world) (st : api_state) (email : email)
  : outcome api_state :=
  let message_id := email_id email in
  let payload := email_payload email in
  email_body ← extract_email_body payload;
  if opt_str_truthy email_body then
    match parse_email_with_gemini (api_generate_content w) (api_today w)
            (default "" email_body) with
    | Some parsed_data =>
        if dict_truthy parsed_data
        then Ok (api_commit w message_id parsed_data st)
        else Ok st
    | None => Ok st
    end
  else Ok st.

(** The loop [for email in emails]: an exception leaves it with what was
    done before. *)
Fixpoint process_loop (w : api_world) (emails : list email) (st : api_state)
  : api_state * option exn :=
  match emails with
  | [] => (st, None)
  | email :: rest =>
      match process_email w st email with
      | Ok st' => process_loop w rest st'
      | Raised e => (st, Some e)
      end
  end.

(** Lines 288-294: the notifications. *)
Definition api_notify (w : api_world) (st : api_state) : list api_call :=
  if api_telegram_available w && (0 <? processed_count st)%nat then
    if (5 <? processed_count st)%nat then [BatchNotification (processed_count st)]
    else map TransactionNotification (api_transactions st)
  else [].

(** [process_emails()]: the response, and the requests made. *)
Definition process_emails (w : api_world) : api_response * list api_call :=
  if negb (api_credentials w) then
    ({| statusCode := 401; body_of := CredentialsNotFound |}, [])
  else
    match api_services w with
    | Raised e => ({| statusCode := 500; body_of := Unhandled e |}, [])
    | Ok _ =>
        if negb (str_truthy (api_key w)) then
          ({| statusCode := 400; body_of := GeminiKeyNotConfigured |}, [])
        else
          match api_gemini w with
          | Raised e => ({| statusCode := 500; body_of := Unhandled e |}, [])
          | Ok _ =>
              match api_inbox w with
              | [] => ({| statusCode := 200; body_of := NoEmails |}, [])
              | _ :: _ =>
                  let start :=
                    {| processed_count := 0; api_transactions := []; api_calls := [] |} in
                  match process_loop w (api_inbox w) start with
                  | (st, Some e) =>
                      ({| statusCode := 500; body_of := Unhandled e |}, api_calls st)
                  | (st, None) =>
                      ({| statusCode := 200; body_of := Processed (processed_count st) |},
                       (api_calls st ++ api_notify w st)%list)
                  end
              end
          end
    end.

(** A sequence of requests in which every mark directly follows the
    append of a row that the store accepted, with the number of such
    rows. *)
Inductive commit_trace (w : api_world) : list api_call -> nat -> Prop :=
  | commit_none : commit_trace w [] 0
  | commit_refused cs n data_row e :
      commit_trace w cs n ->
      api_append w data_row = Raised e ->
      commit_trace w (cs ++ [AppendRow data_row]) n
  | commit_accepted cs n data_row message_id :
      commit_trace w cs n ->
      api_append w data_row = Ok tt ->
      commit_trace w (cs ++ [AppendRow data_row; MarkRead message_id]) (S n).

End Handler.
End Api.

(** ** Vocabulary of the statements *)

Section Vocabulary.
Context `{PyRuntime}.

(** The four key fields agree once both sides are stringified and
    lower-cased. *)
Definition same_key (new_entry existing : pydict) : Prop :=
  str_lower (py_str (default (JStr "") (new_entry !! "date")))
    = str_lower (py_str (default (JStr "") (existing !! "date"))) /\
  str_lower (py_str (default (JStr "") (new_entry !! "amount")))
    = str_lower (py_str (default (JStr "") (existing !! "amount"))) /\
  str_lower (py_str (default (JStr "") (new_entry !! "category")))
    = str_lower (py_str (default (JStr "") (existing !! "category"))) /\
  str_lower (py_str (default (JStr "") (new_entry !! "description")))
    = str_lower (py_str (default (JStr "") (existing !! "description"))).

(** The loop of [extract_email_body] over the parts of a payload, under a
    name of its own. *)
Definition scan_parts : list payload -> outcome (option string) :=
  fix scan (ps : list payload) : outcome (option string) :=
    match ps with
    | [] => Ok None
    | part :: rest =>
        if mime_is part "text/plain" then
          b ← item (body part);
          let data := default "" (data b) in
          if str_truthy data
          then txt ← b64_utf8_decode data; Ok (Some txt)
          else scan rest
        else if mime_is part "text/html" then
          b ← item (body part);
          let data := default "" (data b) in
          if str_truthy data
          then txt ← html_to_text data; Ok (Some txt)
          else scan rest
        else
          match part with
          | Payload _ _ (Some _) =>
              body ← extract_email_body part;
              if opt_str_truthy body then Ok body else scan rest
          | Payload _ _ None => scan rest
          end
    end.

(** ['parts' in part] *)
Definition has_parts (part : payload) : bool :=
  match parts part with
  | Some _ => true
  | None => false
  end.

(** The first result, in order, that is a non-empty text; a result that
    raised before one was found is raised again. *)
Fixpoint first_nonempty (results : list (outcome (option string)))
  : outcome (option string) :=
  match results with
  | [] => Ok None
  | Raised e :: _ => Raised e
  | Ok body :: rest => if opt_str_truthy body then Ok body else first_nonempty rest
  end.

(** A part that carries the media type [mt] and non-empty body data. *)
Definition part_with_data (part : payload) (mt data_text : string) : Prop :=
  mime_is part mt = true /\
  (exists b, body part = Some b /\ data b = Some data_text) /\
  str_truthy data_text = true.

(** A part the loop passes over: a text part whose body holds no data, a
    container in which no text is found, or any other leaf. *)
Definition yields_nothing (part : payload) : Prop :=
  if mime_is part "text/plain" || mime_is part "text/html"
  then exists b, body part = Some b /\ str_truthy (default "" (data b)) = false
  else
    if has_parts part
    then exists r, extract_email_body part = Ok r /\ opt_str_truthy r = false
    else True.

(** No part of the tree that the extractor reads holds body data. *)
Fixpoint no_data (p : payload) : bool :=
  match p with
  | Payload _ _ (Some ps) =>
      forallb (fun part =>
                 if mime_is part "text/plain" || mime_is part "text/html"
                 then match body part with
                      | Some b => negb (str_truthy (default "" (data b)))
                      | None => false
                      end
                 else
                   match part with
                   | Payload _ _ (Some _) => no_data part
                   | Payload _ _ None => true
                   end) ps
  | Payload _ b None => negb (str_truthy (default "" (b ≫= data)))
  end.

(** The notifications among the requests of a run. *)
Definition is_notification (c : call) : bool :=
  match c with
  | NotifyBatch _ _ | NotifyTransaction _ _ => true
  | MarkProcessed _ | SheetsAppend _ => false
  end.

Definition notifications (cs : list call) : list call := List.filter is_notification cs.

(** The messages that the notifier posts for the notification calls of a
    run, under the configuration [tg]. *)
Definition delivered (tg : telegram) (cs : list call) : list (string * notice) :=
  flat_map (fun c =>
              match c with
              | NotifyBatch transaction_count account_id =>
                  fst (send_batch_notification tg transaction_count account_id)
              | NotifyTransaction transaction account_id =>
                  fst (send_telegram_notification tg transaction account_id)
              | MarkProcessed _ | SheetsAppend _ => []
              end) cs.

(** The rows staged so far: all rows but the header. *)
Definition staged_rows (st : run_state) : list (list jvalue) := drop 1 (all_data_rows st).

(** A message the loop passes over: extraction returned no text, or the
    [try] block of [parse_email_with_gemini] raised (the backend failed,
    the reply was no JSON, or it was JSON of the wrong shape). *)
Definition skipped (w : world) (email : email) : Prop :=
  exists body,
    extract_email_body (email_payload email) = Ok body /\
    (opt_str_truthy body = false \/
     exists e, parse_reply (generate_content w) (today w) (default "" body) = Raised e).

(** A message whose text was classified and whose entry is already among
    the existing records. *)
Definition classified_duplicate (w : world) (existing_data : list pydict)
    (email : email) : Prop :=
  exists text parsed_data,
    extract_email_body (email_payload email) = Ok (Some text) /\
    str_truthy text = true /\
    parse_email_with_gemini (generate_content w) (today w) text = Some parsed_data /\
    dict_truthy parsed_data = true /\
    is_duplicate (make_entry (today w) parsed_data) existing_data = true.

(** What holds of the state all along the loop: one row beside the header
    for each transaction kept for notification, and no notification sent
    yet. *)
Definition loop_invariant (st : run_state) : Prop :=
  List.length (all_data_rows st) = S (List.length (processed_transactions st)) /\
  notifications (calls st) = [].

(** The record read from a stored row: cell [j] under header [j], the
    empty string where the row has no cell [j]. *)
Definition row_entry (row : list string) : pydict :=
  <["timestamp" := JStr (nth 5 row "")]>
    (<["user_id" := JStr (nth 4 row "")]>
      (<["description" := JStr (nth 3 row "")]>
        (<["category" := JStr (nth 2 row "")]>
          (<["amount" := JStr (nth 1 row "")]>
            (<["date" := JStr (nth 0 row "")]> ∅))))).

End Vocabulary.

(** ** Further vocabulary *)

(** Whether the character [c] occurs in [s]. *)
Fixpoint occurs (c : ascii) (s : string) : bool :=
  match s with
  | EmptyString => false
  | String a s' => Ascii.eqb a c || occurs c s'
  end.

Section MoreVocabulary.
Context `{PyRuntime}.

(** A sub-tree on which the extractor returns without text: [None] or the
    empty string. *)
Definition returns_no_text (part : payload) : Prop :=
  exists r, extract_email_body part = Ok r /\ opt_str_truthy r = false.

(** A request to mark a message. *)
Definition is_mark (c : call) : bool :=
  match c with
  | MarkProcessed _ => true
  | SheetsAppend _ | NotifyBatch _ _ | NotifyTransaction _ _ => false
  end.

(** A message whose text was classified and whose entry is not among the
    existing records. *)
Definition classified_new (w : world) (existing_data : list pydict)
    (email : email) : Prop :=
  exists text parsed_data,
    extract_email_body (email_payload email) = Ok (Some text) /\
    str_truthy text = true /\
    parse_email_with_gemini (generate_content w) (today w) text = Some parsed_data /\
    dict_truthy parsed_data = true /\
    is_duplicate (make_entry (today w) parsed_data) existing_data = false.

(** The amount of a record is absent, null, or a float that carries the
    sign of the transaction type: [-abs] of itself when the type is the
    string ["expense"], [abs] of itself for any other or missing type. *)
Definition amount_well_signed (d : pydict) : Prop :=
  match d !! "amount" with
  | None | Some JNull => True
  | Some (JFloat f) =>
      (d !! "transaction_type" = Some (JStr "expense") -> f = SFopp (SFabs f)) /\
      (d !! "transaction_type" <> Some (JStr "expense") -> f = SFabs f)
  | Some _ => False
  end.

(** The row that the orchestrator stages for an entry. *)
Definition row_of_entry (w : world) (account_id : string) (entry : pydict) : list jvalue :=
  [default JNull (entry !! "date"); default JNull (entry !! "amount");
   default JNull (entry !! "category"); default JNull (entry !! "description");
   JStr (email_processor_user_id w account_id); JStr (now w)].

(** The cells of a staged row that do not come from the clock: the date,
    amount, category and description of the entry, and the user id. *)
Definition entry_cells (w : world) (account_id : string) (entry : pydict) : list jvalue :=
  [default JNull (entry !! "date"); default JNull (entry !! "amount");
   default JNull (entry !! "category"); default JNull (entry !! "description");
   JStr (email_processor_user_id w account_id)].

(** Rows staged for entries, one for one and in order: each row is the
    five cells of its entry followed by one timestamp, whatever the clock
    read when the row was made. *)
Definition staged_for (w : world) (account_id : string)
    (rows : list (list jvalue)) (entries : list pydict) : Prop :=
  Forall2 (fun row entry =>
             exists timestamp : string,
               row = (entry_cells w account_id entry ++ [JStr timestamp])%list)
          rows entries.

(** The cells under which an entry is found again: [str] of its four key
    fields. *)
Definition key_cells (entry : pydict) : list string :=
  map (fun field => py_str (default (JStr "") (entry !! field))) key_fields.

End MoreVocabulary.

(** Induction on a payload tree, with the property available for every
    part of a node. *)
Fixpoint payload_tree_ind (P : payload -> Prop)
    (Hleaf : forall mt b, P (Payload mt b None))
    (Hnode : forall mt b ps, Forall P ps -> P (Payload mt b (Some ps)))
    (p : payload) : P p :=
  match p with
  | Payload mt b None => Hleaf mt b
  | Payload mt b (Some ps) =>
      Hnode mt b ps
        ((fix all (l : list payload) : Forall P l :=
            match l with
            | [] => List.Forall_nil P
            | q :: r => List.Forall_cons P q r (payload_tree_ind P Hleaf Hnode q) (all r)
            end) ps)
  end.

(** ** A reference runtime

    One instance of [PyRuntime], used to run the pipeline on concrete
    messages.  Strings are read as UTF-8 byte sequences.  Each function
    agrees with CPython on the inputs named in its comment; the theorems
    below are proved for every runtime and do not depend on this one. *)
Module Demo.

(** [str.lower] on ASCII letters. *)
Definition lower_ascii (c : ascii) : ascii :=
  let n := nat_of_ascii c in
  if (65 <=? n)%nat && (n <=? 90)%nat then ascii_of_nat (n + 32) else c.

Fixpoint lower (s : string) : string :=
  match s with
  | EmptyString => EmptyString
  | String c s' => String (lower_ascii c) (lower s')
  end.

(** [str.strip] for the ASCII whitespace characters. *)
Definition is_space (c : ascii) : bool :=
  let n := nat_of_ascii c in
  ((9 <=? n)%nat && (n <=? 13)%nat) || ((28 <=? n)%nat && (n <=? 32)%nat).

Fixpoint lstrip (s : string) : string :=
  match s with
  | EmptyString => EmptyString
  | String c s' => if is_space c then lstrip s' else s
  end.

Definition strip (s : string) : string :=
  let l := list_ascii_of_string (lstrip s) in
  let r := list_ascii_of_string (lstrip (string_of_list_ascii (rev l))) in
  string_of_list_ascii (rev r).

(** [str(x)] for zeros, infinities, NaN and floats whose value is an
    integer of magnitude below 10^16. *)
Definition repr_float (f : spec_float) : string :=
  match f with
  | S754_zero s => if s then "-0.0" else "0.0"
  | S754_infinity s => if s then "-inf" else "inf"
  | S754_nan => "nan"
  | S754_finite s m e =>
      let magnitude :=
        match e with
        | Z0 => Zpos m
        | Zpos p => Z.shiftl (Zpos m) (Zpos p)
        | Zneg p => Z.shiftr (Zpos m) (Zpos p)
        end in
      (if s then "-" else "") ++ pretty magnitude ++ ".0"
  end.

(** [float(s)] for an optional minus sign followed by decimal digits. *)
Definition digit (c : ascii) : option Z :=
  let n := nat_of_ascii c in
  if (48 <=? n)%nat && (n <=? 57)%nat then Some (Z.of_nat (n - 48)) else None.

Fixpoint digits (acc : Z) (s : string) : option Z :=
  match s with
  | EmptyString => Some acc
  | String c s' =>
      match digit c with
      | Some d => digits (10 * acc + d) s'
      | None => None
      end
  end.

Definition parse_float (s : string) : option spec_float :=
  match s with
  | EmptyString => None
  | String "-" (String _ _ as s') => (fun z => SFopp (float_of_Z z)) <$> digits 0 s'
  | String _ _ => float_of_Z <$> digits 0 s
  end.

(** [base64.urlsafe_b64decode] on padded text over the base64 alphabets. *)
Definition sextet (c : ascii) : option nat :=
  let n := nat_of_ascii c in
  if (65 <=? n)%nat && (n <=? 90)%nat then Some (n - 65)%nat
  else if (97 <=? n)%nat && (n <=? 122)%nat then Some (n - 71)%nat
  else if (48 <=? n)%nat && (n <=? 57)%nat then Some (n + 4)%nat
  else if (n =? 45)%nat || (n =? 43)%nat then Some 62%nat
  else if (n =? 95)%nat || (n =? 47)%nat then Some 63%nat
  else None.

Definition is_pad (c : ascii) : bool := (nat_of_ascii c =? 61)%nat.

Fixpoint b64_bytes (l : list ascii) : option (list ascii) :=
  match l with
  | [] => Some []
  | a :: b :: c :: d :: rest =>
      x ← sextet a;
      y ← sextet b;
      let b1 := ascii_of_nat (x * 4 + y / 16) in
      match rest with
      | [] =>
          if is_pad c && is_pad d then Some [b1]
          else
            z ← sextet c;
            let b2 := ascii_of_nat ((y mod 16) * 16 + z / 4) in
            if is_pad d then Some [b1; b2]
            else w ← sextet d; Some [b1; b2; ascii_of_nat ((z mod 4) * 64 + w)]
      | _ :: _ =>
          z ← sextet c;
          w ← sextet d;
          tail ← b64_bytes rest;
          Some (b1 :: ascii_of_nat ((y mod 16) * 16 + z / 4)
                   :: ascii_of_nat ((z mod 4) * 64 + w) :: tail)
      end
  | _ => None
  end.

(** [bytes.decode('utf-8')]: the well-formed byte sequences of UTF-8. *)
Definition continuation (lo hi : nat) (c : ascii) : bool :=
  let n := nat_of_ascii c in (lo <=? n)%nat && (n <=? hi)%nat.

Fixpoint utf8_ok (fuel : nat) (l : list ascii) : bool :=
  match fuel with
  | O => match l with [] => true | _ => false end
  | S fuel =>
      match l with
      | [] => true
      | c :: rest =>
          let n := nat_of_ascii c in
          if (n <? 128)%nat then utf8_ok fuel rest
          else if (194 <=? n)%nat && (n <=? 223)%nat then
            match rest with
            | c1 :: rest => continuation 128 191 c1 && utf8_ok fuel rest
            | _ => false
            end
          else if (224 <=? n)%nat && (n <=? 239)%nat then
            match rest with
            | c1 :: c2 :: rest =>
                continuation (if (n =? 224)%nat then 160 else 128)
                             (if (n =? 237)%nat then 159 else 191) c1
                && continuation 128 191 c2 && utf8_ok fuel rest
            | _ => false
            end
          else if (240 <=? n)%nat && (n <=? 244)%nat then
            match rest with
            | c1 :: c2 :: c3 :: rest =>
                continuation (if (n =? 240)%nat then 144 else 128)
                             (if (n =? 244)%nat then 143 else 191) c1
                && continuation 128 191 c2 && continuation 128 191 c3
                && utf8_ok fuel rest
            | _ => false
            end
          else false
      end
  end.

Definition decode (data : string) : outcome string :=
  match b64_bytes (list_ascii_of_string data) with
  | Some bytes =>
      if utf8_ok (List.length bytes) bytes
      then Ok (string_of_list_ascii bytes)
      else Raised ValueError
  | None => Raised ValueError
  end.

(** [HTMLParser.feed] on markup whose tags are written [<name ...>] or
    [</name>] and whose text holds no [<] and no [&]: every non-empty run
    of text between two tags is one [handle_data] call. *)
Definition flush (cur : list ascii) (chunks : list string) : list string :=
  match cur with
  | [] => chunks
  | _ :: _ => string_of_list_ascii (rev cur) :: chunks
  end.

Fixpoint data_chunks (in_tag : bool) (cur : list ascii) (s : string) : list string :=
  match s with
  | EmptyString => flush cur []
  | String c s' =>
      if in_tag then data_chunks (negb (Ascii.eqb c ">")) [] s'
      else if Ascii.eqb c "<" then flush cur (data_chunks true [] s')
      else data_chunks false (c :: cur) s'
  end.

(** The replies of the model used below, as the JSON text the model sent
    and the value [json.loads] gives for it. *)
Definition dq : string := String (ascii_of_nat 34) EmptyString.
Definition quoted (s : string) : string := dq ++ s ++ dq.

Definition reply_kopi : string :=
  "{" ++ quoted "amount" ++ ": 20000, "
      ++ quoted "category" ++ ": " ++ quoted "Makanan" ++ ", "
      ++ quoted "description" ++ ": " ++ quoted "Beli kopi" ++ ", "
      ++ quoted "transaction_type" ++ ": " ++ quoted "expense" ++ ", "
      ++ quoted "date" ++ ": " ++ quoted "2024-01-01" ++ "}".

Definition parsed_kopi : pydict :=
  {[ "amount" := JInt 20000;
     "category" := JStr "Makanan";
     "description" := JStr "Beli kopi";
     "transaction_type" := JStr "expense";
     "date" := JStr "2024-01-01" ]}.

(** A salary, reported by the model as income with a negative amount. *)
Definition reply_gaji : string :=
  "{" ++ quoted "amount" ++ ": -5000000, "
      ++ quoted "category" ++ ": " ++ quoted "Gaji" ++ ", "
      ++ quoted "description" ++ ": " ++ quoted "Gaji bulanan" ++ ", "
      ++ quoted "transaction_type" ++ ": " ++ quoted "income" ++ ", "
      ++ quoted "date" ++ ": " ++ quoted "2024-01-01" ++ "}".

Definition parsed_gaji : pydict :=
  {[ "amount" := JInt (-5000000);
     "category" := JStr "Gaji";
     "description" := JStr "Gaji bulanan";
     "transaction_type" := JStr "income";
     "date" := JStr "2024-01-01" ]}.

(** [json.loads] on the replies above; any other text used below is no
    JSON at all. *)
Definition loads (s : string) : outcome jvalue :=
  if String.eqb s reply_kopi then Ok (JObj parsed_kopi)
  else if String.eqb s reply_gaji then Ok (JObj parsed_gaji)
  else Raised ValueError.

#[global] Instance runtime : PyRuntime := {|
  str_lower := lower;
  str_strip := strip;
  float_repr := repr_float;
  container_repr := fun _ => "";
  float_of_str := parse_float;
  b64_utf8_decode := decode;
  html_feed := data_chunks false [];
  json_loads := loads
|}.

End Demo.

(** ** Concrete messages and runs

    Messages, stores and services on which the pipeline is run below, all
    under the reference runtime. *)
Module Scenario.
Import Demo.

(** The base64url text of the bodies: ["Beli kopi 20000"],
    ["<p>Beli kopi 20000</p>"], ["Bayar listrik 150000"], and the single
    byte [0xFF], which is no UTF-8. *)
Definition kopi_b64 : string := "QmVsaSBrb3BpIDIwMDAw".
Definition kopi_html_b64 : string := "PHA-QmVsaSBrb3BpIDIwMDAwPC9wPg==".
Definition listrik_b64 : string := "QmF5YXIgbGlzdHJpayAxNTAwMDA=".
Definition broken_b64 : string := "_w==".

Definition leaf (mt : string) (d : string) : payload :=
  Payload (Some mt) (Some {| data := Some d |}) None.

Definition node (mt : string) (ps : list payload) : payload :=
  Payload (Some mt) (Some {| data := None |}) (Some ps).

(** An HTML part placed before a plain-text part. *)
Definition html_then_plain : payload :=
  node "multipart/alternative"
    [leaf "text/html" kopi_html_b64; leaf "text/plain" listrik_b64].

(** The usual order: the plain-text part first. *)
Definition plain_then_html : payload :=
  node "multipart/alternative"
    [leaf "text/plain" kopi_b64; leaf "text/html" kopi_html_b64].

(** A plain-text body whose data is no UTF-8. *)
Definition broken_plain : payload := leaf "text/plain" broken_b64.

(** A message whose only part is HTML. *)
Definition html_only : payload := node "multipart/mixed" [leaf "text/html" kopi_html_b64].

(** A container with an attachment and no text, then a container with the
    text. *)
Definition nested : payload :=
  node "multipart/mixed"
    [node "multipart/related" [leaf "image/png" "iVBORw0KGgo="];
     leaf "application/pdf" "JVBERi0=";
     node "multipart/alternative" [leaf "text/plain" listrik_b64]].

(** A message with no body data at all. *)
Definition empty_message : payload :=
  node "multipart/mixed"
    [Payload (Some "text/plain") (Some {| data := None |}) None;
     node "multipart/alternative" [Payload (Some "text/html") (Some {| data := Some "" |}) None]].

Definition kopi_mail (id : string) : email :=
  {| email_id := id; email_payload := plain_then_html |}.

Definition listrik_mail (id : string) : email :=
  {| email_id := id; email_payload := nested |}.

Definition empty_mail (id : string) : email :=
  {| email_id := id; email_payload := empty_message |}.

(** The model: a fenced JSON object for the coffee receipt, prose for the
    electricity bill, and an error of the backend for anything else. *)
Definition newline : string := String (ascii_of_nat 10) EmptyString.

Definition model (p : prompt) : outcome string :=
  if String.eqb (email_text p) "Beli kopi 20000"
  then Ok ("```json" ++ newline ++ reply_kopi ++ newline ++ "```")
  else if String.eqb (email_text p) "Bayar listrik 150000"
  then Ok "Maaf, saya tidak dapat membaca email ini."
  else Raised BackendError.

(** What the normalizer makes of the coffee receipt. *)
Definition kopi_transaction : pydict :=
  <["amount" := JFloat (SFopp (float_of_Z 20000))]> parsed_kopi.

(** The entry the orchestrator builds from it for duplicate checking. *)
Definition kopi_entry : pydict := make_entry "2024-01-02" kopi_transaction.

(** What the normalizer makes of the salary, and a reply that names no
    transaction type. *)
Definition gaji_transaction : pydict :=
  <["amount" := JFloat (float_of_Z 5000000)]> parsed_gaji.

Definition untyped : pydict := {[ "amount" := JInt (-750) ]}.

(** A model that reports the salary, without a fence. *)
Definition payroll (p : prompt) : outcome string :=
  if String.eqb (email_text p) "Terima gaji 5000000" then Ok reply_gaji
  else Raised BackendError.

(** The parts of a message before its plain-text part: a text part without
    data and a container without text. *)
Definition silent_parts : list payload :=
  [Payload (Some "text/html") (Some {| data := None |}) None;
   node "multipart/related" [leaf "image/png" "iVBORw0KGgo="]].

(** A store holding the header row and the coffee receipt in a row of four
    cells. *)
Definition stored_kopi : list (list string) :=
  [["Date"; "Amount"; "Category"; "Description"; "User ID"; "Timestamp"];
   ["2024-01-01"; "-20000.0"; "makanan"; "BELI KOPI"]].

Definition service (mails : list email) (stored : list (list string))
    (append : list (list jvalue) -> outcome nat) (telegram_available : bool) : world :=
  {| TELEGRAM_AVAILABLE := telegram_available;
     PROCESSOR_USER_ID := None;
     session := Ok tt;
     inbox := mails;
     sheet_values := Ok stored;
     generate_content := model;
     sheet_append := append;
     today := "2024-01-02";
     now := "2024-01-02 08:00:00" |}.

Definition append_ok (rows : list (list jvalue)) : outcome nat := Ok (List.length rows).
Definition append_down (rows : list (list jvalue)) : outcome nat := Raised BackendError.

(** Two receipts that are already in the store. *)
Definition two_known : world :=
  service [kopi_mail "m1"; kopi_mail "m2"] stored_kopi append_ok true.

(** A message without text and one the model cannot classify, around a
    receipt. *)
Definition mixed : world :=
  service [empty_mail "m1"; kopi_mail "m2"; listrik_mail "m3"] [] append_ok true.

(** Six receipts and an empty store, with and without the notifier. *)
Definition six_mails : list email :=
  [kopi_mail "m1"; kopi_mail "m2"; kopi_mail "m3";
   kopi_mail "m4"; kopi_mail "m5"; kopi_mail "m6"].

Definition six_new : world := service six_mails [] append_ok true.
Definition six_new_no_notifier : world := service six_mails [] append_ok false.

(** One receipt, and a store that refuses the append. *)
Definition store_down : world := service [kopi_mail "m1"] [] append_down true.

(** No candidate at all, and one candidate that cannot be classified. *)
Definition no_candidates : world := service [] [] append_ok true.
Definition unclassified : world := service [listrik_mail "m1"] [] append_ok true.

(** The state in which the loop of a run ends. *)
Definition loop_end (w : world) (account_id : string) : run_state :=
  fst (process_emails w account_id (get_existing_data (sheet_values w)) (inbox w)
         (loop_start account_id)).

End Scenario.

(** ** More concrete cases

    Mailboxes, label lists and requests to the HTTP entry point on which
    the further properties are run. *)
Module Cases.
Import Demo Scenario.

(** An entry that differs from the coffee receipt in its description. *)
Definition listrik_entry : pydict := <["description" := JStr "Bayar listrik"]> kopi_entry.

(** A message whose body is no UTF-8. *)
Definition broken_mail (id : string) : email :=
  {| email_id := id; email_payload := broken_plain |}.

(** A container whose text cannot be decoded, before a container whose
    text can. *)
Definition raising_then_text : payload :=
  node "multipart/mixed"
    [node "multipart/related" [leaf "text/plain" broken_b64];
     node "multipart/alternative" [leaf "text/plain" listrik_b64]].

(** A plain-text part without the [body] key, and an HTML part whose data
    is no UTF-8. *)
Definition bodiless : payload := Payload (Some "text/plain") None None.
Definition broken_html : payload := leaf "text/html" broken_b64.

(** Two receipts and an empty store. *)
Definition two_new : world := service [kopi_mail "m1"; kopi_mail "m2"] [] append_ok false.

(** A receipt, then a message that cannot be decoded, then a receipt. *)
Definition broken_second : world :=
  service [kopi_mail "m1"; broken_mail "m2"; kopi_mail "m3"] [] append_ok true.

(** A reply of the model with prose around the fence. *)
Definition fenced_body : string := newline ++ reply_kopi ++ newline.
Definition chatty_before : string := "Berikut hasilnya: ".
Definition chatty_after : string := newline ++ "Semoga membantu.".

(** A mailbox that lists two messages and can fetch both, and one that
    cannot fetch the second. *)
Definition two_messages : mailbox :=
  {| list_messages := Ok ["m1"; "m2"];
     get_message := fun id =>
       if String.eqb id "m1" then Ok (kopi_mail "m1")
       else if String.eqb id "m2" then Ok (listrik_mail "m2")
       else Raised BackendError |}.

Definition second_unreachable : mailbox :=
  {| list_messages := Ok ["m1"; "m2"];
     get_message := fun id =>
       if String.eqb id "m1" then Ok (kopi_mail "m1") else Raised BackendError |}.

Definition listing_down : mailbox :=
  {| list_messages := Raised BackendError;
     get_message := fun id => Ok (kopi_mail id) |}.

(** Label lists with and without the label of processed messages. *)
Definition inbox_label : gmail_label := {| label_name_of := "INBOX"; label_id_of := "INBOX" |}.
Definition processed_label : gmail_label :=
  {| label_name_of := "Processed-Financial"; label_id_of := "Label_7" |}.

Definition labelled : gmail :=
  {| labels_list := Ok [inbox_label; processed_label];
     labels_create := fun _ => Raised BackendError;
     messages_modify := fun _ _ => Ok tt |}.

Definition unlabelled : gmail :=
  {| labels_list := Ok [inbox_label];
     labels_create := fun _ => Ok "Label_8";
     messages_modify := fun _ _ => Ok tt |}.

(** Configurations of the notifier: two chats of which the second accepts
    the post, the same without a token, switched off, without chats, and
    with chats that all refuse. *)
Definition notifier (enabled : bool) (token : string) (chat_ids : list string)
    (accepting : string) : telegram :=
  {| TELEGRAM_ENABLED := enabled;
     TELEGRAM_BOT_TOKEN := token;
     TELEGRAM_CHAT_IDS := chat_ids;
     send_message_to_chat := fun chat_id _ => String.eqb chat_id accepting |}.

Definition two_chats : telegram := notifier true "token" ["100"; "200"] "200".
Definition no_token : telegram := notifier true "" ["100"; "200"] "200".
Definition switched_off : telegram := notifier false "token" ["100"; "200"] "200".
Definition no_chats : telegram := notifier true "token" [] "200".
Definition deaf_chats : telegram := notifier true "token" ["100"; "200"] "300".

(** Requests to the HTTP entry point. *)
Definition request (mails : list email) (append : list jvalue -> outcome unit)
  : Api.api_world :=
  {| Api.api_credentials := true;
     Api.api_services := Ok tt;
     Api.api_key := "key";
     Api.api_gemini := Ok tt;
     Api.api_inbox := mails;
     Api.api_generate_content := model;
     Api.api_append := append;
     Api.api_telegram_available := true;
     Api.api_user_id := None;
     Api.api_today := "2024-01-02";
     Api.api_now := "2024-01-02 08:00:00" |}.

Definition accepts (data_row : list jvalue) : outcome unit := Ok tt.
Definition refuses (data_row : list jvalue) : outcome unit := Raised BackendError.

Definition api_start : Api.api_state :=
  {| Api.processed_count := 0; Api.api_transactions := []; Api.api_calls := [] |}.

(** The state in which the loop of a request ends. *)
Definition api_loop_end (w : Api.api_world) : Api.api_state :=
  fst (Api.process_loop w (Api.api_inbox w) api_start).

Definition two_accepted : Api.api_world :=
  request [kopi_mail "m1"; listrik_mail "m2"; kopi_mail "m3"] accepts.
Definition outage : Api.api_world := request [kopi_mail "m1"; kopi_mail "m2"] refuses.
Definition broken_request : Api.api_world :=
  request [kopi_mail "m1"; broken_mail "m2"; kopi_mail "m3"] accepts.

End Cases.

(** * Properties *)

Section Properties.
Context `{PyRuntime}.

(** ** Deduplication *)

Lemma fields_match_true (new_entry existing : pydict) (fields : list string) :
  fields_match new_entry existing fields = true <->
  Forall (fun field => key_of new_entry field = key_of existing field) fields.
Proof.
  induction fields as [|field rest IH]; simpl.
  - split; [constructor | reflexivity].
  - destruct (String.eqb_spec (key_of new_entry field) (key_of existing field)) as [Heq|Hne];
      simpl.
    + rewrite IH. split.
      * intros Hrest. constructor; assumption.
      * intros Hall. inversion Hall; assumption.
    + split; [discriminate|].
      intros Hall. inversion Hall; contradiction.
Qed.

Lemma fields_match_key_fields (new_entry existing : pydict) :
  fields_match new_entry existing key_fields = true <-> same_key new_entry existing.
Proof.
  rewrite fields_match_true. unfold key_fields, same_key, key_of. split.
  - intros Hall.
    repeat match goal with
           | Hc : Forall _ (_ :: _) |- _ => inversion_clear Hc
           end.
    repeat split; assumption.
  - intros (Hd & Ha & Hc & Hs). repeat constructor; assumption.
Qed.

(** C1. [is_duplicate] answers [True] exactly when some existing record
    agrees with the candidate on each of [date], [amount], [category] and
    [description], both sides being passed through [str] and [lower]; on an
    empty list of existing records it answers [False]. *)
Theorem is_duplicate_iff_same_key (new_entry : pydict) (existing_entries : list pydict) :
  (is_duplicate new_entry existing_entries = true <->
   exists existing, existing ∈ existing_entries /\ same_key new_entry existing) /\
  is_duplicate new_entry [] = false.
Proof.
  split; [|reflexivity].
  induction existing_entries as [|existing rest IH]; cbn [is_duplicate].
  - split; [discriminate|]. intros (e & Hin & _). inversion Hin.
  - destruct (fields_match new_entry existing key_fields) eqn:Hm.
    + split; [|reflexivity]. intros _. exists existing. split.
      * apply list_elem_of_here.
      * apply fields_match_key_fields, Hm.
    + rewrite IH. split.
      * intros (e & Hin & Hk). exists e. split; [apply list_elem_of_further, Hin|exact Hk].
      * intros (e & Hin & Hk). apply elem_of_cons in Hin as [->|Hin].
        -- apply fields_match_key_fields in Hk. congruence.
        -- exists e. split; assumption.
Qed.

(** ** Sign normalization *)

Lemma SFabs_idem (f : spec_float) : SFabs (SFabs f) = SFabs f.
Proof. destruct f; reflexivity. Qed.

Lemma SFabs_opp (f : spec_float) : SFabs (SFopp f) = SFabs f.
Proof. destruct f; reflexivity. Qed.

Lemma signed_amount_eq (f : spec_float) (expense : bool) :
  signed_amount f expense = if expense then SFopp (SFabs f) else SFabs f.
Proof. unfold signed_amount. destruct expense; [reflexivity|apply SFabs_idem]. Qed.

Lemma signed_amount_opp (f : spec_float) (expense : bool) :
  signed_amount (SFopp f) expense = signed_amount f expense.
Proof. unfold signed_amount. now rewrite SFabs_opp. Qed.

Lemma signed_amount_idem (f : spec_float) (expense : bool) :
  signed_amount (signed_amount f expense) expense = signed_amount f expense.
Proof.
  rewrite !signed_amount_eq. destruct expense.
  - now rewrite SFabs_opp, SFabs_idem.
  - now rewrite SFabs_idem.
Qed.

Lemma JNull_or_not (x : jvalue) : x = JNull \/ x <> JNull.
Proof. destruct x; [left; reflexivity|right; discriminate ..]. Qed.

Lemma normalize_amount_present (d : pydict) (raw : jvalue) :
  d !! "amount" = Some raw -> raw <> JNull ->
  normalize_amount (JObj d) =
    f ← py_float raw;
    Ok (<["amount" := JFloat (signed_amount f (is_expense (d !! "transaction_type")))]> d).
Proof.
  intros Hraw Hnull. unfold normalize_amount. rewrite Hraw.
  destruct raw; try reflexivity. contradiction.
Qed.

Lemma is_expense_true (transaction_type : option jvalue) :
  is_expense transaction_type = true <-> transaction_type = Some (JStr "expense").
Proof.
  destruct transaction_type as [[| | | |s| |]|]; cbn [is_expense];
    try (split; discriminate).
  rewrite String.eqb_eq. split; [now intros ->|now intros [= ->]].
Qed.

Lemma is_expense_false (transaction_type : option jvalue) :
  transaction_type <> Some (JStr "expense") -> is_expense transaction_type = false.
Proof.
  intros Hne. destruct (is_expense transaction_type) eqn:He; [|reflexivity].
  now apply is_expense_true in He.
Qed.

(** C2. When the amount of the reply is present and [float] accepts it as
    [f], the normalizer stores [-abs(f)] when the transaction type is the
    string ["expense"] and [abs(f)] for any other or missing type, leaves
    the other fields alone, and gives the same record whether the reply
    carried [f] or [-f]. *)
Theorem normalize_amount_sign (d : pydict) (raw : jvalue) (f : spec_float) :
  d !! "amount" = Some raw -> raw <> JNull -> py_float raw = Ok f ->
  exists d',
    normalize_amount (JObj d) = Ok d' /\
    (d !! "transaction_type" = Some (JStr "expense") ->
     d' !! "amount" = Some (JFloat (SFopp (SFabs f)))) /\
    (d !! "transaction_type" <> Some (JStr "expense") ->
     d' !! "amount" = Some (JFloat (SFabs f))) /\
    (forall k, k <> "amount" -> d' !! k = d !! k) /\
    normalize_amount (JObj (<["amount" := JFloat (SFopp f)]> d)) = Ok d'.
Proof.
  intros Hraw Hnull Hf.
  exists (<["amount" := JFloat (signed_amount f (is_expense (d !! "transaction_type")))]> d).
  split; [|split; [|split; [|split]]].
  - rewrite (normalize_amount_present d raw Hraw Hnull), Hf. reflexivity.
  - intros Hexpense. apply is_expense_true in Hexpense.
    rewrite lookup_insert_eq, signed_amount_eq, Hexpense. reflexivity.
  - intros Hother. apply is_expense_false in Hother.
    rewrite lookup_insert_eq, signed_amount_eq, Hother. reflexivity.
  - intros k Hk. apply lookup_insert_ne. congruence.
  - rewrite (normalize_amount_present _ (JFloat (SFopp f))).
    + simpl. rewrite lookup_insert_ne by discriminate.
      rewrite insert_insert_eq, signed_amount_opp. reflexivity.
    + apply lookup_insert_eq.
    + discriminate.
Qed.

(** C3. Normalizing a record that the normalizer produced changes
    nothing. *)
Theorem normalize_amount_idempotent (parsed_data : jvalue) (d' : pydict) :
  normalize_amount parsed_data = Ok d' ->
  normalize_amount (JObj d') = Ok d'.
Proof.
  intros Hn. destruct parsed_data as [| | | | | |d]; try discriminate.
  destruct (d !! "amount") as [raw|] eqn:Hraw.
  - destruct (JNull_or_not raw) as [->|Hnull].
    + unfold normalize_amount in Hn. rewrite Hraw in Hn.
      injection Hn as <-. unfold normalize_amount. rewrite Hraw. reflexivity.
    + rewrite (normalize_amount_present d raw Hraw Hnull) in Hn.
      destruct (py_float raw) as [f|e]; [|discriminate].
      simpl in Hn. injection Hn as <-.
      rewrite (normalize_amount_present _ (JFloat (signed_amount f (is_expense (d !! "transaction_type"))))).
      * simpl. rewrite lookup_insert_ne by discriminate.
        rewrite insert_insert_eq, signed_amount_idem. reflexivity.
      * apply lookup_insert_eq.
      * discriminate.
  - unfold normalize_amount in Hn. rewrite Hraw in Hn.
    injection Hn as <-. unfold normalize_amount. rewrite Hraw. reflexivity.
Qed.

(** ** Content extractor *)

Lemma extract_email_body_parts mt b (ps : list payload) :
  extract_email_body (Payload mt b (Some ps)) = scan_parts ps.
Proof. reflexivity. Qed.

Lemma text_feed (self : HTMLTextExtractor) (chunks : list string) :
  text (foldl handle_data self chunks) = (text self ++ chunks)%list.
Proof.
  revert self. induction chunks as [|c chunks IH]; intros self; simpl.
  - now rewrite app_nil_r.
  - rewrite IH. simpl. now rewrite <- app_assoc.
Qed.

Lemma html_to_text_eq (d : string) :
  html_to_text d =
    match b64_utf8_decode d with
    | Ok html => Ok (py_join " " (html_feed html))
    | Raised e => Raised e
    end.
Proof.
  unfold html_to_text. destruct (b64_utf8_decode d) as [html|e]; simpl; [|reflexivity].
  unfold get_text, feed. now rewrite text_feed.
Qed.

Lemma mime_is_html_not_plain (part : payload) :
  mime_is part "text/html" = true -> mime_is part "text/plain" = false.
Proof.
  unfold mime_is. destruct (mimeType part) as [m|]; [|discriminate].
  intros Hm. apply String.eqb_eq in Hm. subst m. reflexivity.
Qed.

Lemma scan_parts_plain (part : payload) (d : string) (rest : list payload) :
  part_with_data part "text/plain" d ->
  scan_parts (part :: rest) =
    match b64_utf8_decode d with
    | Ok txt => Ok (Some txt)
    | Raised e => Raised e
    end.
Proof.
  intros (Hm & (b & Hb & Hd) & Ht). cbn [scan_parts].
  rewrite Hm, Hb. cbn [item mbind outcome_bind]. rewrite Hd. cbn [default from_option id]. rewrite Ht.
  destruct (b64_utf8_decode d); reflexivity.
Qed.

Lemma scan_parts_html (part : payload) (d : string) (rest : list payload) :
  part_with_data part "text/html" d ->
  scan_parts (part :: rest) =
    match b64_utf8_decode d with
    | Ok html => Ok (Some (py_join " " (html_feed html)))
    | Raised e => Raised e
    end.
Proof.
  intros (Hm & (b & Hb & Hd) & Ht). cbn [scan_parts].
  rewrite (mime_is_html_not_plain part Hm), Hm, Hb.
  cbn [item mbind outcome_bind]. rewrite Hd. cbn [default from_option id]. rewrite Ht.
  rewrite html_to_text_eq. destruct (b64_utf8_decode d); reflexivity.
Qed.

Lemma scan_parts_skip (part : payload) (rest : list payload) :
  yields_nothing part -> scan_parts (part :: rest) = scan_parts rest.
Proof.
  unfold yields_nothing, has_parts. intros Hy. cbn [scan_parts].
  destruct (mime_is part "text/plain") eqn:Hp.
  - destruct Hy as (b & Hb & Hd). rewrite Hb. cbn [item mbind outcome_bind].
    now rewrite Hd.
  - destruct (mime_is part "text/html") eqn:Hh.
    + destruct Hy as (b & Hb & Hd). rewrite Hb. cbn [item mbind outcome_bind].
      now rewrite Hd.
    + destruct part as [mt b [sub|]]; [|reflexivity].
      cbn [orb parts] in Hy. destruct Hy as (r & Hr & Hf).
      rewrite Hr. cbn [mbind outcome_bind]. now rewrite Hf.
Qed.

Lemma scan_parts_skip_all (pre rest : list payload) :
  Forall yields_nothing pre -> scan_parts (pre ++ rest)%list = scan_parts rest.
Proof.
  induction 1 as [|part pre Hpart _ IH]; [reflexivity|].
  rewrite <- app_comm_cons, scan_parts_skip by assumption. exact IH.
Qed.

Lemma scan_parts_containers (ps : list payload) :
  Forall (fun part => mime_is part "text/plain" = false /\
                      mime_is part "text/html" = false) ps ->
  scan_parts ps = first_nonempty (map extract_email_body (List.filter has_parts ps)).
Proof.
  induction 1 as [|part ps [Hp Hh] _ IH]; [reflexivity|].
  cbn [scan_parts List.filter]. rewrite Hp, Hh.
  destruct part as [mt b [sub|]]; cbn [has_parts parts]; [|exact IH].
  cbn [map first_nonempty].
  destruct (extract_email_body (Payload mt b (Some sub))) as [r|e];
    cbn [mbind outcome_bind]; [|reflexivity].
  destruct (opt_str_truthy r); [reflexivity|exact IH].
Qed.

Lemma scan_parts_no_data (ps : list payload) :
  Forall (fun p => no_data p = true -> extract_email_body p = Ok None) ps ->
  no_data (Payload None None (Some ps)) = true ->
  scan_parts ps = Ok None.
Proof.
  cbn [no_data]. induction 1 as [|part ps Hpart _ IH]; [reflexivity|].
  cbn [forallb]. intros Hall. apply andb_prop in Hall as [Hhere Hrest].
  rewrite scan_parts_skip; [exact (IH Hrest)|].
  unfold yields_nothing, has_parts.
  destruct (mime_is part "text/plain" || mime_is part "text/html").
  - destruct (body part) as [b|]; [|discriminate].
    exists b. split; [reflexivity|]. now apply negb_true_iff.
  - destruct part as [mt b [sub|]]; cbn [parts]; [|exact I].
    exists None. split; [exact (Hpart Hhere)|reflexivity].
Qed.

Lemma extract_email_body_no_data (p : payload) :
  no_data p = true -> extract_email_body p = Ok None.
Proof.
  induction p as [mt b|mt b ps IH] using payload_tree_ind.
  - cbn [no_data extract_email_body]. intros Hd. apply negb_true_iff in Hd.
    now rewrite Hd.
  - intros Hd. rewrite extract_email_body_parts.
    apply scan_parts_no_data; assumption.
Qed.

Lemma scan_parts_no_body (part : payload) (rest : list payload) :
  mime_is part "text/plain" || mime_is part "text/html" = true ->
  body part = None ->
  scan_parts (part :: rest) = Raised KeyError.
Proof.
  intros Hm Hb. cbn [scan_parts]. rewrite Hb.
  destruct (mime_is part "text/plain"); [reflexivity|].
  cbn [orb] in Hm. now rewrite Hm.
Qed.

Lemma extract_email_body_leaf_raises mt (b : msg_body) (d : string) (e : exn) :
  data b = Some d -> str_truthy d = true -> b64_utf8_decode d = Raised e ->
  extract_email_body (Payload mt (Some b) None) = Raised e.
Proof.
  intros Hd Ht He. cbn [extract_email_body mbind option_bind]. rewrite Hd.
  cbn [default from_option id]. rewrite Ht, html_to_text_eq, He.
  now destruct (mime_is _ _).
Qed.

(** C4, as the code has it.  A plain-text part that carries data is
    returned (decoded) ahead of whatever follows it at its level, the parts
    before it yielding nothing; its text is returned when the data decodes
    and the decoding error is raised when it does not.  A tree in which
    every text part has a body and no part read holds body data gives
    [None] without raising.  The decoding error is raised as well when the
    part selected is an HTML part, or a payload without parts; and a
    plain-text or HTML part that has no body makes the scan raise
    [KeyError]. *)
Theorem extract_email_body_plain_first mt b (pre post : list payload)
    (part : payload) (d : string) (p : payload) :
  Forall yields_nothing pre ->
  part_with_data part "text/plain" d ->
  no_data p = true ->
  extract_email_body (Payload mt b (Some (pre ++ part :: post)%list)) =
    match b64_utf8_decode d with
    | Ok txt => Ok (Some txt)
    | Raised e => Raised e
    end /\
  extract_email_body p = Ok None /\
  (forall (part' : payload) (d' : string) (e : exn),
     part_with_data part' "text/html" d' ->
     b64_utf8_decode d' = Raised e ->
     extract_email_body (Payload mt b (Some (pre ++ part' :: post)%list)) = Raised e) /\
  (forall mt' (b' : msg_body) (d' : string) (e : exn),
     data b' = Some d' -> str_truthy d' = true ->
     b64_utf8_decode d' = Raised e ->
     extract_email_body (Payload mt' (Some b') None) = Raised e) /\
  (forall part' : payload,
     mime_is part' "text/plain" || mime_is part' "text/html" = true ->
     body part' = None ->
     extract_email_body (Payload mt b (Some (pre ++ part' :: post)%list)) = Raised KeyError).
Proof.
  intros Hpre Hpart Hp. split; [|split; [|split; [|split]]].
  - rewrite extract_email_body_parts, scan_parts_skip_all by assumption.
    now apply scan_parts_plain.
  - now apply extract_email_body_no_data.
  - intros part' d' e Hpart' He.
    rewrite extract_email_body_parts, scan_parts_skip_all by assumption.
    rewrite (scan_parts_html part' d' post Hpart'). now rewrite He.
  - intros mt' b' d' e. apply extract_email_body_leaf_raises.
  - intros part' Hm Hb.
    rewrite extract_email_body_parts, scan_parts_skip_all by assumption.
    now apply scan_parts_no_body.
Qed.

Lemma first_nonempty_skip (pre : list payload) (rest : list (outcome (option string))) :
  Forall returns_no_text pre ->
  first_nonempty (map extract_email_body pre ++ rest)%list = first_nonempty rest.
Proof.
  induction 1 as [|q pre (r & Hr & Hempty) _ IH]; [reflexivity|].
  cbn [map app first_nonempty]. now rewrite Hr, Hempty.
Qed.

Lemma append_cons (c : ascii) (a s : string) : String c a ++ s = String c (a ++ s).
Proof. reflexivity. Qed.

Lemma append_empty_l (s : string) : "" ++ s = s.
Proof. reflexivity. Qed.

Lemma occurs_app (c : ascii) (a b : string) :
  occurs c (a ++ b) = occurs c a || occurs c b.
Proof.
  induction a as [|x a IH]; [reflexivity|].
  rewrite append_cons. cbn [occurs]. now rewrite IH, orb_assoc.
Qed.

Lemma occurs_join (c : ascii) (sep : string) (chunks : list string) :
  occurs c sep = false ->
  Forall (fun chunk => occurs c chunk = false) chunks ->
  occurs c (py_join sep chunks) = false.
Proof.
  intros Hsep. unfold py_join.
  induction 1 as [|chunk chunks Hchunk Hrest IH]; [reflexivity|].
  cbn [String.concat]. destruct chunks as [|next chunks]; [exact Hchunk|].
  now rewrite !occurs_app, Hchunk, Hsep, IH.
Qed.

Lemma occurs_of_list (c : ascii) (l : list ascii) :
  Forall (fun a => a <> c) l -> occurs c (string_of_list_ascii l) = false.
Proof.
  induction 1 as [|a l Ha _ IH]; [reflexivity|].
  cbn [string_of_list_ascii occurs]. rewrite IH, orb_false_r.
  now apply Ascii.eqb_neq.
Qed.

(** The reference parser reports no text that opens a tag. *)
Lemma data_chunks_open_no_tag (in_tag : bool) (cur : list ascii) (s : string) :
  Forall (fun a => a <> "<"%char) cur ->
  Forall (fun chunk => occurs "<" chunk = false) (Demo.data_chunks in_tag cur s).
Proof.
  assert (Hflush : forall cur chunks,
            Forall (fun a => a <> "<"%char) cur ->
            Forall (fun chunk => occurs "<" chunk = false) chunks ->
            Forall (fun chunk => occurs "<" chunk = false) (Demo.flush cur chunks)).
  { intros [|a l] chunks Hcur Hchunks; [exact Hchunks|].
    cbn [Demo.flush]. constructor; [|exact Hchunks].
    apply occurs_of_list, List.Forall_rev, Hcur. }
  revert in_tag cur. induction s as [|c s IH]; intros in_tag cur Hcur;
    cbn [Demo.data_chunks].
  - apply Hflush; [exact Hcur|constructor].
  - destruct in_tag; [apply IH; constructor|].
    destruct (Ascii.eqb_spec c "<") as [->|Hc].
    + apply Hflush; [exact Hcur|]. apply IH. constructor.
    + apply IH. constructor; assumption.
Qed.

(** C5, as the code has it.  When no part at the outer level is plain text
    or HTML, the extractor goes, in order, through the parts that have
    sub-parts: it returns the first non-empty text found in one of them
    when the sub-trees before it return without text, and raises again
    what such a sub-tree raises before any text is found.  On a payload
    whose only part is HTML, and on a payload without parts that is HTML
    itself, it returns the runs of character data that the HTML parser
    reports, joined by single spaces.  The extractor adds nothing but
    these spaces: a character that is in no run is not in the text, so the
    text holds no [<] when the parser reports the text outside the tags. *)
Theorem extract_email_body_fallbacks mt b (ps : list payload)
    (part : payload) (d html : string) :
  Forall (fun part => mime_is part "text/plain" = false /\
                      mime_is part "text/html" = false) ps ->
  part_with_data part "text/html" d ->
  b64_utf8_decode d = Ok html ->
  extract_email_body (Payload mt b (Some ps)) =
    first_nonempty (map extract_email_body (List.filter has_parts ps)) /\
  (forall (pre post : list payload) (child : payload) (found : string),
     List.filter has_parts ps = (pre ++ child :: post)%list ->
     Forall returns_no_text pre ->
     extract_email_body child = Ok (Some found) -> str_truthy found = true ->
     extract_email_body (Payload mt b (Some ps)) = Ok (Some found)) /\
  (forall (pre post : list payload) (child : payload) (e : exn),
     List.filter has_parts ps = (pre ++ child :: post)%list ->
     Forall returns_no_text pre ->
     extract_email_body child = Raised e ->
     extract_email_body (Payload mt b (Some ps)) = Raised e) /\
  extract_email_body (Payload mt b (Some [part])) =
    Ok (Some (py_join " " (html_feed html))) /\
  (parts part = None ->
   extract_email_body part = Ok (Some (py_join " " (html_feed html)))) /\
  (forall c : ascii,
     c <> " "%char ->
     Forall (fun chunk => occurs c chunk = false) (html_feed html) ->
     occurs c (py_join " " (html_feed html)) = false) /\
  (html_feed html = Demo.data_chunks false [] html ->
   occurs "<" (py_join " " (html_feed html)) = false).
Proof.
  intros Hps Hpart Hd.
  assert (Hscan : extract_email_body (Payload mt b (Some ps)) =
                  first_nonempty (map extract_email_body (List.filter has_parts ps))).
  { rewrite extract_email_body_parts. now apply scan_parts_containers. }
  assert (Hspace : forall c : ascii, c <> " "%char -> occurs c " " = false).
  { intros c Hc. cbn [occurs]. rewrite orb_false_r. apply Ascii.eqb_neq. congruence. }
  split; [exact Hscan|]. split; [|split; [|split; [|split; [|split]]]].
  - intros pre post child found Hfilter Hpre Hchild Hfound.
    rewrite Hscan, Hfilter, map_app, (first_nonempty_skip pre _ Hpre).
    cbn [map first_nonempty]. rewrite Hchild. cbn [opt_str_truthy]. now rewrite Hfound.
  - intros pre post child e Hfilter Hpre Hchild.
    rewrite Hscan, Hfilter, map_app, (first_nonempty_skip pre _ Hpre).
    cbn [map first_nonempty]. now rewrite Hchild.
  - rewrite extract_email_body_parts, (scan_parts_html part d []) by assumption.
    now rewrite Hd.
  - intros Hleaf. destruct Hpart as (Hm & (b0 & Hb & Hdata) & Ht).
    destruct part as [mt0 b1 ps0]. cbn [parts] in Hleaf. subst ps0.
    cbn [body] in Hb. subst b1.
    cbn [extract_email_body mbind option_bind]. rewrite Hdata.
    cbn [default from_option id]. rewrite Ht, Hm, html_to_text_eq, Hd. reflexivity.
  - intros c Hc Hchunks. apply occurs_join; [now apply Hspace|exact Hchunks].
  - intros Hparser. apply occurs_join; [now apply Hspace|].
    rewrite Hparser. apply data_chunks_open_no_tag. constructor.
Qed.

(** ** Reading the store *)

Lemma pad_row_lookup (row : list string) (i : nat) :
  i < 6 -> pad_row row !! i = Some (nth i row "").
Proof.
  intros Hi. unfold pad_row. change (List.length headers) with 6.
  destruct (decide (i < List.length row)) as [Hlt|Hge].
  - rewrite lookup_app_l by exact Hlt. rewrite nth_lookup.
    destruct (lookup_lt_is_Some_2 row i Hlt) as [x ->]. reflexivity.
  - rewrite lookup_app_r by lia.
    rewrite nth_overflow by lia.
    apply lookup_replicate_2. lia.
Qed.

Lemma entry_of_row_pad (row : list string) :
  entry_of_row (pad_row row) = Ok (row_entry row).
Proof.
  unfold entry_of_row, subscript.
  change (seq 0 (List.length headers)) with [0; 1; 2; 3; 4; 5].
  cbn [foldl]. unfold headers at 1 2 3 4 5 6.
  rewrite !pad_row_lookup by lia. reflexivity.
Qed.

Lemma existing_entries_map (rows : list (list string)) :
  existing_entries rows = Ok (map row_entry rows).
Proof.
  induction rows as [|row rows IH]; [reflexivity|].
  cbn [existing_entries]. rewrite entry_of_row_pad, IH. reflexivity.
Qed.

Lemma read_existing_map (values : list (list string)) :
  read_existing (Ok values) = Ok (map row_entry (drop 1 values)).
Proof.
  unfold read_existing. cbn [mbind outcome_bind].
  destruct (List.length values <=? 1)%nat eqn:Hlen.
  - apply Nat.leb_le in Hlen.
    destruct values as [|header [|row rows]]; [reflexivity|reflexivity|simpl in Hlen; lia].
  - apply existing_entries_map.
Qed.

Lemma row_entry_lookup (row : list string) (j : nat) (h : string) :
  headers !! j = Some h -> row_entry row !! h = Some (JStr (nth j row "")).
Proof.
  unfold headers, row_entry. intros Hj.
  do 6 (destruct j as [|j]; [injection Hj as <-; now simplify_map_eq|]).
  discriminate.
Qed.



(** ** Classifier adapter: the fence is stripped without an index error *)

Lemma split_go_nonempty (sep : string) (skip : nat) (cur : list ascii) (s : string) :
  (1 <= List.length (split_go sep skip cur s))%nat.
Proof.
  revert skip cur. induction s as [|c s IH]; intros skip cur; cbn [split_go].
  - cbn. lia.
  - destruct skip as [|k]; [|apply IH].
    destruct (String.prefix sep (String c s)); [cbn; lia|apply IH].
Qed.

Lemma py_split_two_pieces (sep s : string) :
  sep <> "" -> py_in sep s = true ->
  (2 <= List.length (py_split sep s))%nat.
Proof.
  intros Hsep. unfold py_split. generalize (@nil ascii) as cur.
  induction s as [|c s IH]; intros cur Hin.
  - destruct sep; [contradiction|discriminate].
  - cbn [py_in] in Hin. cbn [split_go].
    destruct (String.prefix sep (String c s)) eqn:Hp.
    + cbn [List.length]. pose proof (split_go_nonempty sep (String.length sep - 1) [] s). lia.
    + apply IH. exact Hin.
Qed.

Lemma subscript_in_range {A : Type} (l : list A) (i : nat) :
  (i < List.length l)%nat -> exists a, subscript l i = Ok a.
Proof.
  intros Hi. unfold subscript.
  destruct (lookup_lt_is_Some_2 l i Hi) as [a ->]. now exists a.
Qed.

Lemma strip_fence_returns (response_text : string) :
  exists cleaned, strip_fence response_text = Ok cleaned.
Proof.
  unfold strip_fence.
  destruct (py_in "```json" response_text) eqn:Hjson;
    [|destruct (py_in "```" response_text) eqn:Hfence; [|now eexists]].
  - destruct (subscript_in_range (py_split "```json" response_text) 1) as [a ->].
    { pose proof (py_split_two_pieces "```json" response_text ltac:(discriminate) Hjson). lia. }
    cbn [mbind outcome_bind].
    destruct (subscript_in_range (py_split "```" a) 0) as [b ->].
    { pose proof (split_go_nonempty "```" 0 [] a). unfold py_split. lia. }
    now eexists.
  - destruct (subscript_in_range (py_split "```" response_text) 1) as [a ->].
    { pose proof (py_split_two_pieces "```" response_text ltac:(discriminate) Hfence). lia. }
    cbn [mbind outcome_bind].
    destruct (subscript_in_range (py_split "```" a) 0) as [b ->].
    { pose proof (split_go_nonempty "```" 0 [] a). unfold py_split. lia. }
    now eexists.
Qed.

(** ** Notifier *)

Lemma post_to_chats_posted (tg : telegram) (chat_ids : list string) (message : notice) :
  fst (post_to_chats tg chat_ids message) = map (fun chat_id => (chat_id, message)) chat_ids.
Proof.
  induction chat_ids as [|chat_id chat_ids IH]; [reflexivity|].
  cbn [post_to_chats map]. destruct (post_to_chats tg chat_ids message) as [posted n].
  cbn in IH |- *. now rewrite IH.
Qed.

(** One call of [send_batch_notification] posts one message to each
    configured chat, and none when Telegram is disabled or unconfigured. *)
Lemma send_batch_notification_posted (tg : telegram) (transaction_count : nat)
    (account_id : string) :
  fst (send_batch_notification tg transaction_count account_id) =
    if negb (TELEGRAM_ENABLED tg) || unconfigured tg then []
    else map (fun chat_id => (chat_id, BatchNotice transaction_count account_id))
             (TELEGRAM_CHAT_IDS tg).
Proof.
  unfold send_batch_notification.
  destruct (negb (TELEGRAM_ENABLED tg) || unconfigured tg); [reflexivity|].
  rewrite <- (post_to_chats_posted tg).
  now destruct (post_to_chats tg (TELEGRAM_CHAT_IDS tg) _).
Qed.

Lemma delivered_disabled (tg : telegram) (cs : list call) :
  TELEGRAM_ENABLED tg = false -> delivered tg cs = [].
Proof.
  intros Hoff. unfold delivered.
  induction cs as [|c cs IH]; [reflexivity|]. cbn [flat_map]. rewrite IH.
  destruct c; unfold send_batch_notification, send_telegram_notification;
    rewrite ?Hoff; reflexivity.
Qed.

(** ** Batch orchestrator *)

Lemma process_email_skipped (w : world) (account_id : string)
    (existing_data : list pydict) (st : run_state) (email : email) :
  skipped w email ->
  process_email w account_id existing_data st email = Ok st.
Proof.
  intros (body & Hbody & Hskip). unfold process_email. rewrite Hbody.
  cbn [mbind outcome_bind].
  destruct (opt_str_truthy body) eqn:Htruthy; [|reflexivity].
  destruct Hskip as [Hfalse|(e & Hraise)]; [discriminate|].
  unfold parse_email_with_gemini. rewrite Hraise.
  destruct (negb (str_truthy (default "" body))); reflexivity.
Qed.

Lemma process_email_duplicate (w : world) (account_id : string)
    (existing_data : list pydict) (st : run_state) (email : email) :
  classified_duplicate w existing_data email ->
  exists l,
    process_email w account_id existing_data st email =
      Ok (do_call (MarkProcessed (email_id email)) (count_duplicate (print l st))).
Proof.
  intros (text & parsed_data & Hbody & Htext & Hparse & Htruthy & Hdup).
  unfold process_email. rewrite Hbody. cbn [mbind outcome_bind opt_str_truthy].
  rewrite Htext. cbn [default from_option id]. rewrite Hparse, Htruthy, Hdup.
  eexists. reflexivity.
Qed.

Lemma process_emails_app (w : world) (account_id : string)
    (existing_data : list pydict) (pre post : list email) (st : run_state) :
  process_emails w account_id existing_data (pre ++ post)%list st =
    match process_emails w account_id existing_data pre st with
    | (st', None) => process_emails w account_id existing_data post st'
    | (st', Some e) => (st', Some e)
    end.
Proof.
  revert st. induction pre as [|email pre IH]; intros st; [reflexivity|].
  cbn [app process_emails].
  destruct (process_email w account_id existing_data st email); [apply IH|reflexivity].
Qed.

Lemma process_emails_duplicates (w : world) (account_id : string)
    (existing_data : list pydict) (emails : list email) (st : run_state) :
  Forall (classified_duplicate w existing_data) emails ->
  exists st',
    process_emails w account_id existing_data emails st = (st', None) /\
    calls st' = (calls st ++ map (fun email => MarkProcessed (email_id email)) emails)%list /\
    all_data_rows st' = all_data_rows st /\
    processed_transactions st' = processed_transactions st /\
    duplicate_count st' = (duplicate_count st + List.length emails)%nat.
Proof.
  intros Hall. revert st. induction Hall as [|email emails Hdup _ IH]; intros st.
  - exists st. cbn. rewrite app_nil_r. repeat split. lia.
  - destruct (process_email_duplicate w account_id existing_data st email Hdup) as [l Hstep].
    cbn [process_emails]. rewrite Hstep.
    destruct (IH (do_call (MarkProcessed (email_id email)) (count_duplicate (print l st))))
      as (st' & Hrun & Hcalls & Hrows & Htxs & Hcount).
    exists st'. split; [exact Hrun|]. cbn in Hcalls, Hrows, Htxs, Hcount.
    repeat split.
    + rewrite Hcalls. cbn [map]. now rewrite <- app_assoc.
    + exact Hrows.
    + exact Htxs.
    + rewrite Hcount. cbn [List.length]. lia.
Qed.

Lemma finish_nothing_staged (w : world) (account_id : string)
    (existing_data : list pydict) (st : run_state) :
  List.length (all_data_rows st) = 1%nat ->
  calls (finish w account_id existing_data st) = calls st /\
  all_data_rows (finish w account_id existing_data st) = all_data_rows st /\
  processed_transactions (finish w account_id existing_data st) = processed_transactions st /\
  duplicate_count (finish w account_id existing_data st) = duplicate_count st.
Proof.
  intros Hlen. unfold finish.
  replace (1 <? List.length (all_data_rows st))%nat with false by now rewrite Hlen.
  destruct (0 <? duplicate_count (print NoNewData st))%nat; repeat split.
Qed.

(** C6. In a run all of whose candidates are classified as duplicates of
    existing records, the requests made are exactly one request to mark
    each message, in order: nothing is appended to the store, no row is
    staged, no transaction is kept for notification, and every candidate
    is counted as a duplicate. *)
Theorem process_gmail_account_all_duplicates (w : world) (account_id : string) :
  session w = Ok tt ->
  Forall (classified_duplicate w (get_existing_data (sheet_values w))) (inbox w) ->
  let r := process_gmail_account w account_id in
  calls (final r) = map (fun email => MarkProcessed (email_id email)) (inbox w) /\
  staged_rows (final r) = [] /\
  processed_transactions (final r) = [] /\
  duplicate_count (final r) = List.length (inbox w).
Proof.
  intros Hsession Hall. unfold process_gmail_account. rewrite Hsession.
  destruct (inbox w) as [|email emails] eqn:Hinbox.
  - cbn. repeat split.
  - destruct (process_emails_duplicates w account_id _ _ (loop_start account_id) Hall)
      as (st' & Hrun & Hcalls & Hrows & Htxs & Hcount).
    cbn zeta. rewrite Hrun. cbn [final].
    destruct (finish_nothing_staged w account_id (get_existing_data (sheet_values w)) st')
      as (Hc & Hr & Ht & Hd); [now rewrite Hrows|].
    unfold staged_rows. rewrite Hc, Hr, Ht, Hd, Hcalls, Hrows, Htxs, Hcount.
    repeat split.
Qed.

(** C7, as the code has it.  A message whose extraction returns no text,
    or whose classification fails, leaves the state of the run as it was
    (no request to mark it, no row staged, no counter moved), and the loop
    goes on with the messages after it exactly as if the message had not
    been fetched.  A message whose extraction raises is not passed over:
    the loop stops at it, in the state reached by the messages before it,
    and the messages after it are not looked at. *)
Theorem process_emails_skips (w : world) (account_id : string)
    (existing_data : list pydict) (pre post : list email) (email : email)
    (st : run_state) :
  skipped w email ->
  process_email w account_id existing_data st email = Ok st /\
  process_emails w account_id existing_data (pre ++ email :: post)%list st =
    process_emails w account_id existing_data (pre ++ post)%list st /\
  (forall undecodable (e : exn) (st' : run_state),
     extract_email_body (email_payload undecodable) = Raised e ->
     process_emails w account_id existing_data pre st = (st', None) ->
     process_emails w account_id existing_data (pre ++ undecodable :: post)%list st
       = (st', Some e)).
Proof.
  intros Hskip. split; [now apply process_email_skipped|]. split.
  - rewrite !process_emails_app.
    destruct (process_emails w account_id existing_data pre st) as [st' [e|]]; [reflexivity|].
    cbn [process_emails]. now rewrite process_email_skipped.
  - intros undecodable e st' Hraise Hpre.
    rewrite process_emails_app, Hpre. cbn [process_emails].
    unfold process_email. now rewrite Hraise.
Qed.

Lemma loop_start_invariant (account_id : string) : loop_invariant (loop_start account_id).
Proof. split; reflexivity. Qed.

Lemma notifications_app (cs cs' : list call) :
  notifications (cs ++ cs')%list = (notifications cs ++ notifications cs')%list.
Proof. apply List.filter_app. Qed.

Lemma process_email_invariant (w : world) (account_id : string)
    (existing_data : list pydict) (st st' : run_state) (email : email) :
  loop_invariant st ->
  process_email w account_id existing_data st email = Ok st' ->
  loop_invariant st'.
Proof.
  intros [Hlen Hnote] Hstep. unfold process_email in Hstep.
  destruct (extract_email_body (email_payload email)) as [email_body|]; [|discriminate].
  cbn [mbind outcome_bind] in Hstep.
  destruct (opt_str_truthy email_body); [|injection Hstep as <-; now split].
  destruct (parse_email_with_gemini _ _ _) as [parsed_data|];
    [|injection Hstep as <-; now split].
  destruct (dict_truthy parsed_data); [|injection Hstep as <-; now split].
  destruct (is_duplicate _ _).
  - injection Hstep as <-. split; cbn; [exact Hlen|].
    rewrite notifications_app, Hnote. reflexivity.
  - destruct (make_data_row _ _ _) as [data_row|]; [|discriminate].
    cbn [mbind outcome_bind] in Hstep. injection Hstep as <-. split; cbn.
    + rewrite !length_app, Hlen. cbn. lia.
    + rewrite notifications_app, Hnote. reflexivity.
Qed.

Lemma process_emails_invariant (w : world) (account_id : string)
    (existing_data : list pydict) (emails : list email) (st st' : run_state)
    (stop : option exn) :
  loop_invariant st ->
  process_emails w account_id existing_data emails st = (st', stop) ->
  loop_invariant st'.
Proof.
  revert st. induction emails as [|email emails IH]; intros st Hinv Hrun.
  - injection Hrun as <- _. exact Hinv.
  - cbn [process_emails] in Hrun.
    destruct (process_email w account_id existing_data st email) as [st1|e] eqn:Hstep.
    + apply (IH st1); [|exact Hrun]. eapply process_email_invariant; eassumption.
    + injection Hrun as <- _. exact Hinv.
Qed.

Lemma staged_rows_length (st : run_state) :
  loop_invariant st ->
  List.length (staged_rows st) = List.length (processed_transactions st) /\
  List.length (all_data_rows st) = S (List.length (staged_rows st)).
Proof.
  intros [Hlen _]. unfold staged_rows. rewrite length_drop, Hlen. lia.
Qed.

Lemma append_to_sheet_frame (w : world) (data_rows : list (list jvalue))
    (skip_header : bool) (st : run_state) :
  all_data_rows (append_to_sheet w data_rows skip_header st) = all_data_rows st /\
  duplicate_count (append_to_sheet w data_rows skip_header st) = duplicate_count st /\
  processed_transactions (append_to_sheet w data_rows skip_header st) =
    processed_transactions st.
Proof.
  unfold append_to_sheet.
  destruct (if skip_header && (1 <? List.length data_rows)%nat then drop 1 data_rows else data_rows)
    as [|row rows]; [repeat split|].
  destruct (sheet_append w (row :: rows)); repeat split.
Qed.

Lemma append_to_sheet_calls (w : world) (data_rows : list (list jvalue))
    (skip_header : bool) (st : run_state) :
  (1 < List.length data_rows)%nat ->
  exists rows,
    calls (append_to_sheet w data_rows skip_header st) = (calls st ++ [SheetsAppend rows])%list /\
    printed (append_to_sheet w data_rows skip_header st) =
      (printed st ++ [match sheet_append w rows with
                      | Ok updated => AppendedRows updated
                      | Raised e => ErrorAppending e
                      end])%list.
Proof.
  intros Hlen. unfold append_to_sheet.
  destruct (if skip_header && (1 <? List.length data_rows)%nat then drop 1 data_rows else data_rows)
    as [|row rows] eqn:Hrows.
  - exfalso. destruct data_rows as [|r1 [|r2 rest]]; cbn in Hlen; try lia.
    destruct skip_header; discriminate.
  - exists (row :: rows). destruct (sheet_append w (row :: rows)); split; reflexivity.
Qed.

Lemma notify_each_calls (account_id : string) (transactions : list pydict)
    (st : run_state) :
  calls (notify_each account_id transactions st) =
    (calls st ++ map (fun transaction => NotifyTransaction transaction account_id) transactions)%list /\
  printed (notify_each account_id transactions st) = printed st.
Proof.
  unfold notify_each. revert st.
  induction transactions as [|transaction transactions IH]; intros st; cbn [foldl map].
  - now rewrite app_nil_r.
  - destruct (IH (do_call (NotifyTransaction transaction account_id) st)) as [Hc Hp].
    rewrite Hc, Hp. cbn. now rewrite <- app_assoc.
Qed.

(** The notifications that lines 522-530 send for [n] staged rows. *)
Lemma finish_staged (w : world) (account_id : string)
    (existing_data : list pydict) (st : run_state) :
  loop_invariant st ->
  staged_rows st <> [] ->
  let n := List.length (staged_rows st) in
  let sent :=
    if TELEGRAM_AVAILABLE w then
      if (5 <? n)%nat then [NotifyBatch n account_id]
      else map (fun transaction => NotifyTransaction transaction account_id)
               (processed_transactions st)
    else [] in
  exists rows tail,
    calls (finish w account_id existing_data st) =
      (calls st ++ SheetsAppend rows :: sent)%list /\
    printed (finish w account_id existing_data st) =
      (printed st ++ [match sheet_append w rows with
                      | Ok updated => AppendedRows updated
                      | Raised e => ErrorAppending e
                      end; ProcessedNew n] ++ tail)%list.
Proof.
  intros Hinv Hstaged n sent.
  destruct (staged_rows_length st Hinv) as [Htxs Hrows].
  assert (Hn : (0 < n)%nat).
  { subst n. destruct (staged_rows st); [contradiction|cbn; lia]. }
  assert (Hlen : (1 < List.length (all_data_rows st))%nat) by (fold n in Hrows; lia).
  destruct (append_to_sheet_calls w (all_data_rows st)
              (0 <? List.length existing_data)%nat st Hlen) as (rows & Hcalls & Hprinted).
  destruct (append_to_sheet_frame w (all_data_rows st)
              (0 <? List.length existing_data)%nat st) as (Hr & Hd & Ht).
  exists rows. unfold finish.
  replace (1 <? List.length (all_data_rows st))%nat with true
    by (symmetry; apply Nat.ltb_lt; exact Hlen).
  cbn zeta. rewrite Hr.
  replace (List.length (all_data_rows st) - 1)%nat with n by (fold n in Hrows; lia).
  replace (0 <? n)%nat with true by (symmetry; apply Nat.ltb_lt; exact Hn).
  rewrite andb_true_r. subst sent.
  set (st1 := print (ProcessedNew n) (append_to_sheet w (all_data_rows st)
                                        (0 <? List.length existing_data)%nat st)).
  assert (Hc1 : calls st1 = (calls st ++ [SheetsAppend rows])%list) by exact Hcalls.
  assert (Hp1 : printed st1 =
                (printed st ++ [match sheet_append w rows with
                                | Ok updated => AppendedRows updated
                                | Raised e => ErrorAppending e
                                end; ProcessedNew n])%list).
  { unfold st1. cbn [print printed]. rewrite Hprinted, <- app_assoc. reflexivity. }
  assert (Ht1 : processed_transactions st1 = processed_transactions st) by exact Ht.
  assert (Hlast : forall st2 : run_state, exists tail,
            calls (if (0 <? duplicate_count st2)%nat
                   then print (SkippedDuplicates (duplicate_count st2)) st2 else st2)
              = calls st2 /\
            printed (if (0 <? duplicate_count st2)%nat
                     then print (SkippedDuplicates (duplicate_count st2)) st2 else st2)
              = (printed st2 ++ tail)%list).
  { intros st2. destruct (0 <? duplicate_count st2)%nat.
    - exists [SkippedDuplicates (duplicate_count st2)]. split; reflexivity.
    - exists []. now rewrite app_nil_r. }
  destruct (TELEGRAM_AVAILABLE w).
  - destruct (5 <? n)%nat.
    + destruct (Hlast (do_call (NotifyBatch n account_id) st1)) as (tail & Hc & Hp).
      exists tail. rewrite Hc, Hp. cbn [calls printed do_call].
      rewrite Hc1, Hp1, <- !app_assoc. split; reflexivity.
    + destruct (notify_each_calls account_id (processed_transactions st1) st1) as [Hc2 Hp2].
      destruct (Hlast (notify_each account_id (processed_transactions st1) st1))
        as (tail & Hc & Hp).
      exists tail. rewrite Hc, Hp, Hc2, Hp2, Hc1, Hp1, Ht1, <- !app_assoc.
      split; reflexivity.
  - destruct (Hlast st1) as (tail & Hc & Hp).
    exists tail. rewrite Hc, Hp, Hc1, Hp1, <- !app_assoc. split; reflexivity.
Qed.

Lemma notifications_transactions (account_id : string) (transactions : list pydict) :
  notifications (map (fun transaction => NotifyTransaction transaction account_id) transactions)
  = map (fun transaction => NotifyTransaction transaction account_id) transactions.
Proof.
  induction transactions as [|transaction transactions IH]; [reflexivity|].
  cbn. unfold notifications in IH. now rewrite IH.
Qed.

(** A run that got past the setup and through the loop ends in [finish]. *)
Lemma process_gmail_account_completed (w : world) (account_id : string)
    (st : run_state) :
  session w = Ok tt ->
  process_emails w account_id (get_existing_data (sheet_values w)) (inbox w)
    (loop_start account_id) = (st, None) ->
  staged_rows st <> [] ->
  process_gmail_account w account_id =
    {| returned := JNull;
       final := finish w account_id (get_existing_data (sheet_values w)) st |} /\
  loop_invariant st.
Proof.
  intros Hsession Hrun Hstaged. split.
  - unfold process_gmail_account. rewrite Hsession.
    destruct (inbox w) as [|email emails].
    + injection Hrun as <-. contradiction.
    + cbn zeta. now rewrite Hrun.
  - eapply process_emails_invariant; [apply loop_start_invariant|exact Hrun].
Qed.

Lemma process_gmail_account_returns_None (w : world) (account_id : string) :
  returned (process_gmail_account w account_id) = JNull.
Proof.
  unfold process_gmail_account.
  destruct (session w) as [[]|err]; [|reflexivity].
  destruct (inbox w) as [|email emails]; [reflexivity|].
  cbn zeta. destruct (process_emails _ _ _ _ _) as [st [stop|]]; reflexivity.
Qed.

(** C8, as the code has it.  In a run that completes its loop with [n] >= 1
    staged rows, and in which the notifier module could be imported, the
    orchestrator makes exactly one call to [send_batch_notification] (and
    no per-transaction call) when [n > 5], and otherwise exactly one call
    to [send_telegram_notification] per staged transaction, in order (and
    no batch call); when the module could not be imported it makes no
    notification call. *)
Theorem process_gmail_account_notifications (w : world) (account_id : string)
    (st : run_state) :
  session w = Ok tt ->
  process_emails w account_id (get_existing_data (sheet_values w)) (inbox w)
    (loop_start account_id) = (st, None) ->
  staged_rows st <> [] ->
  let r := process_gmail_account w account_id in
  let n := List.length (staged_rows st) in
  notifications (calls (final r)) =
    (if TELEGRAM_AVAILABLE w then
       if (5 <? n)%nat then [NotifyBatch n account_id]
       else map (fun transaction => NotifyTransaction transaction account_id)
                (processed_transactions st)
     else []) /\
  List.length (processed_transactions st) = n.
Proof.
  intros Hsession Hrun Hstaged r n.
  destruct (process_gmail_account_completed w account_id st Hsession Hrun Hstaged)
    as [Hr Hinv].
  split; [|symmetry; apply staged_rows_length, Hinv].
  subst r. rewrite Hr. cbn [final].
  destruct (finish_staged w account_id (get_existing_data (sheet_values w)) st Hinv Hstaged)
    as (rows & tail & Hcalls & _).
  rewrite Hcalls, notifications_app. destruct Hinv as [_ ->]. cbn [app].
  fold n. unfold notifications at 1. cbn [List.filter is_notification].
  destruct (TELEGRAM_AVAILABLE w); [|reflexivity].
  destruct (5 <? n)%nat; [reflexivity|apply notifications_transactions].
Qed.

(** C9, as the code has it.  When the append of the staged rows fails,
    [append_to_sheet] catches the error and prints it; the run goes on to
    print its count of processed transactions and returns [None], the value
    every run returns.  The requests made before the append, among them
    every request to mark a message, stay as they were made. *)
Theorem process_gmail_account_append_failure (w : world) (account_id : string)
    (st : run_state) (e : exn) :
  session w = Ok tt ->
  process_emails w account_id (get_existing_data (sheet_values w)) (inbox w)
    (loop_start account_id) = (st, None) ->
  staged_rows st <> [] ->
  (forall rows, sheet_append w rows = Raised e) ->
  let r := process_gmail_account w account_id in
  returned r = JNull /\
  (forall w' account_id', returned (process_gmail_account w' account_id') = returned r) /\
  (exists rows sent, calls (final r) = (calls st ++ SheetsAppend rows :: sent)%list) /\
  ErrorAppending e ∈ printed (final r) /\
  ProcessedNew (List.length (staged_rows st)) ∈ printed (final r).
Proof.
  intros Hsession Hrun Hstaged Hfail r. subst r.
  destruct (process_gmail_account_completed w account_id st Hsession Hrun Hstaged)
    as [Hr Hinv].
  split; [apply process_gmail_account_returns_None|].
  split; [intros w' account_id'; now rewrite !process_gmail_account_returns_None|].
  rewrite Hr. cbn [final].
  destruct (finish_staged w account_id (get_existing_data (sheet_values w)) st Hinv Hstaged)
    as (rows & tail & Hcalls & Hprinted).
  rewrite Hfail in Hprinted. split; [eauto|].
  rewrite Hprinted, !elem_of_app, !elem_of_cons. split.
  - right. left. now left.
  - right. left. right. now left.
Qed.

End Properties.

(** * Further properties of the code *)

Section Coverage.
Context `{PyRuntime}.

(** ** Deduplication and the store *)

Lemma is_duplicate_existsb (new_entry : pydict) (existing_entries : list pydict) :
  is_duplicate new_entry existing_entries =
    existsb (fun existing => fields_match new_entry existing key_fields) existing_entries.
Proof.
  induction existing_entries as [|existing rest IH]; [reflexivity|].
  cbn [is_duplicate existsb]. rewrite IH.
  now destruct (fields_match new_entry existing key_fields).
Qed.

(** X1. The verdict of [is_duplicate] does not depend on the order of the
    existing records, and on a list in two pieces it is the disjunction of
    the verdicts on the pieces. *)
Theorem is_duplicate_order_insensitive (new_entry : pydict)
    (existing_entries reordered more : list pydict) :
  existing_entries ≡ₚ reordered ->
  is_duplicate new_entry existing_entries = is_duplicate new_entry reordered /\
  is_duplicate new_entry (existing_entries ++ more)%list =
    is_duplicate new_entry existing_entries || is_duplicate new_entry more.
Proof.
  intros Hperm. rewrite !is_duplicate_existsb. split.
  - induction Hperm as [|x l l' _ IH|x y l|l l' l'' _ IH1 _ IH2]; cbn [existsb].
    + reflexivity.
    + now rewrite IH.
    + now rewrite !orb_assoc, (orb_comm (fields_match _ y _)).
    + now rewrite IH1.
  - apply existsb_app.
Qed.

Lemma is_duplicate_found (new_entry existing : pydict) (before after : list pydict) :
  fields_match new_entry existing key_fields = true ->
  is_duplicate new_entry (before ++ existing :: after)%list = true.
Proof.
  intros Hm. rewrite is_duplicate_existsb, existsb_app. cbn [existsb].
  rewrite Hm. now rewrite orb_true_r.
Qed.

Lemma key_of_row_entry (entry : pydict) (cells : list string) (j : nat) (field : string) :
  key_fields !! j = Some field ->
  key_of (row_entry (key_cells entry ++ cells)%list) field = key_of entry field.
Proof.
  intros Hj. unfold key_of.
  assert (Hh : headers !! j = Some field).
  { unfold key_fields in Hj. unfold headers.
    do 4 (destruct j as [|j]; [exact Hj|]). discriminate. }
  rewrite (row_entry_lookup _ j field Hh). cbn [default from_option id py_str].
  unfold key_fields in Hj. unfold key_cells, key_fields.
  do 4 (destruct j as [|j]; [injection Hj as <-; reflexivity|]). discriminate.
Qed.

(** X2. A row whose first four cells are [str] of the date, amount,
    category and description of an entry makes that entry a duplicate when
    the store is read back, wherever the row stands below the header row
    and whatever its further cells are. *)
Theorem stored_row_is_duplicate (entry : pydict) (header : list string)
    (cells : list string) (before after : list (list string)) :
  is_duplicate entry
    (get_existing_data
       (Ok (header :: before ++ (key_cells entry ++ cells) :: after)%list)) = true.
Proof.
  unfold get_existing_data. rewrite read_existing_map. cbn [try_except drop].
  rewrite drop_0, map_app. cbn [map]. apply is_duplicate_found.
  apply fields_match_true. unfold key_fields.
  repeat (apply List.Forall_cons; [symmetry|]); [| | | |apply List.Forall_nil].
  - now apply (key_of_row_entry entry cells 0).
  - now apply (key_of_row_entry entry cells 1).
  - now apply (key_of_row_entry entry cells 2).
  - now apply (key_of_row_entry entry cells 3).
Qed.

(** X3. [get_existing_data] returns no record exactly when the read of the
    store raised or returned at most one row: the first row is never read
    as data, and a failed read cannot be told from an empty store. *)
Theorem get_existing_data_empty_iff (response : outcome (list (list string))) :
  get_existing_data response = [] <->
  (exists e, response = Raised e) \/
  (exists values, response = Ok values /\ (List.length values <= 1)%nat).
Proof.
  destruct response as [values|e].
  - unfold get_existing_data. rewrite read_existing_map. cbn [try_except]. split.
    + intros Hnil. right. exists values. split; [reflexivity|].
      apply (f_equal List.length) in Hnil.
      rewrite length_map, length_drop in Hnil. cbn in Hnil. lia.
    + intros [(e & He)|(values' & Hv & Hlen)]; [discriminate|].
      injection Hv as <-.
      destruct values as [|header [|row rows]]; [reflexivity|reflexivity|cbn in Hlen; lia].
  - split; [intros _; left; now exists e|reflexivity].
Qed.

(** ** [append_to_sheet] *)

Lemma append_to_sheet_rows (w : world) (data_rows : list (list jvalue))
    (skip_header : bool) (st : run_state) :
  calls (append_to_sheet w data_rows skip_header st) =
    (calls st ++
     match data_rows with
     | [] => []
     | [only] => [SheetsAppend [only]]
     | first :: second :: rest =>
         [SheetsAppend (if skip_header then second :: rest else first :: second :: rest)]
     end)%list.
Proof.
  unfold append_to_sheet.
  destruct data_rows as [|first [|second rest]].
  - destruct skip_header; cbn; now rewrite app_nil_r.
  - destruct skip_header; cbn; destruct (sheet_append w [first]); reflexivity.
  - destruct skip_header; cbn [andb Nat.ltb Nat.leb List.length drop];
      match goal with
      | |- context [sheet_append w ?rows] => destruct (sheet_append w rows)
      end; reflexivity.
Qed.

(** X4. [append_to_sheet] makes one append request, or none: none exactly
    when it is given no row.  The request carries the rows after the first
    when the header is to be skipped and there are at least two rows, and
    all the rows otherwise, so a list of one row is appended whole even
    when the header is to be skipped.  The rows, the counters and the
    transactions of the run are left as they were. *)
Theorem append_to_sheet_request (w : world) (data_rows : list (list jvalue))
    (skip_header : bool) (st : run_state) :
  calls (append_to_sheet w data_rows skip_header st) =
    (calls st ++
     match data_rows with
     | [] => []
     | [only] => [SheetsAppend [only]]
     | first :: second :: rest =>
         [SheetsAppend (if skip_header then second :: rest else first :: second :: rest)]
     end)%list /\
  all_data_rows (append_to_sheet w data_rows skip_header st) = all_data_rows st /\
  duplicate_count (append_to_sheet w data_rows skip_header st) = duplicate_count st /\
  processed_transactions (append_to_sheet w data_rows skip_header st)
    = processed_transactions st.
Proof. split; [apply append_to_sheet_rows|apply append_to_sheet_frame]. Qed.

(** ** Classifier adapter *)

Lemma normalize_amount_well_signed (parsed_data : jvalue) (d : pydict) :
  normalize_amount parsed_data = Ok d -> amount_well_signed d.
Proof.
  intros Hn. destruct parsed_data as [| | | | | |d0]; try discriminate.
  unfold amount_well_signed.
  destruct (d0 !! "amount") as [raw|] eqn:Hraw.
  - destruct (JNull_or_not raw) as [->|Hnull].
    + unfold normalize_amount in Hn. rewrite Hraw in Hn. injection Hn as <-.
      now rewrite Hraw.
    + rewrite (normalize_amount_present d0 raw Hraw Hnull) in Hn.
      destruct (py_float raw) as [f|e]; [|discriminate].
      cbn [mbind outcome_bind] in Hn. injection Hn as <-.
      rewrite lookup_insert_eq, lookup_insert_ne by discriminate.
      rewrite signed_amount_eq. split.
      * intros Hexpense. apply is_expense_true in Hexpense. rewrite Hexpense.
        now rewrite SFabs_opp, SFabs_idem.
      * intros Hother. apply is_expense_false in Hother. rewrite Hother.
        now rewrite SFabs_idem.
  - unfold normalize_amount in Hn. rewrite Hraw in Hn. injection Hn as <-.
    now rewrite Hraw.
Qed.

(** X5. Whatever the model replies, a record that
    [parse_email_with_gemini] returns has an amount that is absent, null,
    or a float equal to [-abs] of itself when the transaction type of the
    record is the string ["expense"] and to [abs] of itself for any other
    or missing type: no string, integer or wrongly signed amount leaves the
    adapter. *)
Theorem parse_email_with_gemini_well_signed
    (generate_content : prompt -> outcome string) (today text : string) (d : pydict) :
  parse_email_with_gemini generate_content today text = Some d ->
  amount_well_signed d.
Proof.
  unfold parse_email_with_gemini, parse_reply.
  destruct (negb (str_truthy text)); [discriminate|].
  destruct (generate_content _) as [response_text|]; [|discriminate].
  cbn [mbind outcome_bind].
  destruct (strip_fence response_text) as [cleaned|]; [|discriminate].
  cbn [mbind outcome_bind].
  destruct (json_loads cleaned) as [parsed_data|]; [|discriminate].
  cbn [mbind outcome_bind].
  destruct (normalize_amount parsed_data) as [d'|] eqn:Hn; [|discriminate].
  intros Hd. injection Hd as <-. exact (normalize_amount_well_signed _ _ Hn).
Qed.

(** ** The loop of [process_gmail_account] *)

Lemma make_data_row_of_entry (w : world) (account_id : string) (parsed_data : pydict) :
  make_data_row (make_entry (today w) parsed_data)
    (email_processor_user_id w account_id) (now w)
  = Ok (row_of_entry w account_id (make_entry (today w) parsed_data)).
Proof.
  unfold make_data_row, row_of_entry, make_entry.
  now simplify_map_eq.
Qed.

(** The three things one pass of the loop can do to the state. *)
Lemma process_email_cases (w : world) (account_id : string)
    (existing_data : list pydict) (st st' : run_state) (email : email) :
  process_email w account_id existing_data st email = Ok st' ->
  st' = st \/
  (exists l, st' = do_call (MarkProcessed (email_id email)) (count_duplicate (print l st))) \/
  (exists entry,
     st' = do_call (MarkProcessed (email_id email))
             (stage (row_of_entry w account_id entry) entry st)).
Proof.
  unfold process_email.
  destruct (extract_email_body (email_payload email)) as [email_body|]; [|discriminate].
  cbn [mbind outcome_bind].
  destruct (opt_str_truthy email_body); [|intros [= <-]; now left].
  destruct (parse_email_with_gemini _ _ _) as [parsed_data|]; [|intros [= <-]; now left].
  destruct (dict_truthy parsed_data); [|intros [= <-]; now left].
  destruct (is_duplicate _ _).
  - intros [= <-]. right. left. eexists. reflexivity.
  - rewrite make_data_row_of_entry. cbn [mbind outcome_bind].
    intros [= <-]. right. right. eexists. reflexivity.
Qed.

Lemma process_emails_trace (w : world) (account_id : string)
    (existing_data : list pydict) (emails : list email) (st st' : run_state)
    (stop : option exn) :
  process_emails w account_id existing_data emails st = (st', stop) ->
  exists (marked : list string) (entries : list pydict) (duplicates : nat),
    calls st' = (calls st ++ map MarkProcessed marked)%list /\
    marked `sublist_of` map email_id emails /\
    all_data_rows st' = (all_data_rows st ++ map (row_of_entry w account_id) entries)%list /\
    processed_transactions st' = (processed_transactions st ++ entries)%list /\
    duplicate_count st' = (duplicate_count st + duplicates)%nat /\
    List.length marked = (List.length entries + duplicates)%nat.
Proof.
  revert st. induction emails as [|email emails IH]; intros st Hrun.
  - injection Hrun as <- _. exists [], [], 0%nat. cbn. rewrite !app_nil_r.
    repeat split; [constructor|lia].
  - cbn [process_emails] in Hrun.
    destruct (process_email w account_id existing_data st email) as [st1|e] eqn:Hstep.
    + destruct (IH st1 Hrun) as (marked & entries & duplicates & Hc & Hs & Hr & Ht & Hd & Hl).
      destruct (process_email_cases _ _ _ _ _ _ Hstep) as [->|[(l & ->)|(entry & ->)]].
      * exists marked, entries, duplicates. repeat split; try assumption.
        cbn [map]. now apply sublist_cons.
      * exists (email_id email :: marked), entries, (S duplicates).
        cbn in Hc, Hr, Ht, Hd. repeat split; try assumption.
        -- rewrite Hc, <- app_assoc. reflexivity.
        -- cbn [map]. now apply sublist_skip.
        -- lia.
        -- cbn [List.length]. lia.
      * exists (email_id email :: marked), (entry :: entries), duplicates.
        cbn in Hc, Hr, Ht, Hd. repeat split; try assumption.
        -- rewrite Hc, <- app_assoc. reflexivity.
        -- cbn [map]. now apply sublist_skip.
        -- rewrite Hr, <- app_assoc. reflexivity.
        -- rewrite Ht, <- app_assoc. reflexivity.
        -- cbn [List.length]. lia.
    + injection Hrun as <- _. exists [], [], 0%nat. cbn. rewrite !app_nil_r.
      repeat split; [apply sublist_nil_l|lia].
Qed.

Lemma staged_for_rows (w : world) (account_id : string) (entries : list pydict) :
  staged_for w account_id (map (row_of_entry w account_id) entries) entries.
Proof.
  induction entries as [|entry entries IH]; [constructor|].
  constructor; [|exact IH]. exists (now w). reflexivity.
Qed.

(** X6. Wherever the loop of a run stops, the requests made so far are
    requests to mark messages of the inbox, each message at most once and
    in the order of the inbox; every marked message was either staged or
    counted as a duplicate; and below the header row stands one row per
    transaction kept, in order, made of its date, amount, category and
    description and the user id, followed by one timestamp. *)
Theorem process_emails_accounting (w : world) (account_id : string)
    (existing_data : list pydict) (emails : list email) (st : run_state)
    (stop : option exn) :
  process_emails w account_id existing_data emails (loop_start account_id) = (st, stop) ->
  exists marked,
    calls st = map MarkProcessed marked /\
    marked `sublist_of` map email_id emails /\
    List.length marked = (List.length (staged_rows st) + duplicate_count st)%nat /\
    all_data_rows st = header_row :: staged_rows st /\
    staged_for w account_id (staged_rows st) (processed_transactions st).
Proof.
  intros Hrun.
  destruct (process_emails_trace _ _ _ _ _ _ _ Hrun)
    as (marked & entries & duplicates & Hc & Hs & Hr & Ht & Hd & Hl).
  cbn in Hc, Hr, Ht, Hd. exists marked. unfold staged_rows.
  rewrite Hc, Hr, Ht, Hd. cbn [drop]. rewrite drop_0, length_map.
  repeat split; try assumption. apply staged_for_rows.
Qed.

Lemma notify_each_frame (account_id : string) (transactions : list pydict)
    (st : run_state) :
  all_data_rows (notify_each account_id transactions st) = all_data_rows st /\
  duplicate_count (notify_each account_id transactions st) = duplicate_count st /\
  processed_transactions (notify_each account_id transactions st)
    = processed_transactions st.
Proof.
  unfold notify_each. revert st.
  induction transactions as [|transaction transactions IH]; intros st; [repeat split|].
  cbn [foldl]. destruct (IH (do_call (NotifyTransaction transaction account_id) st))
    as (Hr & Hd & Ht).
  rewrite Hr, Hd, Ht. repeat split.
Qed.

Lemma finish_frame (w : world) (account_id : string) (existing_data : list pydict)
    (st : run_state) :
  all_data_rows (finish w account_id existing_data st) = all_data_rows st /\
  duplicate_count (finish w account_id existing_data st) = duplicate_count st /\
  processed_transactions (finish w account_id existing_data st)
    = processed_transactions st.
Proof.
  assert (Hlast : forall (l : line) (st2 : run_state),
            all_data_rows (if (0 <? duplicate_count st2)%nat then print l st2 else st2)
              = all_data_rows st2 /\
            duplicate_count (if (0 <? duplicate_count st2)%nat then print l st2 else st2)
              = duplicate_count st2 /\
            processed_transactions (if (0 <? duplicate_count st2)%nat then print l st2 else st2)
              = processed_transactions st2).
  { intros l st2. destruct (0 <? duplicate_count st2)%nat; repeat split. }
  unfold finish. destruct (1 <? List.length (all_data_rows st))%nat.
  - cbn zeta.
    destruct (append_to_sheet_frame w (all_data_rows st)
                (0 <? List.length existing_data)%nat st) as (Hr & Hd & Ht).
    match goal with
    | |- context [if (0 <? duplicate_count ?st2)%nat then print ?l ?st2 else ?st2] =>
        destruct (Hlast l st2) as (Hr2 & Hd2 & Ht2); rewrite Hr2, Hd2, Ht2
    end.
    destruct (TELEGRAM_AVAILABLE w && _).
    + destruct (5 <? _)%nat.
      * cbn [do_call print all_data_rows duplicate_count processed_transactions].
        now rewrite Hr, Hd, Ht.
      * match goal with
        | |- context [notify_each ?a ?txs ?st2] =>
            destruct (notify_each_frame a txs st2) as (Hr3 & Hd3 & Ht3);
            rewrite Hr3, Hd3, Ht3
        end.
        cbn [print all_data_rows duplicate_count processed_transactions].
        now rewrite Hr, Hd, Ht.
    + cbn [print all_data_rows duplicate_count processed_transactions].
      now rewrite Hr, Hd, Ht.
  - apply (Hlast (FoundDuplicates (duplicate_count (print NoNewData st))) (print NoNewData st)).
Qed.

Lemma process_emails_all_new (w : world) (account_id : string)
    (existing_data : list pydict) (emails : list email) (st : run_state) :
  Forall (classified_new w existing_data) emails ->
  exists st',
    process_emails w account_id existing_data emails st = (st', None) /\
    calls st' = (calls st ++ map (fun email => MarkProcessed (email_id email)) emails)%list /\
    List.length (all_data_rows st') = (List.length (all_data_rows st) + List.length emails)%nat /\
    duplicate_count st' = duplicate_count st.
Proof.
  intros Hall. revert st. induction Hall as [|email emails Hnew _ IH]; intros st.
  - exists st. cbn. rewrite app_nil_r. repeat split. lia.
  - destruct Hnew as (text & parsed_data & Hbody & Htext & Hparse & Htruthy & Hdup).
    cbn [process_emails]. unfold process_email. rewrite Hbody.
    cbn [mbind outcome_bind opt_str_truthy]. rewrite Htext.
    cbn [default from_option id]. rewrite Hparse, Htruthy, Hdup.
    rewrite make_data_row_of_entry. cbn [mbind outcome_bind].
    match goal with
    | |- context [process_emails _ _ _ _ ?st1] =>
        destruct (IH st1) as (st' & Hrun & Hc & Hr & Hd)
    end.
    exists st'. split; [exact Hrun|]. cbn in Hc, Hr, Hd. repeat split.
    + rewrite Hc. cbn [map]. now rewrite <- app_assoc.
    + rewrite Hr, length_app. cbn [List.length]. lia.
    + exact Hd.
Qed.

(** X7. In a run all of whose messages are classified and none of whose
    entries is among the existing records, every message is staged and
    marked, and none is counted as a duplicate, even when the entries of
    the run are equal to one another: the snapshot is the only thing a
    candidate is compared with. *)
Theorem process_gmail_account_all_new (w : world) (account_id : string) :
  session w = Ok tt ->
  Forall (classified_new w (get_existing_data (sheet_values w))) (inbox w) ->
  let r := process_gmail_account w account_id in
  List.length (staged_rows (final r)) = List.length (inbox w) /\
  duplicate_count (final r) = 0%nat /\
  List.filter is_mark (calls (final r)) =
    map (fun email => MarkProcessed (email_id email)) (inbox w).
Proof.
  intros Hsession Hall r. subst r. unfold process_gmail_account. rewrite Hsession.
  destruct (inbox w) as [|email emails] eqn:Hinbox; [repeat split|].
  destruct (process_emails_all_new w account_id _ _ (loop_start account_id) Hall)
    as (st' & Hrun & Hc & Hr & Hd).
  cbn zeta. rewrite Hrun. cbn [final].
  destruct (finish_frame w account_id (get_existing_data (sheet_values w)) st')
    as (Hr2 & Hd2 & _).
  unfold staged_rows. rewrite Hr2, Hd2, length_drop, Hr, Hd.
  split; [cbn; lia|]. split; [reflexivity|].
  assert (Hinv : loop_invariant st').
  { eapply process_emails_invariant; [apply loop_start_invariant|exact Hrun]. }
  assert (Hstaged : staged_rows st' <> []).
  { intros Hnil. apply (f_equal List.length) in Hnil. unfold staged_rows in Hnil.
    rewrite length_drop, Hr in Hnil. cbn in Hnil. lia. }
  destruct (finish_staged w account_id (get_existing_data (sheet_values w)) st' Hinv Hstaged)
    as (rows & tail & Hcalls & _).
  rewrite Hcalls, Hc. cbn [loop_start calls app].
  rewrite List.filter_app. cbn [List.filter is_mark].
  assert (Hmarks : forall l,
            List.filter is_mark (map (fun email => MarkProcessed (email_id email)) l)
            = map (fun email => MarkProcessed (email_id email)) l).
  { induction l as [|x l IH]; [reflexivity|]. cbn. now rewrite IH. }
  rewrite Hmarks.
  assert (Hsent : forall sent, notifications sent = sent -> List.filter is_mark sent = []).
  { induction sent as [|c sent IH]; [reflexivity|].
    unfold notifications. cbn [List.filter]. destruct c; cbn; intros Heq.
    - apply (f_equal List.length) in Heq.
      pose proof (List.filter_length_le is_notification sent). cbn in Heq. lia.
    - apply (f_equal List.length) in Heq.
      pose proof (List.filter_length_le is_notification sent). cbn in Heq. lia.
    - injection Heq as Heq. now apply IH.
    - injection Heq as Heq. now apply IH. }
  rewrite Hsent; [now rewrite app_nil_r|].
  destruct (TELEGRAM_AVAILABLE w); [|reflexivity].
  destruct (5 <? _)%nat; [reflexivity|apply notifications_transactions].
Qed.

(** X8. When the extraction of a message raises, the run stops there: it
    makes no append and no notification request and drops the rows staged
    so far, while the requests to mark the messages handled before stay
    made; it prints the error and returns [None]. *)
Theorem process_gmail_account_aborted (w : world) (account_id : string)
    (st : run_state) (e : exn) :
  session w = Ok tt ->
  process_emails w account_id (get_existing_data (sheet_values w)) (inbox w)
    (loop_start account_id) = (st, Some e) ->
  let r := process_gmail_account w account_id in
  returned r = JNull /\
  (exists marked,
     calls (final r) = map MarkProcessed marked /\
     List.length marked = (List.length (staged_rows st) + duplicate_count st)%nat) /\
  printed (final r) = (printed st ++ [ErrorProcessingAccount account_id e])%list.
Proof.
  intros Hsession Hrun r. subst r.
  destruct (process_emails_trace _ _ _ _ _ _ _ Hrun)
    as (marked & entries & duplicates & Hc & _ & Hr & _ & Hd & Hl).
  cbn in Hc, Hr, Hd.
  unfold process_gmail_account. rewrite Hsession.
  destruct (inbox w) as [|email emails]; [discriminate|].
  cbn zeta. rewrite Hrun. cbn [returned final print calls printed].
  split; [reflexivity|]. split; [|reflexivity].
  exists marked. split; [exact Hc|].
  unfold staged_rows. rewrite Hr, Hd. cbn [drop]. rewrite drop_0, length_map. exact Hl.
Qed.

Lemma finish_staged_rows (w : world) (account_id : string)
    (existing_data : list pydict) (st : run_state) (staged : list (list jvalue)) :
  all_data_rows st = header_row :: staged ->
  staged <> [] ->
  exists sent,
    calls (finish w account_id existing_data st) =
      (calls st ++
       SheetsAppend (match existing_data with
                     | [] => header_row :: staged
                     | _ :: _ => staged
                     end) :: sent)%list /\
    notifications sent = sent.
Proof.
  intros Hrows Hstaged.
  destruct staged as [|row staged]; [contradiction|].
  pose proof (append_to_sheet_rows w (all_data_rows st)
                (0 <? List.length existing_data)%nat st) as Hc.
  rewrite Hrows in Hc.
  destruct (append_to_sheet_frame w (all_data_rows st)
              (0 <? List.length existing_data)%nat st) as (Hr & _ & Ht).
  assert (Hreport : forall (l : line) (st2 : run_state),
            calls (if (0 <? duplicate_count st2)%nat then print l st2 else st2) = calls st2).
  { intros l st2. now destruct (0 <? duplicate_count st2)%nat. }
  unfold finish.
  replace (1 <? List.length (all_data_rows st))%nat with true by now rewrite Hrows.
  cbn zeta. rewrite Hreport, Hr, Hrows.
  set (n := (List.length (header_row :: row :: staged) - 1)%nat).
  assert (Hskip : (if (0 <? List.length existing_data)%nat
                   then row :: staged else header_row :: row :: staged)
                  = match existing_data with
                    | [] => header_row :: row :: staged
                    | _ :: _ => row :: staged
                    end) by now destruct existing_data.
  rewrite Hskip in Hc.
  destruct (TELEGRAM_AVAILABLE w && (0 <? n)%nat).
  - destruct (5 <? n)%nat.
    + exists [NotifyBatch n account_id]. cbn [calls do_call print].
      rewrite Hc, <- app_assoc. split; reflexivity.
    + match goal with
      | |- context [notify_each ?a ?txs ?st2] =>
          destruct (notify_each_calls a txs st2) as [Hc2 _]
      end.
      eexists. rewrite Hc2. cbn [calls print]. rewrite Hc, <- app_assoc.
      split; [reflexivity|apply notifications_transactions].
  - exists []. cbn [calls print]. rewrite Hc. split; reflexivity.
Qed.

(** X9. A run that completes its loop with staged rows makes exactly one
    append request, after its requests to mark and before its
    notifications.  The request carries the staged rows, preceded by the
    header row exactly when the snapshot of the store held no record; the
    staged rows stand for the transactions kept, one for one and in order,
    each with six cells: the four key fields of its transaction, the user
    id and one timestamp. *)
Theorem process_gmail_account_appended_rows (w : world) (account_id : string)
    (st : run_state) :
  session w = Ok tt ->
  process_emails w account_id (get_existing_data (sheet_values w)) (inbox w)
    (loop_start account_id) = (st, None) ->
  staged_rows st <> [] ->
  let r := process_gmail_account w account_id in
  exists marked sent,
    calls (final r) =
      (map MarkProcessed marked ++
       SheetsAppend (match get_existing_data (sheet_values w) with
                     | [] => header_row :: staged_rows st
                     | _ :: _ => staged_rows st
                     end) :: sent)%list /\
    notifications sent = sent /\
    staged_for w account_id (staged_rows st) (processed_transactions st) /\
    Forall (fun row => List.length row = 6%nat) (staged_rows st).
Proof.
  intros Hsession Hrun Hstaged r. subst r.
  destruct (process_gmail_account_completed w account_id st Hsession Hrun Hstaged)
    as [Hr _].
  destruct (process_emails_trace _ _ _ _ _ _ _ Hrun)
    as (marked & entries & duplicates & Hc & _ & Hrows & Ht & _ & _).
  cbn in Hc, Hrows, Ht.
  assert (Hst : staged_rows st = map (row_of_entry w account_id) (processed_transactions st)).
  { unfold staged_rows. now rewrite Hrows, Ht. }
  assert (Hall : all_data_rows st = header_row :: staged_rows st).
  { unfold staged_rows. now rewrite Hrows. }
  destruct (finish_staged_rows w account_id (get_existing_data (sheet_values w)) st
              (staged_rows st) Hall Hstaged) as (sent & Hcalls & Hsent).
  rewrite Hr. cbn [final]. exists marked, sent.
  split; [now rewrite Hcalls, Hc|]. split; [exact Hsent|].
  split; [rewrite Hst; apply staged_for_rows|].
  rewrite Hst. apply Forall_forall. intros row Hin.
  apply list_elem_of_fmap in Hin as (entry & -> & _). reflexivity.
Qed.

(** ** Notifier *)

Lemma post_to_chats_success (tg : telegram) (chat_ids : list string) (message : notice) :
  (0 <? snd (post_to_chats tg chat_ids message))%nat =
    existsb (fun chat_id => send_message_to_chat tg chat_id message) chat_ids.
Proof.
  induction chat_ids as [|chat_id chat_ids IH]; [reflexivity|].
  cbn [post_to_chats existsb]. destruct (post_to_chats tg chat_ids message) as [posted n].
  cbn [snd] in IH |- *. destruct (send_message_to_chat tg chat_id message); [reflexivity|].
  exact IH.
Qed.

(** X10. [send_batch_notification] posts nothing and returns [False] when
    Telegram is disabled or the token or the chat ids are missing;
    otherwise it posts the one summary to every configured chat, in order,
    and returns [True] exactly when at least one chat accepted it. *)
Theorem send_batch_notification_result (tg : telegram) (transaction_count : nat)
    (account_id : string) :
  let message := BatchNotice transaction_count account_id in
  ((TELEGRAM_ENABLED tg = false \/ TELEGRAM_BOT_TOKEN tg = "" \/ TELEGRAM_CHAT_IDS tg = []) ->
   send_batch_notification tg transaction_count account_id = ([], false)) /\
  (TELEGRAM_ENABLED tg = true -> TELEGRAM_BOT_TOKEN tg <> "" -> TELEGRAM_CHAT_IDS tg <> [] ->
   send_batch_notification tg transaction_count account_id =
     (map (fun chat_id => (chat_id, message)) (TELEGRAM_CHAT_IDS tg),
      existsb (fun chat_id => send_message_to_chat tg chat_id message)
              (TELEGRAM_CHAT_IDS tg))).
Proof.
  cbn zeta. unfold send_batch_notification, unconfigured. split.
  - intros [Hoff|[Htoken|Hchats]].
    + now rewrite Hoff.
    + rewrite Htoken. cbn [str_truthy negb orb]. now rewrite orb_true_r.
    + rewrite Hchats. now rewrite !orb_true_r.
  - intros Hon Htoken Hchats. rewrite Hon.
    destruct (TELEGRAM_BOT_TOKEN tg) as [|c token]; [contradiction|].
    destruct (TELEGRAM_CHAT_IDS tg) as [|chat_id chat_ids] eqn:Hids; [contradiction|].
    cbn [str_truthy negb orb].
    rewrite <- (post_to_chats_success tg), <- (post_to_chats_posted tg).
    now destruct (post_to_chats tg (chat_id :: chat_ids) _).
Qed.

(** X11. The label that a notification gives to a normalized transaction
    follows its type: ["Pengeluaran"] for an expense and ["Pemasukan"]
    otherwise, for every amount that is neither zero nor NaN.  An amount of
    zero is labelled ["Pemasukan"] even for an expense, and NaN is
    labelled ["Pengeluaran"] whatever the type.  The label is the same on
    the record itself, as [api/process.py] passes it, and on the entry
    built from it. *)
Theorem label_follows_transaction_type (d d' : pydict) (raw : jvalue)
    (f : spec_float) (today : string) :
  d !! "amount" = Some raw -> raw <> JNull -> py_float raw = Ok f ->
  normalize_amount (JObj d) = Ok d' ->
  exists label,
    label_of_amount d' = Ok label /\
    label_of_amount (make_entry today d') = Ok label /\
    match f with
    | S754_nan => label = Pengeluaran
    | S754_zero _ => label = Pemasukan
    | S754_infinity _ | S754_finite _ _ _ =>
        (d !! "transaction_type" = Some (JStr "expense") -> label = Pengeluaran) /\
        (d !! "transaction_type" <> Some (JStr "expense") -> label = Pemasukan)
    end.
Proof.
  intros Hraw Hnull Hf Hn.
  enough (Hold :
    label_of_amount d' =
      Ok (match f with
          | S754_nan => Pengeluaran
          | S754_zero _ => Pemasukan
          | S754_infinity _ | S754_finite _ _ _ =>
              if is_expense (d !! "transaction_type") then Pengeluaran else Pemasukan
          end) /\
    label_of_amount (make_entry today d') = label_of_amount d').
  { destruct Hold as [Hlabel Hentry]. eexists. split; [exact Hlabel|].
    split; [now rewrite Hentry|].
    destruct f as [s|s| |s m e]; try reflexivity;
      (split;
       [intros Hexpense; apply is_expense_true in Hexpense; now rewrite Hexpense
       |intros Hother; apply is_expense_false in Hother; now rewrite Hother]). }
  rewrite (normalize_amount_present d raw Hraw Hnull), Hf in Hn.
  cbn [mbind outcome_bind] in Hn. injection Hn as <-.
  assert (Hentry : make_entry today
                     (<["amount" := JFloat (signed_amount f (is_expense (d !! "transaction_type")))]> d)
                   !! "amount"
                   = Some (JFloat (signed_amount f (is_expense (d !! "transaction_type"))))).
  { unfold make_entry. rewrite lookup_insert_ne by discriminate.
    rewrite lookup_insert_eq. now rewrite lookup_insert_eq. }
  unfold label_of_amount. rewrite Hentry, lookup_insert_eq.
  cbn [default from_option id py_float]. split; [|reflexivity].
  rewrite signed_amount_eq.
  destruct f as [s|s| |s m e], (is_expense (d !! "transaction_type")); try reflexivity;
    destruct s; reflexivity.
Qed.

(** ** The calls to the mail service *)

Lemma fetch_messages_all (get : string -> outcome email) (messages : list string)
    (fetched : list email) :
  Forall2 (fun message msg => get message = Ok msg) messages fetched ->
  fetch_messages get messages = Ok fetched.
Proof.
  induction 1 as [|message msg messages fetched Hget _ IH]; [reflexivity|].
  cbn [fetch_messages]. rewrite Hget, IH. reflexivity.
Qed.

Lemma fetch_messages_one_fails (get : string -> outcome email) (messages : list string)
    (message : string) (e : exn) :
  message ∈ messages -> get message = Raised e ->
  exists e', fetch_messages get messages = Raised e'.
Proof.
  intros Hin Hget. induction messages as [|m messages IH]; [inversion Hin|].
  cbn [fetch_messages]. destruct (get m) as [msg|e'] eqn:Hm; [|now exists e'].
  cbn [mbind outcome_bind].
  apply elem_of_cons in Hin as [->|Hin]; [congruence|].
  destruct (IH Hin) as [e' ->]. now exists e'.
Qed.

(** X12. [get_emails] is all or nothing: when every listed message can be
    fetched it returns them all, in the order of the listing; when the
    fetch of any one of them fails it returns the empty list, as it does
    when the listing itself fails. *)
Theorem get_emails_all_or_nothing (mb : mailbox) (messages : list string) :
  list_messages mb = Ok messages ->
  (forall fetched,
     Forall2 (fun message msg => get_message mb message = Ok msg) messages fetched ->
     get_emails mb = fetched) /\
  (forall message e,
     message ∈ messages -> get_message mb message = Raised e -> get_emails mb = []) /\
  (forall mb' e, list_messages mb' = Raised e -> get_emails mb' = []).
Proof.
  intros Hlist. unfold get_emails. rewrite Hlist. cbn [mbind outcome_bind].
  split; [|split].
  - intros fetched Hall. destruct messages as [|m messages].
    + inversion Hall. reflexivity.
    + now rewrite (fetch_messages_all _ _ _ Hall).
  - intros message e Hin Hget. destruct messages as [|m messages]; [reflexivity|].
    destruct (fetch_messages_one_fails _ _ _ _ Hin Hget) as [e' ->]. reflexivity.
  - intros mb' e He. now rewrite He.
Qed.

Lemma find_label_first (before after : list gmail_label) (label : gmail_label)
    (label_name : string) :
  Forall (fun l => label_name_of l <> label_name) before ->
  label_name_of label = label_name ->
  find_label (before ++ label :: after)%list label_name = Some (label_id_of label).
Proof.
  intros Hbefore Hname. induction Hbefore as [|l before Hl _ IH]; cbn [app find_label].
  - rewrite Hname, String.eqb_refl. reflexivity.
  - apply String.eqb_neq in Hl. rewrite Hl. exact IH.
Qed.

(** X13. When the labels of the mailbox hold one with the wanted name,
    [mark_email_processed] creates no label: it lists the labels and then
    asks for the message to receive the id of the first label of that
    name, and to lose [UNREAD] exactly when it is to be marked as read.  It
    reports success exactly when that request succeeds. *)
Theorem mark_email_processed_reuses_label (g : gmail) (message_id label_name : string)
    (mark_as_read : bool) (before after : list gmail_label) (label : gmail_label) :
  labels_list g = Ok (before ++ label :: after)%list ->
  Forall (fun l => label_name_of l <> label_name) before ->
  label_name_of label = label_name ->
  label_id_of label <> "" ->
  let request :=
    {| addLabelIds := [label_id_of label];
       removeLabelIds := if mark_as_read then Some ["UNREAD"] else None |} in
  mark_email_processed g message_id label_name mark_as_read =
    ([ListLabels; ModifyMessage message_id request],
     match messages_modify g message_id request with
     | Ok _ => true
     | Raised _ => false
     end).
Proof.
  intros Hlist Hbefore Hname Hid request. unfold mark_email_processed.
  rewrite Hlist, (find_label_first before after label label_name Hbefore Hname).
  destruct (label_id_of label) as [|c rest] eqn:Hl; [contradiction|].
  cbn [opt_str_truthy str_truthy default from_option id fst snd app].
  reflexivity.
Qed.

(** X14. When no label has the wanted name, [mark_email_processed] asks
    for its creation once, and marks the message with the id of the
    created label; when the creation fails it makes no request on the
    message. *)
Theorem mark_email_processed_creates_label (g : gmail) (message_id label_name : string)
    (mark_as_read : bool) (labels : list gmail_label) :
  labels_list g = Ok labels ->
  Forall (fun l => label_name_of l <> label_name) labels ->
  fst (mark_email_processed g message_id label_name mark_as_read) =
    match labels_create g label_name with
    | Ok label_id =>
        [ListLabels; CreateLabel label_name;
         ModifyMessage message_id
           {| addLabelIds := [label_id];
              removeLabelIds := if mark_as_read then Some ["UNREAD"] else None |}]
    | Raised _ => [ListLabels; CreateLabel label_name]
    end.
Proof.
  intros Hlist Hnone. unfold mark_email_processed. rewrite Hlist.
  assert (Hfind : find_label labels label_name = None).
  { clear Hlist. induction Hnone as [|l labels Hl _ IH]; [reflexivity|].
    cbn [find_label]. apply String.eqb_neq in Hl. rewrite Hl. exact IH. }
  rewrite Hfind. cbn [opt_str_truthy fst snd].
  destruct (labels_create g label_name); reflexivity.
Qed.

(** ** The HTTP entry point *)

Lemma api_commit_trace (w : Api.api_world) (message_id : string) (parsed_data : pydict)
    (st : Api.api_state) :
  Api.commit_trace w (Api.api_calls st) (Api.processed_count st) ->
  List.length (Api.api_transactions st) = Api.processed_count st ->
  Api.commit_trace w (Api.api_calls (Api.api_commit w message_id parsed_data st))
    (Api.processed_count (Api.api_commit w message_id parsed_data st)) /\
  List.length (Api.api_transactions (Api.api_commit w message_id parsed_data st))
    = Api.processed_count (Api.api_commit w message_id parsed_data st).
Proof.
  intros Htrace Hlen. unfold Api.api_commit.
  destruct (Api.api_append w (Api.api_data_row w parsed_data)) as [[]|e] eqn:Happend;
    cbn [Api.api_calls Api.processed_count Api.api_transactions].
  - split.
    + rewrite <- app_assoc, Nat.add_1_r. cbn [app].
      now apply Api.commit_accepted.
    + rewrite length_app, Hlen. reflexivity.
  - split; [|exact Hlen]. now apply Api.commit_refused with (e := e).
Qed.

Lemma api_process_loop_trace (w : Api.api_world) (emails : list email)
    (st st' : Api.api_state) (stop : option exn) :
  Api.commit_trace w (Api.api_calls st) (Api.processed_count st) ->
  List.length (Api.api_transactions st) = Api.processed_count st ->
  Api.process_loop w emails st = (st', stop) ->
  Api.commit_trace w (Api.api_calls st') (Api.processed_count st') /\
  List.length (Api.api_transactions st') = Api.processed_count st'.
Proof.
  revert st. induction emails as [|email emails IH]; intros st Htrace Hlen Hrun.
  - injection Hrun as <- _. now split.
  - cbn [Api.process_loop] in Hrun.
    destruct (Api.process_email w st email) as [st1|e] eqn:Hstep.
    + unfold Api.process_email in Hstep.
      destruct (extract_email_body (email_payload email)) as [email_body|]; [|discriminate].
      cbn [mbind outcome_bind] in Hstep.
      destruct (opt_str_truthy email_body);
        [|injection Hstep as <-; now apply (IH st)].
      destruct (parse_email_with_gemini _ _ _) as [parsed_data|];
        [|injection Hstep as <-; now apply (IH st)].
      destruct (dict_truthy parsed_data);
        [|injection Hstep as <-; now apply (IH st)].
      injection Hstep as <-.
      destruct (api_commit_trace w (email_id email) parsed_data st Htrace Hlen).
      now apply (IH (Api.api_commit w (email_id email) parsed_data st)).
    + injection Hrun as <- _. now split.
Qed.

(** X15. In [process_emails] of [api/process.py], wherever the loop stops,
    every request to mark a message read directly follows the append of a
    row that the store accepted, a refused append is followed by no mark,
    and [processed_count] is the number of accepted rows, which is also
    the number of transactions kept for notification. *)
Theorem api_marks_follow_appends (w : Api.api_world) (emails : list email)
    (st : Api.api_state) (stop : option exn) :
  Api.process_loop w emails
    {| Api.processed_count := 0; Api.api_transactions := []; Api.api_calls := [] |}
    = (st, stop) ->
  Api.commit_trace w (Api.api_calls st) (Api.processed_count st) /\
  List.length (Api.api_transactions st) = Api.processed_count st.
Proof.
  intros Hrun. eapply api_process_loop_trace; [| |exact Hrun].
  - apply Api.commit_none.
  - reflexivity.
Qed.

Lemma api_process_loop_outage (w : Api.api_world) (e : exn) (emails : list email)
    (st st' : Api.api_state) (stop : option exn) :
  (forall data_row, Api.api_append w data_row = Raised e) ->
  Api.process_loop w emails st = (st', stop) ->
  Api.processed_count st' = Api.processed_count st /\
  exists rows, Api.api_calls st' = (Api.api_calls st ++ map Api.AppendRow rows)%list.
Proof.
  intros Hdown. revert st. induction emails as [|email emails IH]; intros st Hrun.
  - injection Hrun as <- _. split; [reflexivity|]. exists []. now rewrite app_nil_r.
  - cbn [Api.process_loop] in Hrun.
    destruct (Api.process_email w st email) as [st1|err] eqn:Hstep.
    + unfold Api.process_email in Hstep.
      destruct (extract_email_body (email_payload email)) as [email_body|]; [|discriminate].
      cbn [mbind outcome_bind] in Hstep.
      destruct (opt_str_truthy email_body);
        [|injection Hstep as <-; now apply IH].
      destruct (parse_email_with_gemini _ _ _) as [parsed_data|];
        [|injection Hstep as <-; now apply IH].
      destruct (dict_truthy parsed_data);
        [|injection Hstep as <-; now apply IH].
      injection Hstep as <-. unfold Api.api_commit in Hrun. rewrite Hdown in Hrun.
      destruct (IH _ Hrun) as (Hcount & rows & Hcalls).
      cbn [Api.processed_count Api.api_calls] in Hcount, Hcalls.
      split; [exact Hcount|].
      exists (Api.api_data_row w parsed_data :: rows).
      rewrite Hcalls, <- app_assoc. reflexivity.
    + injection Hrun as <- _. split; [reflexivity|]. exists []. now rewrite app_nil_r.
Qed.

(** X16. When the store refuses every append, a request to
    [process_emails] that gets through its loop still answers 200, with a
    processed count of 0; its requests are attempts to append and nothing
    else: it marked no message read and sent no notification. *)
Theorem api_store_outage_answers_200 (w : Api.api_world) (e : exn)
    (st : Api.api_state) :
  Api.api_credentials w = true ->
  Api.api_services w = Ok tt ->
  str_truthy (Api.api_key w) = true ->
  Api.api_gemini w = Ok tt ->
  Api.api_inbox w <> [] ->
  (forall data_row, Api.api_append w data_row = Raised e) ->
  Api.process_loop w (Api.api_inbox w)
    {| Api.processed_count := 0; Api.api_transactions := []; Api.api_calls := [] |}
    = (st, None) ->
  fst (Api.process_emails w) = {| Api.statusCode := 200; Api.body_of := Api.Processed 0 |} /\
  exists rows, snd (Api.process_emails w) = map Api.AppendRow rows.
Proof.
  intros Hcreds Hservices Hkey Hgemini Hinbox Hdown Hrun.
  destruct (api_process_loop_outage w e _ _ _ _ Hdown Hrun) as (Hcount & rows & Hcalls).
  cbn [Api.processed_count Api.api_calls app] in Hcount, Hcalls.
  unfold Api.process_emails. rewrite Hcreds, Hservices, Hkey, Hgemini. cbn [negb].
  destruct (Api.api_inbox w) as [|email emails] eqn:Hin; [contradiction|].
  cbn zeta. rewrite Hrun. cbn [fst snd]. rewrite Hcount. split; [reflexivity|].
  exists rows. unfold Api.api_notify. rewrite Hcount. cbn [Nat.ltb Nat.leb].
  rewrite andb_false_r, app_nil_r. exact Hcalls.
Qed.

(** X17. When the extraction of a message raises, [process_emails] answers
    500 with that error and sends no notification, yet the rows appended
    and the messages marked before the failure stay as they are. *)
Theorem api_failure_keeps_commits (w : Api.api_world) (e : exn) (st : Api.api_state) :
  Api.api_credentials w = true ->
  Api.api_services w = Ok tt ->
  str_truthy (Api.api_key w) = true ->
  Api.api_gemini w = Ok tt ->
  Api.process_loop w (Api.api_inbox w)
    {| Api.processed_count := 0; Api.api_transactions := []; Api.api_calls := [] |}
    = (st, Some e) ->
  Api.process_emails w =
    ({| Api.statusCode := 500; Api.body_of := Api.Unhandled e |}, Api.api_calls st) /\
  Api.commit_trace w (Api.api_calls st) (Api.processed_count st).
Proof.
  intros Hcreds Hservices Hkey Hgemini Hrun.
  split;
    [|exact (proj1 (api_process_loop_trace w (Api.api_inbox w)
                      {| Api.processed_count := 0; Api.api_transactions := [];
                         Api.api_calls := [] |}
                      st (Some e) (Api.commit_none w) eq_refl Hrun))].
  unfold Api.process_emails. rewrite Hcreds, Hservices, Hkey, Hgemini. cbn [negb].
  destruct (Api.api_inbox w) as [|email emails] eqn:Hin; [discriminate|].
  cbn zeta. now rewrite Hrun.
Qed.

(** ** The code fence around a reply *)

Section Split.
Variables (c0 : ascii) (sep' : string).
Local Abbreviation sep := (String c0 sep').

Lemma prefix_head_neq (a : ascii) (s : string) :
  Ascii.eqb a c0 = false -> String.prefix sep (String a s) = false.
Proof.
  intros Hne. cbn [String.prefix].
  destruct (ascii_dec c0 a) as [->|_]; [|reflexivity].
  now rewrite Ascii.eqb_refl in Hne.
Qed.

Lemma prefix_app_self (p rest : string) : String.prefix p (p ++ rest) = true.
Proof.
  induction p as [|a p IH]; [now destruct rest|].
  change (String a p ++ rest) with (String a (p ++ rest)).
  change (String.prefix (String a p) (String a (p ++ rest)))
    with (if ascii_dec a a then String.prefix p (p ++ rest) else false).
  destruct (ascii_dec a a) as [_|Hne]; [exact IH|contradiction].
Qed.

Lemma split_go_skip (t : string) (cur : list ascii) (rest : string) :
  split_go sep (String.length t) cur (t ++ rest) = split_go sep 0 cur rest.
Proof.
  induction t as [|a t IH]; [reflexivity|].
  rewrite append_cons. cbn [String.length split_go]. exact IH.
Qed.

Lemma split_go_pass (a : string) (cur : list ascii) (s : string) :
  occurs c0 a = false ->
  split_go sep 0 cur (a ++ s) = split_go sep 0 (rev (list_ascii_of_string a) ++ cur)%list s.
Proof.
  revert cur. induction a as [|c a IH]; intros cur Hfree; [reflexivity|].
  cbn [occurs] in Hfree. apply orb_false_elim in Hfree as [Hc Ha].
  rewrite append_cons. cbn [split_go]. rewrite (prefix_head_neq c (a ++ s) Hc), (IH _ Ha).
  cbn [list_ascii_of_string rev]. now rewrite <- app_assoc.
Qed.

Lemma split_go_first (a rest : string) :
  occurs c0 a = false ->
  split_go sep 0 [] (a ++ sep ++ rest) = a :: split_go sep 0 [] rest.
Proof.
  intros Hfree. rewrite (split_go_pass a [] _ Hfree), app_nil_r.
  rewrite append_cons. cbn [split_go].
  change (String c0 (sep' ++ rest)) with (sep ++ rest). rewrite prefix_app_self.
  rewrite rev_involutive, string_of_list_ascii_of_string.
  change (String.length sep - 1) with (String.length sep' - 0).
  now rewrite Nat.sub_0_r, split_go_skip.
Qed.

Lemma append_empty_r (s : string) : s ++ "" = s.
Proof. induction s as [|a s IH]; [reflexivity|]. now rewrite append_cons, IH. Qed.

Lemma string_of_list_ascii_app_rev (cur : list ascii) (s : string) :
  string_of_list_ascii (rev (rev (list_ascii_of_string s) ++ cur))
  = string_of_list_ascii (rev cur) ++ s.
Proof.
  rewrite rev_app_distr, rev_involutive.
  induction (rev cur) as [|a l IH]; cbn [app string_of_list_ascii].
  - apply string_of_list_ascii_of_string.
  - now rewrite append_cons, IH.
Qed.

Lemma split_go_none (cur : list ascii) (s : string) :
  occurs c0 s = false ->
  split_go sep 0 cur s = [string_of_list_ascii (rev cur) ++ s].
Proof.
  intros Hfree. rewrite <- (append_empty_r s) at 1.
  rewrite (split_go_pass s cur "" Hfree). cbn [split_go].
  now rewrite string_of_list_ascii_app_rev.
Qed.

Lemma py_in_none (s : string) : occurs c0 s = false -> py_in sep s = false.
Proof.
  induction s as [|a s IH]; [reflexivity|].
  cbn [occurs py_in]. intros Hfree. apply orb_false_elim in Hfree as [Ha Hs].
  now rewrite (prefix_head_neq a s Ha), (IH Hs).
Qed.

Lemma py_in_app (a rest : string) : py_in sep (a ++ sep ++ rest) = true.
Proof.
  induction a as [|c a IH].
  - rewrite append_empty_l. destruct (sep ++ rest) eqn:Hs; [discriminate|].
    cbn [py_in]. rewrite <- Hs, prefix_app_self. reflexivity.
  - rewrite append_cons. cbn [py_in]. rewrite IH. apply orb_true_r.
Qed.

End Split.

Lemma split_tagged_closing (cur : list ascii) (after : string) :
  occurs "`" after = false ->
  exists tail,
    split_go "```json" 0 cur ("```" ++ after) =
      (if String.prefix "json" after
       then string_of_list_ascii (rev cur)
       else string_of_list_ascii (rev cur) ++ "```" ++ after) :: tail.
Proof.
  intros Hfree.
  change ("```" ++ after) with (String "`" (String "`" (String "`" after))).
  cbn [split_go]. cbn [String.prefix]. repeat (destruct (ascii_dec _ _); [|contradiction]).
  change (match after with
          | "" => false
          | String b s2' => if ascii_dec "j" b then String.prefix "son" s2' else false
          end) with (String.prefix "json" after).
  destruct (String.prefix "json" after); [eexists; reflexivity|].
  assert (Hhead : forall p, String.prefix (String "`" p) after = false).
  { intros p. destruct after as [|c after']; [reflexivity|].
    cbn [occurs] in Hfree. apply orb_false_elim in Hfree as [Hc _].
    apply (prefix_head_neq "`" p c after' Hc). }
  cbn [split_go]. cbn [String.prefix]. repeat (destruct (ascii_dec _ _); [|contradiction]).
  change (match after with
          | "" => false
          | String b s2' => if ascii_dec "`" b then String.prefix "json" s2' else false
          end) with (String.prefix "`json" after).
  rewrite Hhead.
  cbn [split_go]. cbn [String.prefix]. repeat (destruct (ascii_dec _ _); [|contradiction]).
  change (match after with
          | "" => false
          | String b s2' => if ascii_dec "`" b then String.prefix "`json" s2' else false
          end) with (String.prefix "``json" after).
  rewrite Hhead.
  rewrite (split_go_none "`" "``json" _ after Hfree). exists [].
  cbn [rev app]. rewrite <- !app_assoc. cbn [app].
  f_equal. induction (rev cur) as [|a l IH]; [reflexivity|].
  cbn [app string_of_list_ascii]. now rewrite append_cons, IH.
Qed.

(** X18. A reply that wraps its JSON in a fence tagged [json], with no
    other backtick before, inside or after the fence, is unwrapped to the
    stripped text between the fences; a reply without any backtick is
    passed on as it is; and no reply makes the unwrapping raise: the
    indices [1] and [0] are always in range. *)
Theorem strip_fence_unwraps (before body after response : string) :
  occurs "`" before = false ->
  occurs "`" body = false ->
  occurs "`" after = false ->
  strip_fence (before ++ "```json" ++ body ++ "```" ++ after) = Ok (str_strip body) /\
  strip_fence before = Ok before /\
  exists cleaned, strip_fence response = Ok cleaned.
Proof.
  intros Hbefore Hbody Hafter. split; [|split; [|apply strip_fence_returns]].
  - unfold strip_fence. rewrite (py_in_app "`" "``json" before).
    unfold py_split. rewrite (split_go_first "`" "``json" before _ Hbefore).
    rewrite (split_go_pass "`" "``json" body [] _ Hbody), app_nil_r.
    destruct (split_tagged_closing (rev (list_ascii_of_string body)) after Hafter)
      as [tail ->].
    rewrite rev_involutive, string_of_list_ascii_of_string.
    unfold subscript. cbn [lookup list_lookup mbind outcome_bind].
    destruct (String.prefix "json" after).
    + rewrite (split_go_none "`" "``" [] body Hbody). reflexivity.
    + rewrite (split_go_first "`" "``" body after Hbody). reflexivity.
  - unfold strip_fence.
    rewrite (py_in_none "`" "``json" before Hbefore), (py_in_none "`" "``" before Hbefore).
    reflexivity.
Qed.

End Coverage.

(** * The pipeline on concrete messages *)

Import Demo Scenario Cases.

(** The spec's example of case-insensitive matching: ["Food"] against
    ["food"]. *)
Example is_duplicate_ignores_case :
  is_duplicate {[ "date" := JStr "2024-01-01"; "category" := JStr "Food" ]}
               [ {[ "date" := JStr "2024-01-01"; "category" := JStr "food" ]} ] = true.
Proof. vm_compute. reflexivity. Qed.

(** A stored row of four cells is read as a record of six fields. *)
Example get_existing_data_short_row :
  get_existing_data (Ok stored_kopi) =
    [ {[ "date" := JStr "2024-01-01"; "amount" := JStr "-20000.0";
         "category" := JStr "makanan"; "description" := JStr "BELI KOPI";
         "user_id" := JStr ""; "timestamp" := JStr "" ]} ].
Proof. vm_compute. reflexivity. Qed.

(** A run of the [mixed] inbox: only the receipt is marked, and it is
    announced by one per-transaction notification. *)
Example process_gmail_account_mixed :
  calls (final (process_gmail_account mixed "default")) =
    [MarkProcessed "m2";
     SheetsAppend [header_row;
                   [JStr "2024-01-01"; JFloat (SFopp (float_of_Z 20000)); JStr "Makanan";
                    JStr "Beli kopi"; JStr "email-processor-default";
                    JStr "2024-01-02 08:00:00"]];
     NotifyTransaction kopi_entry "default"].
Proof. vm_compute. reflexivity. Qed.

(** C2, on three replies: 20000 for an expense is stored as -20000.0;
    -5000000 for an income is stored as 5000000.0; -750 without any type is
    stored as 750.0. *)
Lemma normalize_amount_sign_witness :
  (parsed_kopi !! "amount" = Some (JInt 20000) /\
   JInt 20000 <> JNull /\
   py_float (JInt 20000) = Ok (float_of_Z 20000) /\
   parsed_kopi !! "transaction_type" = Some (JStr "expense") /\
   exists d',
     normalize_amount (JObj parsed_kopi) = Ok d' /\
     d' !! "amount" = Some (JFloat (SFopp (float_of_Z 20000))) /\
     (forall k, k <> "amount" -> d' !! k = parsed_kopi !! k) /\
     normalize_amount (JObj (<["amount" := JFloat (SFopp (float_of_Z 20000))]> parsed_kopi))
       = Ok d') /\
  (parsed_gaji !! "amount" = Some (JInt (-5000000)) /\
   JInt (-5000000) <> JNull /\
   py_float (JInt (-5000000)) = Ok (float_of_Z (-5000000)) /\
   parsed_gaji !! "transaction_type" <> Some (JStr "expense") /\
   exists d',
     normalize_amount (JObj parsed_gaji) = Ok d' /\
     d' !! "amount" = Some (JFloat (float_of_Z 5000000))) /\
  (untyped !! "amount" = Some (JInt (-750)) /\
   JInt (-750) <> JNull /\
   py_float (JInt (-750)) = Ok (float_of_Z (-750)) /\
   untyped !! "transaction_type" <> Some (JStr "expense") /\
   exists d',
     normalize_amount (JObj untyped) = Ok d' /\
     d' !! "amount" = Some (JFloat (float_of_Z 750))).
Proof.
  assert (H1 : parsed_kopi !! "amount" = Some (JInt 20000)) by (vm_compute; reflexivity).
  assert (H2 : JInt 20000 <> JNull) by discriminate.
  assert (H3 : py_float (JInt 20000) = Ok (float_of_Z 20000)) by (vm_compute; reflexivity).
  assert (H4 : parsed_kopi !! "transaction_type" = Some (JStr "expense"))
    by (vm_compute; reflexivity).
  assert (G1 : parsed_gaji !! "amount" = Some (JInt (-5000000))) by (vm_compute; reflexivity).
  assert (G2 : JInt (-5000000) <> JNull) by discriminate.
  assert (G3 : py_float (JInt (-5000000)) = Ok (float_of_Z (-5000000)))
    by (vm_compute; reflexivity).
  assert (G4 : parsed_gaji !! "transaction_type" <> Some (JStr "expense")).
  { intros Heq. vm_compute in Heq. discriminate. }
  assert (U1 : untyped !! "amount" = Some (JInt (-750))) by (vm_compute; reflexivity).
  assert (U2 : JInt (-750) <> JNull) by discriminate.
  assert (U3 : py_float (JInt (-750)) = Ok (float_of_Z (-750))) by (vm_compute; reflexivity).
  assert (U4 : untyped !! "transaction_type" <> Some (JStr "expense")).
  { intros Heq. vm_compute in Heq. discriminate. }
  split; [|split].
  - split; [exact H1|]. split; [exact H2|]. split; [exact H3|]. split; [exact H4|].
    destruct (normalize_amount_sign parsed_kopi (JInt 20000) (float_of_Z 20000) H1 H2 H3)
      as (d' & Hn & Hexpense & _ & Hkeep & Hsame).
    exists d'. split; [exact Hn|]. split; [exact (Hexpense H4)|].
    split; [exact Hkeep|exact Hsame].
  - split; [exact G1|]. split; [exact G2|]. split; [exact G3|]. split; [exact G4|].
    destruct (normalize_amount_sign parsed_gaji (JInt (-5000000)) (float_of_Z (-5000000))
                G1 G2 G3) as (d' & Hn & _ & Hother & _).
    exists d'. split; [exact Hn|exact (Hother G4)].
  - split; [exact U1|]. split; [exact U2|]. split; [exact U3|]. split; [exact U4|].
    destruct (normalize_amount_sign untyped (JInt (-750)) (float_of_Z (-750)) U1 U2 U3)
      as (d' & Hn & _ & Hother & _).
    exists d'. split; [exact Hn|exact (Hother U4)].
Defined.

(** C3, on the coffee receipt: the normalized record is a fixed point. *)
Lemma normalize_amount_idempotent_witness :
  normalize_amount (JObj parsed_kopi) = Ok kopi_transaction /\
  normalize_amount (JObj kopi_transaction) = Ok kopi_transaction.
Proof.
  assert (H1 : normalize_amount (JObj parsed_kopi) = Ok kopi_transaction)
    by (vm_compute; reflexivity).
  split; [exact H1|].
  exact (normalize_amount_idempotent (JObj parsed_kopi) kopi_transaction H1).
Defined.

(** C4 fails as stated.  An HTML part that stands before a plain-text part
    is the one returned, although the plain-text part decodes; and a body
    that is no UTF-8 makes the extractor raise instead of returning
    nothing. *)
Lemma extract_email_body_html_before_plain :
  extract_email_body html_then_plain = Ok (Some "Beli kopi 20000") /\
  extract_email_body (leaf "text/plain" listrik_b64) = Ok (Some "Bayar listrik 150000") /\
  extract_email_body broken_plain = Raised ValueError.
Proof. repeat split; vm_compute; reflexivity. Qed.

(** C4, as the code has it, on a message whose plain-text part comes after
    a text part without data and a container without text, and before an
    HTML part; on a message without any body data; and on three messages
    that make the extractor raise: an HTML part and a payload without
    parts whose data is no UTF-8, and a plain-text part without body. *)
Lemma extract_email_body_plain_first_witness :
  Forall yields_nothing silent_parts /\
  part_with_data (leaf "text/plain" kopi_b64) "text/plain" kopi_b64 /\
  no_data empty_message = true /\
  extract_email_body
    (Payload (Some "multipart/alternative") None
       (Some (silent_parts ++ leaf "text/plain" kopi_b64
                :: [leaf "text/html" kopi_html_b64])%list))
    = Ok (Some "Beli kopi 20000") /\
  extract_email_body empty_message = Ok None /\
  extract_email_body
    (Payload (Some "multipart/alternative") None
       (Some (silent_parts ++ broken_html :: [leaf "text/html" kopi_html_b64])%list))
    = Raised ValueError /\
  extract_email_body broken_plain = Raised ValueError /\
  extract_email_body
    (Payload (Some "multipart/alternative") None
       (Some (silent_parts ++ bodiless :: [leaf "text/html" kopi_html_b64])%list))
    = Raised KeyError.
Proof.
  assert (H1 : Forall yields_nothing silent_parts).
  { repeat constructor.
    - exists {| data := None |}. split; reflexivity.
    - exists None. split; vm_compute; reflexivity. }
  assert (H2 : part_with_data (leaf "text/plain" kopi_b64) "text/plain" kopi_b64).
  { split; [reflexivity|]. split; [|reflexivity].
    exists {| data := Some kopi_b64 |}. split; reflexivity. }
  assert (H3 : no_data empty_message = true) by (vm_compute; reflexivity).
  assert (H4 : part_with_data broken_html "text/html" broken_b64).
  { split; [reflexivity|]. split; [|reflexivity].
    exists {| data := Some broken_b64 |}. split; reflexivity. }
  assert (H5 : b64_utf8_decode broken_b64 = Raised ValueError) by (vm_compute; reflexivity).
  destruct (extract_email_body_plain_first (Some "multipart/alternative") None silent_parts
              [leaf "text/html" kopi_html_b64] (leaf "text/plain" kopi_b64) kopi_b64
              empty_message H1 H2 H3) as (Hplain & Hnone & Hhtml & Hleaf & Hbody).
  split; [exact H1|]. split; [exact H2|]. split; [exact H3|].
  split; [exact Hplain|]. split; [exact Hnone|].
  split; [exact (Hhtml broken_html broken_b64 ValueError H4 H5)|].
  split; [exact (Hleaf (Some "text/plain") {| data := Some broken_b64 |} broken_b64
                   ValueError eq_refl eq_refl H5)|].
  exact (Hbody bodiless eq_refl eq_refl).
Defined.

(** C5 fails as stated.  No part at the outer level is plain text or HTML
    and the second container holds text that decodes, yet the extractor
    does not return it: the first container raises, and so does the
    extractor. *)
Lemma extract_email_body_container_raises :
  Forall (fun part => mime_is part "text/plain" = false /\
                      mime_is part "text/html" = false)
         [node "multipart/related" [leaf "text/plain" broken_b64];
          node "multipart/alternative" [leaf "text/plain" listrik_b64]] /\
  extract_email_body (node "multipart/alternative" [leaf "text/plain" listrik_b64])
    = Ok (Some "Bayar listrik 150000") /\
  extract_email_body raising_then_text = Raised ValueError.
Proof. split; [repeat constructor|split; vm_compute; reflexivity]. Qed.

(** C5, as the code has it, on a message whose text sits in the third
    part, inside a container; on the message above; and on the HTML
    [<p>Beli kopi 20000</p>], as the only part of a message and as a
    message without parts. *)
Lemma extract_email_body_fallbacks_witness :
  Forall (fun part => mime_is part "text/plain" = false /\
                      mime_is part "text/html" = false)
         [node "multipart/related" [leaf "image/png" "iVBORw0KGgo="];
          leaf "application/pdf" "JVBERi0=";
          node "multipart/alternative" [leaf "text/plain" listrik_b64]] /\
  part_with_data (leaf "text/html" kopi_html_b64) "text/html" kopi_html_b64 /\
  b64_utf8_decode kopi_html_b64 = Ok "<p>Beli kopi 20000</p>" /\
  extract_email_body nested = Ok (Some "Bayar listrik 150000") /\
  extract_email_body html_only = Ok (Some "Beli kopi 20000") /\
  extract_email_body (leaf "text/html" kopi_html_b64) = Ok (Some "Beli kopi 20000") /\
  occurs "<" "Beli kopi 20000" = false /\
  occurs ">" "Beli kopi 20000" = false /\
  (Forall (fun part => mime_is part "text/plain" = false /\
                       mime_is part "text/html" = false)
          [node "multipart/related" [leaf "text/plain" broken_b64];
           node "multipart/alternative" [leaf "text/plain" listrik_b64]] /\
   extract_email_body raising_then_text = Raised ValueError).
Proof.
  assert (H1 : Forall (fun part => mime_is part "text/plain" = false /\
                                   mime_is part "text/html" = false)
                 [node "multipart/related" [leaf "image/png" "iVBORw0KGgo="];
                  leaf "application/pdf" "JVBERi0=";
                  node "multipart/alternative" [leaf "text/plain" listrik_b64]])
    by (repeat constructor).
  assert (H2 : part_with_data (leaf "text/html" kopi_html_b64) "text/html" kopi_html_b64).
  { split; [reflexivity|]. split; [|reflexivity].
    exists {| data := Some kopi_html_b64 |}. split; reflexivity. }
  assert (H3 : b64_utf8_decode kopi_html_b64 = Ok "<p>Beli kopi 20000</p>")
    by (vm_compute; reflexivity).
  assert (H4 : Forall (fun part => mime_is part "text/plain" = false /\
                                   mime_is part "text/html" = false)
                 [node "multipart/related" [leaf "text/plain" broken_b64];
                  node "multipart/alternative" [leaf "text/plain" listrik_b64]])
    by (repeat constructor).
  destruct (extract_email_body_fallbacks (Some "multipart/mixed") (Some {| data := None |})
              _ (leaf "text/html" kopi_html_b64) kopi_html_b64 "<p>Beli kopi 20000</p>"
              H1 H2 H3) as (_ & Hfound & _ & Honly & Hleaf & Hchars & Htags).
  destruct (extract_email_body_fallbacks (Some "multipart/mixed") (Some {| data := None |})
              _ (leaf "text/html" kopi_html_b64) kopi_html_b64 "<p>Beli kopi 20000</p>"
              H4 H2 H3) as (_ & _ & Hraised & _).
  split; [exact H1|]. split; [exact H2|]. split; [exact H3|].
  split.
  { apply (Hfound [node "multipart/related" [leaf "image/png" "iVBORw0KGgo="]] []
             (node "multipart/alternative" [leaf "text/plain" listrik_b64])
             "Bayar listrik 150000" eq_refl).
    - repeat constructor. exists None. split; vm_compute; reflexivity.
    - vm_compute. reflexivity.
    - reflexivity. }
  split; [exact Honly|]. split; [exact (Hleaf eq_refl)|].
  split; [exact (Htags eq_refl)|].
  split.
  { apply (Hchars ">"%char); [discriminate|]. repeat constructor. }
  split; [exact H4|].
  apply (Hraised [] [node "multipart/alternative" [leaf "text/plain" listrik_b64]]
           (node "multipart/related" [leaf "text/plain" broken_b64]) ValueError eq_refl).
  - constructor.
  - vm_compute. reflexivity.
Defined.

(** Every message of [two_known] is classified as the receipt that the
    store already holds. *)
Lemma two_known_duplicates :
  Forall (classified_duplicate two_known (get_existing_data (sheet_values two_known)))
         (inbox two_known).
Proof.
  repeat constructor;
    (exists "Beli kopi 20000", kopi_transaction; repeat split; vm_compute; reflexivity).
Qed.

(** C6, on two receipts that the store already holds: both are marked,
    nothing is staged or appended. *)
Lemma process_gmail_account_all_duplicates_witness :
  session two_known = Ok tt /\
  Forall (classified_duplicate two_known (get_existing_data (sheet_values two_known)))
         (inbox two_known) /\
  let r := process_gmail_account two_known "default" in
  calls (final r) = [MarkProcessed "m1"; MarkProcessed "m2"] /\
  staged_rows (final r) = [] /\
  processed_transactions (final r) = [] /\
  duplicate_count (final r) = 2%nat.
Proof.
  split; [reflexivity|]. split; [exact two_known_duplicates|].
  exact (process_gmail_account_all_duplicates two_known "default" eq_refl
           two_known_duplicates).
Defined.

(** C7 fails as stated.  The body of the second message cannot be decoded:
    the message is not passed over, the loop stops at it and the third
    message is never looked at, where the loop without that message marks
    the first and the third; and the run ends with the one request to mark
    the first message, whose row is never appended. *)
Lemma undecodable_message_stops_batch :
  extract_email_body (email_payload (broken_mail "m2")) = Raised ValueError /\
  snd (process_emails broken_second "default" [] (inbox broken_second)
         (loop_start "default")) = Some ValueError /\
  calls (fst (process_emails broken_second "default" [] (inbox broken_second)
                (loop_start "default"))) = [MarkProcessed "m1"] /\
  calls (fst (process_emails broken_second "default" []
                [kopi_mail "m1"; kopi_mail "m3"] (loop_start "default")))
    = [MarkProcessed "m1"; MarkProcessed "m3"] /\
  calls (final (process_gmail_account broken_second "default")) = [MarkProcessed "m1"].
Proof. repeat split; vm_compute; reflexivity. Qed.

(** C7, as the code has it: between two receipts, the message whose reply
    is no JSON is passed over and the second receipt is handled, while the
    message that cannot be decoded stops the loop after the first
    receipt. *)
Lemma process_emails_skips_witness :
  skipped mixed (empty_mail "m0") /\
  skipped mixed (listrik_mail "m2") /\
  process_email mixed "default" [] (loop_start "default") (listrik_mail "m2")
    = Ok (loop_start "default") /\
  process_emails mixed "default" []
    ([kopi_mail "m1"] ++ listrik_mail "m2" :: [kopi_mail "m3"])%list (loop_start "default")
  = process_emails mixed "default" []
      ([kopi_mail "m1"] ++ [kopi_mail "m3"])%list (loop_start "default") /\
  calls (fst (process_emails mixed "default" []
                ([kopi_mail "m1"] ++ listrik_mail "m2" :: [kopi_mail "m3"])%list
                (loop_start "default")))
    = [MarkProcessed "m1"; MarkProcessed "m3"] /\
  extract_email_body (email_payload (broken_mail "m2")) = Raised ValueError /\
  process_emails mixed "default" []
    ([kopi_mail "m1"] ++ broken_mail "m2" :: [kopi_mail "m3"])%list (loop_start "default")
  = (fst (process_emails mixed "default" [] [kopi_mail "m1"] (loop_start "default")),
     Some ValueError).
Proof.
  assert (H1 : skipped mixed (empty_mail "m0")).
  { exists None. split; [vm_compute; reflexivity|]. left. reflexivity. }
  assert (H2 : skipped mixed (listrik_mail "m2")).
  { exists (Some "Bayar listrik 150000"). split; [vm_compute; reflexivity|].
    right. exists ValueError. vm_compute. reflexivity. }
  assert (H3 : extract_email_body (email_payload (broken_mail "m2")) = Raised ValueError)
    by (vm_compute; reflexivity).
  assert (H4 : process_emails mixed "default" [] [kopi_mail "m1"] (loop_start "default")
               = (fst (process_emails mixed "default" [] [kopi_mail "m1"]
                         (loop_start "default")), None))
    by (vm_compute; reflexivity).
  destruct (process_emails_skips mixed "default" [] [kopi_mail "m1"] [kopi_mail "m3"]
              (listrik_mail "m2") (loop_start "default") H2)
    as (Hstep & Hloop & Hstop).
  split; [exact H1|]. split; [exact H2|]. split; [exact Hstep|]. split; [exact Hloop|].
  split; [vm_compute; reflexivity|]. split; [exact H3|].
  exact (Hstop (broken_mail "m2") ValueError _ H3 H4).
Defined.

(** C8 fails as stated.  Six new transactions are staged and appended, and
    no notification at all is sent: the notifier module was not
    importable. *)
Lemma six_new_without_notifier :
  List.length (staged_rows (final (process_gmail_account six_new_no_notifier "default")))
    = 6%nat /\
  notifications (calls (final (process_gmail_account six_new_no_notifier "default"))) = [].
Proof. split; vm_compute; reflexivity. Qed.

(** C8, as the code has it, on six new transactions with the notifier
    module at hand: one batch notification for six. *)
Lemma process_gmail_account_notifications_witness :
  session six_new = Ok tt /\
  process_emails six_new "default" (get_existing_data (sheet_values six_new))
    (inbox six_new) (loop_start "default") = (loop_end six_new "default", None) /\
  staged_rows (loop_end six_new "default") <> [] /\
  notifications (calls (final (process_gmail_account six_new "default")))
    = [NotifyBatch 6 "default"] /\
  List.length (processed_transactions (loop_end six_new "default")) = 6%nat.
Proof.
  assert (H2 : process_emails six_new "default" (get_existing_data (sheet_values six_new))
                 (inbox six_new) (loop_start "default")
               = (loop_end six_new "default", None)) by (vm_compute; reflexivity).
  assert (H3 : staged_rows (loop_end six_new "default") <> []).
  { intros Hnil. apply (f_equal List.length) in Hnil. vm_compute in Hnil. discriminate. }
  split; [reflexivity|]. split; [exact H2|]. split; [exact H3|].
  exact (process_gmail_account_notifications six_new "default"
           (loop_end six_new "default") eq_refl H2 H3).
Defined.

(** C9 fails as stated.  The run whose append fails returns what the run
    without candidates, the run whose only message cannot be classified and
    the run that succeeds return; it goes on to report one processed
    transaction and to notify it. *)
Lemma append_failure_not_surfaced :
  returned (process_gmail_account store_down "default")
    = returned (process_gmail_account no_candidates "default") /\
  returned (process_gmail_account store_down "default")
    = returned (process_gmail_account unclassified "default") /\
  returned (process_gmail_account store_down "default")
    = returned (process_gmail_account six_new "default") /\
  printed (final (process_gmail_account store_down "default"))
    = [ProcessingAccount "default"; ErrorAppending BackendError; ProcessedNew 1] /\
  notifications (calls (final (process_gmail_account store_down "default")))
    = [NotifyTransaction kopi_entry "default"].
Proof. repeat split; vm_compute; reflexivity. Qed.

(** C9, as the code has it, on one receipt and a store that refuses the
    append. *)
Lemma process_gmail_account_append_failure_witness :
  session store_down = Ok tt /\
  process_emails store_down "default" (get_existing_data (sheet_values store_down))
    (inbox store_down) (loop_start "default") = (loop_end store_down "default", None) /\
  staged_rows (loop_end store_down "default") <> [] /\
  (forall rows, sheet_append store_down rows = Raised BackendError) /\
  let r := process_gmail_account store_down "default" in
  returned r = JNull /\
  (forall w' account_id', returned (process_gmail_account w' account_id') = returned r) /\
  (exists rows sent,
     calls (final r) = (calls (loop_end store_down "default") ++ SheetsAppend rows :: sent)%list) /\
  ErrorAppending BackendError ∈ printed (final r) /\
  ProcessedNew (List.length (staged_rows (loop_end store_down "default"))) ∈ printed (final r).
Proof.
  assert (H2 : process_emails store_down "default"
                 (get_existing_data (sheet_values store_down))
                 (inbox store_down) (loop_start "default")
               = (loop_end store_down "default", None)) by (vm_compute; reflexivity).
  assert (H3 : staged_rows (loop_end store_down "default") <> []).
  { intros Hnil. apply (f_equal List.length) in Hnil. vm_compute in Hnil. discriminate. }
  assert (H4 : forall rows, sheet_append store_down rows = Raised BackendError)
    by (intros rows; reflexivity).
  split; [reflexivity|]. split; [exact H2|]. split; [exact H3|]. split; [exact H4|].
  exact (process_gmail_account_append_failure store_down "default"
           (loop_end store_down "default") BackendError eq_refl H2 H3 H4).
Defined.

(** * The further properties on concrete cases *)

(** X1 on two stored entries in both orders. *)
Lemma is_duplicate_order_insensitive_witness :
  [listrik_entry; kopi_entry] ≡ₚ [kopi_entry; listrik_entry] /\
  is_duplicate kopi_entry [listrik_entry; kopi_entry] =
    is_duplicate kopi_entry [kopi_entry; listrik_entry] /\
  is_duplicate kopi_entry ([listrik_entry; kopi_entry] ++ [listrik_entry])%list =
    is_duplicate kopi_entry [listrik_entry; kopi_entry] || is_duplicate kopi_entry [listrik_entry].
Proof.
  assert (H1 : [listrik_entry; kopi_entry] ≡ₚ [kopi_entry; listrik_entry])
    by apply perm_swap.
  split; [exact H1|].
  exact (is_duplicate_order_insensitive kopi_entry [listrik_entry; kopi_entry]
           [kopi_entry; listrik_entry] [listrik_entry] H1).
Defined.

(** X5 on the coffee receipt, an expense reported as 20000, and on the
    salary, an income reported as -5000000. *)
Lemma parse_email_with_gemini_well_signed_witness :
  (parse_email_with_gemini model "2024-01-02" "Beli kopi 20000" = Some kopi_transaction /\
   amount_well_signed kopi_transaction /\
   kopi_transaction !! "amount" = Some (JFloat (SFopp (float_of_Z 20000)))) /\
  (parse_email_with_gemini payroll "2024-01-02" "Terima gaji 5000000"
     = Some gaji_transaction /\
   amount_well_signed gaji_transaction /\
   gaji_transaction !! "amount" = Some (JFloat (float_of_Z 5000000))).
Proof.
  assert (H1 : parse_email_with_gemini model "2024-01-02" "Beli kopi 20000"
               = Some kopi_transaction) by (vm_compute; reflexivity).
  assert (H2 : parse_email_with_gemini payroll "2024-01-02" "Terima gaji 5000000"
               = Some gaji_transaction) by (vm_compute; reflexivity).
  split.
  - split; [exact H1|]. split; [|vm_compute; reflexivity].
    exact (parse_email_with_gemini_well_signed model "2024-01-02" "Beli kopi 20000"
             kopi_transaction H1).
  - split; [exact H2|]. split; [|vm_compute; reflexivity].
    exact (parse_email_with_gemini_well_signed payroll "2024-01-02" "Terima gaji 5000000"
             gaji_transaction H2).
Defined.

(** X6 on a run with a message without text, a receipt and a message the
    model cannot classify. *)
Lemma process_emails_accounting_witness :
  process_emails mixed "default" (get_existing_data (sheet_values mixed)) (inbox mixed)
    (loop_start "default") = (loop_end mixed "default", None) /\
  exists marked,
    calls (loop_end mixed "default") = map MarkProcessed marked /\
    marked `sublist_of` map email_id (inbox mixed) /\
    List.length marked =
      (List.length (staged_rows (loop_end mixed "default"))
       + duplicate_count (loop_end mixed "default"))%nat /\
    all_data_rows (loop_end mixed "default")
      = header_row :: staged_rows (loop_end mixed "default") /\
    staged_for mixed "default" (staged_rows (loop_end mixed "default"))
      (processed_transactions (loop_end mixed "default")).
Proof.
  assert (H1 : process_emails mixed "default" (get_existing_data (sheet_values mixed))
                 (inbox mixed) (loop_start "default") = (loop_end mixed "default", None))
    by (vm_compute; reflexivity).
  split; [exact H1|].
  exact (process_emails_accounting mixed "default" (get_existing_data (sheet_values mixed))
           (inbox mixed) (loop_end mixed "default") None H1).
Defined.

(** X7 on two receipts and an empty store. *)
Lemma process_gmail_account_all_new_witness :
  session two_new = Ok tt /\
  Forall (classified_new two_new (get_existing_data (sheet_values two_new))) (inbox two_new) /\
  let r := process_gmail_account two_new "default" in
  List.length (staged_rows (final r)) = List.length (inbox two_new) /\
  duplicate_count (final r) = 0%nat /\
  List.filter is_mark (calls (final r)) =
    map (fun email => MarkProcessed (email_id email)) (inbox two_new).
Proof.
  assert (H2 : Forall (classified_new two_new (get_existing_data (sheet_values two_new)))
                 (inbox two_new)).
  { repeat (apply List.Forall_cons;
            [exists "Beli kopi 20000", kopi_transaction;
             repeat split; vm_compute; reflexivity|]).
    apply List.Forall_nil. }
  split; [reflexivity|]. split; [exact H2|].
  exact (process_gmail_account_all_new two_new "default" eq_refl H2).
Defined.

(** X8 on a run whose second message cannot be decoded. *)
Lemma process_gmail_account_aborted_witness :
  session broken_second = Ok tt /\
  process_emails broken_second "default" (get_existing_data (sheet_values broken_second))
    (inbox broken_second) (loop_start "default")
    = (loop_end broken_second "default", Some ValueError) /\
  let r := process_gmail_account broken_second "default" in
  returned r = JNull /\
  (exists marked,
     calls (final r) = map MarkProcessed marked /\
     List.length marked =
       (List.length (staged_rows (loop_end broken_second "default"))
        + duplicate_count (loop_end broken_second "default"))%nat) /\
  printed (final r) =
    (printed (loop_end broken_second "default")
     ++ [ErrorProcessingAccount "default" ValueError])%list.
Proof.
  assert (H2 : process_emails broken_second "default"
                 (get_existing_data (sheet_values broken_second))
                 (inbox broken_second) (loop_start "default")
               = (loop_end broken_second "default", Some ValueError))
    by (vm_compute; reflexivity).
  split; [reflexivity|]. split; [exact H2|].
  exact (process_gmail_account_aborted broken_second "default"
           (loop_end broken_second "default") ValueError eq_refl H2).
Defined.

(** X9 on two receipts and an empty store. *)
Lemma process_gmail_account_appended_rows_witness :
  session two_new = Ok tt /\
  process_emails two_new "default" (get_existing_data (sheet_values two_new))
    (inbox two_new) (loop_start "default") = (loop_end two_new "default", None) /\
  staged_rows (loop_end two_new "default") <> [] /\
  let r := process_gmail_account two_new "default" in
  exists marked sent,
    calls (final r) =
      (map MarkProcessed marked ++
       SheetsAppend (match get_existing_data (sheet_values two_new) with
                     | [] => header_row :: staged_rows (loop_end two_new "default")
                     | _ :: _ => staged_rows (loop_end two_new "default")
                     end) :: sent)%list /\
    notifications sent = sent /\
    staged_for two_new "default" (staged_rows (loop_end two_new "default"))
      (processed_transactions (loop_end two_new "default")) /\
    Forall (fun row => List.length row = 6%nat) (staged_rows (loop_end two_new "default")).
Proof.
  assert (H2 : process_emails two_new "default" (get_existing_data (sheet_values two_new))
                 (inbox two_new) (loop_start "default") = (loop_end two_new "default", None))
    by (vm_compute; reflexivity).
  assert (H3 : staged_rows (loop_end two_new "default") <> []).
  { intros Hnil. apply (f_equal List.length) in Hnil. vm_compute in Hnil. discriminate. }
  split; [reflexivity|]. split; [exact H2|]. split; [exact H3|].
  exact (process_gmail_account_appended_rows two_new "default"
           (loop_end two_new "default") eq_refl H2 H3).
Defined.

(** X10 on five configurations: without a token, switched off and without
    chats nothing is posted; with two chats both receive the summary, and
    the flag tells whether one of them accepted it. *)
Lemma send_batch_notification_result_witness :
  send_batch_notification no_token 6 "default" = ([], false) /\
  send_batch_notification switched_off 6 "default" = ([], false) /\
  send_batch_notification no_chats 6 "default" = ([], false) /\
  send_batch_notification two_chats 6 "default" =
    ([("100", BatchNotice 6 "default"); ("200", BatchNotice 6 "default")], true) /\
  send_batch_notification deaf_chats 6 "default" =
    ([("100", BatchNotice 6 "default"); ("200", BatchNotice 6 "default")], false).
Proof.
  assert (Hids : ["100"; "200"] <> @nil string) by discriminate.
  assert (Htoken : "token" <> "") by discriminate.
  split; [|split; [|split; [|split]]].
  - apply (proj1 (send_batch_notification_result no_token 6 "default")).
    right. left. reflexivity.
  - apply (proj1 (send_batch_notification_result switched_off 6 "default")).
    left. reflexivity.
  - apply (proj1 (send_batch_notification_result no_chats 6 "default")).
    right. right. reflexivity.
  - exact (proj2 (send_batch_notification_result two_chats 6 "default") eq_refl Htoken Hids).
  - exact (proj2 (send_batch_notification_result deaf_chats 6 "default") eq_refl Htoken Hids).
Defined.

(** X11 on the coffee receipt, an expense, and on the salary, an income. *)
Lemma label_follows_transaction_type_witness :
  (parsed_kopi !! "amount" = Some (JInt 20000) /\
   JInt 20000 <> JNull /\
   py_float (JInt 20000) = Ok (float_of_Z 20000) /\
   normalize_amount (JObj parsed_kopi) = Ok kopi_transaction /\
   parsed_kopi !! "transaction_type" = Some (JStr "expense") /\
   label_of_amount kopi_transaction = Ok Pengeluaran /\
   label_of_amount (make_entry "2024-01-02" kopi_transaction) = Ok Pengeluaran) /\
  (parsed_gaji !! "amount" = Some (JInt (-5000000)) /\
   JInt (-5000000) <> JNull /\
   py_float (JInt (-5000000)) = Ok (float_of_Z (-5000000)) /\
   normalize_amount (JObj parsed_gaji) = Ok gaji_transaction /\
   parsed_gaji !! "transaction_type" <> Some (JStr "expense") /\
   label_of_amount gaji_transaction = Ok Pemasukan /\
   label_of_amount (make_entry "2024-01-02" gaji_transaction) = Ok Pemasukan).
Proof.
  assert (H1 : parsed_kopi !! "amount" = Some (JInt 20000)) by (vm_compute; reflexivity).
  assert (H2 : JInt 20000 <> JNull) by discriminate.
  assert (H3 : py_float (JInt 20000) = Ok (float_of_Z 20000)) by reflexivity.
  assert (H4 : normalize_amount (JObj parsed_kopi) = Ok kopi_transaction)
    by (vm_compute; reflexivity).
  assert (H5 : parsed_kopi !! "transaction_type" = Some (JStr "expense"))
    by (vm_compute; reflexivity).
  assert (H6 : exists s m e, float_of_Z 20000 = S754_finite s m e)
    by (vm_compute; eauto).
  assert (G1 : parsed_gaji !! "amount" = Some (JInt (-5000000))) by (vm_compute; reflexivity).
  assert (G2 : JInt (-5000000) <> JNull) by discriminate.
  assert (G3 : py_float (JInt (-5000000)) = Ok (float_of_Z (-5000000))) by reflexivity.
  assert (G4 : normalize_amount (JObj parsed_gaji) = Ok gaji_transaction)
    by (vm_compute; reflexivity).
  assert (G5 : parsed_gaji !! "transaction_type" <> Some (JStr "expense")).
  { intros Heq. vm_compute in Heq. discriminate. }
  assert (G6 : exists s m e, float_of_Z (-5000000) = S754_finite s m e)
    by (vm_compute; eauto).
  split.
  - split; [exact H1|]. split; [exact H2|]. split; [exact H3|]. split; [exact H4|].
    split; [exact H5|].
    destruct (label_follows_transaction_type parsed_kopi kopi_transaction (JInt 20000)
                (float_of_Z 20000) "2024-01-02" H1 H2 H3 H4)
      as (label & Hlabel & Hentry & Hcase).
    destruct H6 as (s & m & e & Hfinite). rewrite Hfinite in Hcase.
    rewrite (proj1 Hcase H5) in Hlabel, Hentry. split; [exact Hlabel|exact Hentry].
  - split; [exact G1|]. split; [exact G2|]. split; [exact G3|]. split; [exact G4|].
    split; [exact G5|].
    destruct (label_follows_transaction_type parsed_gaji gaji_transaction (JInt (-5000000))
                (float_of_Z (-5000000)) "2024-01-02" G1 G2 G3 G4)
      as (label & Hlabel & Hentry & Hcase).
    destruct G6 as (s & m & e & Hfinite). rewrite Hfinite in Hcase.
    rewrite (proj2 Hcase G5) in Hlabel, Hentry. split; [exact Hlabel|exact Hentry].
Defined.

(** X12 on a mailbox of two messages, on one whose second message cannot
    be fetched, and on one whose listing fails. *)
Lemma get_emails_all_or_nothing_witness :
  list_messages second_unreachable = Ok ["m1"; "m2"] /\
  get_emails two_messages = [kopi_mail "m1"; listrik_mail "m2"] /\
  get_emails second_unreachable = [] /\
  get_emails listing_down = [].
Proof.
  assert (H1 : list_messages second_unreachable = Ok ["m1"; "m2"]) by reflexivity.
  assert (H1' : list_messages two_messages = Ok ["m1"; "m2"]) by reflexivity.
  split; [exact H1|]. split; [|split].
  - apply (proj1 (get_emails_all_or_nothing two_messages ["m1"; "m2"] H1')).
    repeat constructor.
  - apply (proj1 (proj2 (get_emails_all_or_nothing second_unreachable ["m1"; "m2"] H1))
             "m2" BackendError); [|reflexivity].
    apply elem_of_cons. right. apply elem_of_cons. now left.
  - exact (proj2 (proj2 (get_emails_all_or_nothing second_unreachable ["m1"; "m2"] H1))
             listing_down BackendError eq_refl).
Defined.

(** X13 on a mailbox that has the label. *)
Lemma mark_email_processed_reuses_label_witness :
  labels_list labelled = Ok ([inbox_label] ++ processed_label :: [])%list /\
  Forall (fun l => label_name_of l <> "Processed-Financial") [inbox_label] /\
  label_name_of processed_label = "Processed-Financial" /\
  label_id_of processed_label <> "" /\
  mark_email_processed labelled "m1" "Processed-Financial" true =
    ([ListLabels;
      ModifyMessage "m1" {| addLabelIds := ["Label_7"]; removeLabelIds := Some ["UNREAD"] |}],
     true).
Proof.
  assert (H1 : labels_list labelled = Ok ([inbox_label] ++ processed_label :: [])%list)
    by reflexivity.
  assert (H2 : Forall (fun l => label_name_of l <> "Processed-Financial") [inbox_label]).
  { apply List.Forall_cons; [discriminate|apply List.Forall_nil]. }
  assert (H4 : label_id_of processed_label <> "") by discriminate.
  split; [exact H1|]. split; [exact H2|]. split; [reflexivity|]. split; [exact H4|].
  exact (mark_email_processed_reuses_label labelled "m1" "Processed-Financial" true
           [inbox_label] [] processed_label H1 H2 eq_refl H4).
Defined.

(** X14 on a mailbox that lacks the label. *)
Lemma mark_email_processed_creates_label_witness :
  labels_list unlabelled = Ok [inbox_label] /\
  Forall (fun l => label_name_of l <> "Processed-Financial") [inbox_label] /\
  fst (mark_email_processed unlabelled "m1" "Processed-Financial" false) =
    [ListLabels; CreateLabel "Processed-Financial";
     ModifyMessage "m1" {| addLabelIds := ["Label_8"]; removeLabelIds := None |}].
Proof.
  assert (H1 : labels_list unlabelled = Ok [inbox_label]) by reflexivity.
  assert (H2 : Forall (fun l => label_name_of l <> "Processed-Financial") [inbox_label]).
  { apply List.Forall_cons; [discriminate|apply List.Forall_nil]. }
  split; [exact H1|]. split; [exact H2|].
  exact (mark_email_processed_creates_label unlabelled "m1" "Processed-Financial" false
           [inbox_label] H1 H2).
Defined.

(** X15 on a request with two receipts around a message the model cannot
    classify. *)
Lemma api_marks_follow_appends_witness :
  Api.process_loop two_accepted (Api.api_inbox two_accepted)
    {| Api.processed_count := 0; Api.api_transactions := []; Api.api_calls := [] |}
    = (api_loop_end two_accepted, None) /\
  Api.commit_trace two_accepted (Api.api_calls (api_loop_end two_accepted))
    (Api.processed_count (api_loop_end two_accepted)) /\
  List.length (Api.api_transactions (api_loop_end two_accepted))
    = Api.processed_count (api_loop_end two_accepted).
Proof.
  assert (H1 : Api.process_loop two_accepted (Api.api_inbox two_accepted)
                 {| Api.processed_count := 0; Api.api_transactions := [];
                    Api.api_calls := [] |}
               = (api_loop_end two_accepted, None)) by (vm_compute; reflexivity).
  split; [exact H1|].
  exact (api_marks_follow_appends two_accepted (Api.api_inbox two_accepted)
           (api_loop_end two_accepted) None H1).
Defined.

(** X16 on a request with two receipts while the store is down. *)
Lemma api_store_outage_answers_200_witness :
  Api.api_credentials outage = true /\
  Api.api_services outage = Ok tt /\
  str_truthy (Api.api_key outage) = true /\
  Api.api_gemini outage = Ok tt /\
  Api.api_inbox outage <> [] /\
  (forall data_row, Api.api_append outage data_row = Raised BackendError) /\
  Api.process_loop outage (Api.api_inbox outage)
    {| Api.processed_count := 0; Api.api_transactions := []; Api.api_calls := [] |}
    = (api_loop_end outage, None) /\
  fst (Api.process_emails outage)
    = {| Api.statusCode := 200; Api.body_of := Api.Processed 0 |} /\
  exists rows, snd (Api.process_emails outage) = map Api.AppendRow rows.
Proof.
  assert (H5 : Api.api_inbox outage <> []) by discriminate.
  assert (H6 : forall data_row, Api.api_append outage data_row = Raised BackendError)
    by (intros data_row; reflexivity).
  assert (H7 : Api.process_loop outage (Api.api_inbox outage)
                 {| Api.processed_count := 0; Api.api_transactions := [];
                    Api.api_calls := [] |}
               = (api_loop_end outage, None)) by (vm_compute; reflexivity).
  split; [reflexivity|]. split; [reflexivity|]. split; [reflexivity|].
  split; [reflexivity|]. split; [exact H5|]. split; [exact H6|]. split; [exact H7|].
  exact (api_store_outage_answers_200 outage BackendError (api_loop_end outage)
           eq_refl eq_refl eq_refl eq_refl H5 H6 H7).
Defined.

(** X17 on a request whose second message cannot be decoded. *)
Lemma api_failure_keeps_commits_witness :
  Api.api_credentials broken_request = true /\
  Api.api_services broken_request = Ok tt /\
  str_truthy (Api.api_key broken_request) = true /\
  Api.api_gemini broken_request = Ok tt /\
  Api.process_loop broken_request (Api.api_inbox broken_request)
    {| Api.processed_count := 0; Api.api_transactions := []; Api.api_calls := [] |}
    = (api_loop_end broken_request, Some ValueError) /\
  Api.process_emails broken_request =
    ({| Api.statusCode := 500; Api.body_of := Api.Unhandled ValueError |},
     Api.api_calls (api_loop_end broken_request)) /\
  Api.commit_trace broken_request (Api.api_calls (api_loop_end broken_request))
    (Api.processed_count (api_loop_end broken_request)).
Proof.
  assert (H5 : Api.process_loop broken_request (Api.api_inbox broken_request)
                 {| Api.processed_count := 0; Api.api_transactions := [];
                    Api.api_calls := [] |}
               = (api_loop_end broken_request, Some ValueError))
    by (vm_compute; reflexivity).
  split; [reflexivity|]. split; [reflexivity|]. split; [reflexivity|].
  split; [reflexivity|]. split; [exact H5|].
  exact (api_failure_keeps_commits broken_request ValueError (api_loop_end broken_request)
           eq_refl eq_refl eq_refl eq_refl H5).
Defined.

(** X18 on a reply with prose around the fenced object. *)
Lemma strip_fence_unwraps_witness :
  occurs "`" chatty_before = false /\
  occurs "`" fenced_body = false /\
  occurs "`" chatty_after = false /\
  strip_fence (chatty_before ++ "```json" ++ fenced_body ++ "```" ++ chatty_after)
    = Ok (str_strip fenced_body) /\
  strip_fence chatty_before = Ok chatty_before /\
  exists cleaned, strip_fence "``````" = Ok cleaned.
Proof.
  assert (H1 : occurs "`" chatty_before = false) by (vm_compute; reflexivity).
  assert (H2 : occurs "`" fenced_body = false) by (vm_compute; reflexivity).
  assert (H3 : occurs "`" chatty_after = false) by (vm_compute; reflexivity).
  split; [exact H1|]. split; [exact H2|]. split; [exact H3|].
  exact (strip_fence_unwraps chatty_before fenced_body chatty_after "``````" H1 H2 H3).
Defined.
